(** * Pylogue dashboarding: the chart rendering and interaction pipeline

    A shallow embedding of [src/pylogue/dashboarding.py] (the Python
    function [render_plotly_chart_py] and the JavaScript it ships inside the
    chart's iframe) and of the SQL gate of [scripts/agents/ipl/main.py],
    followed by the properties of the specification that concern them.

    Layout of the development:
    - [Js]      : JSON-like values and the few ECMAScript primitives the
                  embedded script relies on;
    - [Script]  : the functions of the embedded script, in source order;
    - [Py]      : the outcome monad for Python calls and the Python pipeline;
    - [Ipl]     : [_normalize_sql_query], [register_csv_views] and
                  [render_plotly_chart];
    - [IplTools], [Agno], [Basic] : the other tools of the agents and the
                  two example applications that call the pipeline;
    - [Markup]  : the text of the iframe the pipeline stores;
    - the theorems, one group per property. *)

From Stdlib Require Import List String Ascii ZArith QArith Qround Bool Lia.
From Stdlib Require Import DecimalString.
Import ListNotations.

#[local] Set Warnings "-register-all".

Local Open Scope string_scope.
Local Open Scope Z_scope.

(* ================================================================== *)
(** ** JSON-like values and ECMAScript primitives *)
(* ================================================================== *)

Module Js.

(** The document that travels from Python to the script is a tree
    ([const fig=<json literal>]), so in-place mutation by the script is
    modelled by functional update.  [VUndefined] only arises on the
    script side (a missing property).  Numbers are rationals: the script
    never computes with document numbers, it only compares and prints
    them; a number stands for itself on both sides (a document whose
    numbers are not doubles, or are NaN or infinite, is outside the
    model).  Objects keep their keys in order, as [Object.keys] sees them;
    every property is an own property, so a document with the key
    [__proto__], which an object literal reads as the prototype, is
    outside the model. *)
Inductive value : Type :=
| VUndefined
| VNull
| VBool (b : bool)
| VNum (q : Q)
| VStr (s : string)
| VArr (items : list value)
| VObj (props : list (string * value)).

Definition num (z : Z) : value := VNum (inject_Z z).

(** [Array.isArray]. *)
Definition isArray (v : value) : bool :=
  match v with VArr _ => true | _ => false end.

(** [v === null]. *)
Definition isNull (v : value) : bool :=
  match v with VNull => true | _ => false end.

(** [v === undefined || v === null], also written [v == null]. *)
Definition isNullish (v : value) : bool :=
  match v with VUndefined | VNull => true | _ => false end.

(** [v !== undefined]. *)
Definition isDefined (v : value) : bool :=
  match v with VUndefined => false | _ => true end.

(** ToBoolean: the falsy values are undefined, null, false, 0 and the
    empty string; every array and object is truthy. *)
Definition truthy (v : value) : bool :=
  match v with
  | VUndefined | VNull => false
  | VBool b => b
  | VNum q => negb (Qeq_bool q 0)
  | VStr s => negb (String.eqb s "")
  | VArr _ | VObj _ => true
  end.

(** [a || b]. *)
Definition or_else (a b : value) : value := if truthy a then a else b.

(** [typeof v === 'object'] (true of null, arrays and objects). *)
Definition typeofObject (v : value) : bool :=
  match v with VNull | VArr _ | VObj _ => true | _ => false end.

(** [typeof v === 'string']. *)
Definition typeofString (v : value) : bool :=
  match v with VStr _ => true | _ => false end.

(** [v === q] for a number [q]. *)
Definition numIs (v : value) (q : Q) : bool :=
  match v with VNum p => Qeq_bool p q | _ => false end.

(** [Number.isInteger(v) ? v : dflt], read as an integer. *)
Definition integerOr (v : value) (dflt : Z) : Z :=
  match v with
  | VNum q => if Qeq_bool q (inject_Z (Qfloor q)) then Qfloor q else dflt
  | _ => dflt
  end.

Definition isInteger (v : value) : bool :=
  match v with
  | VNum q => Qeq_bool q (inject_Z (Qfloor q))
  | _ => false
  end.

(** Decimal rendering of an integer, as in ['annotations['+idx+'].text']. *)
Definition decimal (z : Z) : string := NilZero.string_of_int (Z.to_int z).

(** A canonical array index: the decimal rendering of a natural number. *)
Definition arrayIndex (k : string) : option nat :=
  match NilEmpty.uint_of_string k with
  | Some d =>
      let n := Nat.of_uint d in
      if String.eqb (decimal (Z.of_nat n)) k then Some n else None
  | None => None
  end.

(** Association lists with string keys. *)
Fixpoint assoc (k : string) (props : list (string * value)) : option value :=
  match props with
  | [] => None
  | (k', v) :: rest => if String.eqb k k' then Some v else assoc k rest
  end.

Definition hasKey (k : string) (props : list (string * value)) : bool :=
  match assoc k props with Some _ => true | None => false end.

(** [obj[k] = v]: overwrite in place, or append a new property. *)
Fixpoint assign (k : string) (v : value) (props : list (string * value))
  : list (string * value) :=
  match props with
  | [] => [(k, v)]
  | (k', v') :: rest =>
      if String.eqb k k' then (k', v) :: rest else (k', v') :: assign k v rest
  end.

(** A one-character string per character, as string indexing yields. *)
Fixpoint chars (s : string) : list value :=
  match s with
  | EmptyString => []
  | String c rest => VStr (String c EmptyString) :: chars rest
  end.

(** Property read [v[k]] (also [v.k]).  Own properties of objects; the
    length and the indexed elements of arrays and strings; undefined
    otherwise.  Every read of the script is made on a truthy receiver, so
    the TypeError of a read on null or undefined never occurs. *)
Definition get (v : value) (k : string) : value :=
  match v with
  | VObj props => match assoc k props with Some x => x | None => VUndefined end
  | VArr items =>
      if String.eqb k "length" then num (Z.of_nat (List.length items))
      else match arrayIndex k with
           | Some n => nth n items VUndefined
           | None => VUndefined
           end
  | VStr s =>
      if String.eqb k "length" then num (Z.of_nat (String.length s))
      else match arrayIndex k with
           | Some n => nth n (chars s) VUndefined
           | None => VUndefined
           end
  | _ => VUndefined
  end.

(** [v[0]] and [v[1]]: the key of a small index is its decimal
    rendering. *)
Definition at_ (v : value) (i : Z) : value := get v (decimal i).

(** [k in v], for the keys the script asks about (none of which is
    inherited from a prototype). *)
Definition hasProp (k : string) (v : value) : bool :=
  match v with
  | VObj props => hasKey k props
  | VArr items => match arrayIndex k with
                  | Some n => (n <? List.length items)%nat
                  | None => String.eqb k "length"
                  end
  | _ => false
  end.

(** [v[k] = x].  Assigning to a property of a primitive is silently
    ignored in sloppy mode.  Arrays cannot hold named properties in this
    model; the script only assigns the keys x, y, text, customdata (behind
    [k in v], which fails on arrays) and layout keys (on the layout
    object). *)
Definition set (v : value) (k : string) (x : value) : value :=
  match v with
  | VObj props => VObj (assign k x props)
  | _ => v
  end.

(** The items a [for (const item of v)] loop visits; [None] when [v] is
    not iterable (the loop throws a TypeError). *)
Definition iterate (v : value) : option (list value) :=
  match v with
  | VArr items => Some items
  | VStr s => Some (chars s)
  | _ => None
  end.

(** [s.startsWith(p)] and [s.endsWith(p)]. *)
Fixpoint startsWith (s p : string) {struct p} : bool :=
  match p, s with
  | EmptyString, _ => true
  | String _ _, EmptyString => false
  | String b p', String a s' => (Ascii.eqb a b && startsWith s' p')%bool
  end.

Definition endsWith (s p : string) : bool :=
  let n := String.length s in
  let m := String.length p in
  ((m <=? n)%nat && String.eqb (String.substring (n - m) m s) p)%bool.

(** Lower-casing of a character below U+0100 (strings are sequences of
    such characters): A-Z, and the Latin-1 capitals except the
    multiplication sign. *)
Definition lowerChar (c : ascii) : ascii :=
  let n := nat_of_ascii c in
  if ((65 <=? n) && (n <=? 90))%nat%bool then ascii_of_nat (n + 32)
  else if ((192 <=? n) && (n <=? 222) && negb (n =? 215))%nat%bool
       then ascii_of_nat (n + 32)
  else c.

Fixpoint toLowerCase (s : string) : string :=
  match s with
  | EmptyString => EmptyString
  | String c rest => String (lowerChar c) (toLowerCase rest)
  end.

(** [s.slice(1)]. *)
Definition slice1 (s : string) : string :=
  match s with EmptyString => EmptyString | String _ rest => rest end.

Fixpoint joinWith (sep : string) (parts : list string) : string :=
  match parts with
  | [] => ""
  | [p] => p
  | p :: rest => p ++ sep ++ joinWith sep rest
  end.

Section ToString.

(** Number::toString prints an integer below 10^21 in absolute value in
    decimal.  On any other number (the shortest decimal that reads back as
    the same double, or the exponential form) it is not modelled: the
    development is parametric in it. *)
Variable fractionToString : Q -> string.

Definition numberToString (q : Q) : string :=
  if (Qeq_bool q (inject_Z (Qfloor q))
      && (Z.abs (Qfloor q) <? 10 ^ 21))%bool
  then decimal (Qfloor q)
  else fractionToString q.

(** [String(v)]; [None] when it throws a TypeError.  An array prints
    its elements joined by commas, with null and undefined printed as
    nothing, and throws when one of its elements does.  An object of the
    document prints as [[object Object]] through the [toString] it
    inherits; when it has a property [toString] of its own, that value is
    not callable, the inherited [valueOf] returns the object itself, and
    the conversion throws. *)
Fixpoint toString (v : value) : option string :=
  match v with
  | VUndefined => Some "undefined"
  | VNull => Some "null"
  | VBool true => Some "true"
  | VBool false => Some "false"
  | VNum q => Some (numberToString q)
  | VStr s => Some s
  | VArr items =>
      option_map (joinWith ",")
        ((fix each (l : list value) : option (list string) :=
            match l with
            | [] => Some []
            | x :: rest =>
                match (if isNullish x then Some "" else toString x),
                      each rest with
                | Some s, Some ss => Some (s :: ss)
                | _, _ => None
                end
            end) items)
  | VObj props => if hasKey "toString" props then None
                  else Some "[object Object]"
  end.

(** [v[i]] for a number [i] that is an integer: the key is the number's
    rendering, in decimal below 10^21. *)
Definition item (v : value) (i : Z) : value :=
  get v (numberToString (inject_Z i)).

(** [s > z] for a string [s] and an integer [z].  The string is read as
    a number (white space trimmed, the empty string as 0, a decimal,
    hexadecimal, octal or binary literal or [Infinity] as the nearest
    double, anything else as NaN); that reading is not modelled: the
    development is parametric in the comparison. *)
Variable stringExceeds : string -> Z -> bool.

(** [v > z] and [z < v] for an integer [z]; [None] when converting [v]
    to a number throws.  undefined converts to NaN, null to 0, false and
    true to 0 and 1.  An array converts through its string.  So does an
    object: [[object Object]] reads as NaN, and the conversion throws
    when [String] does. *)
Definition exceeds (v : value) (z : Z) : option bool :=
  match v with
  | VUndefined => Some false
  | VNull => Some (z <? 0)
  | VBool b => Some (z <? (if b then 1 else 0))
  | VNum q => Some (negb (Qle_bool q (inject_Z z)))
  | VStr s => Some (stringExceeds s z)
  | VArr _ => option_map (fun s => stringExceeds s z) (toString v)
  | VObj props => if hasKey "toString" props then None else Some false
  end.

End ToString.

End Js.

(* ================================================================== *)
(** ** The embedded script *)
(* ================================================================== *)

Module Script.
Import Js.

(** [const TRACE_KEYS=['x','y','text','customdata']]. *)
Definition TRACE_KEYS : list string := ["x"; "y"; "text"; "customdata"].

(** [function normalizePerTraceValue(value, traceCount)]. *)
Definition normalizePerTraceValue (val traceCount : value) : value :=
  if isNullish val then val
  else match val with
       | VArr items =>
           if numIs traceCount 1 then
             if (List.length items =? 0)%nat then VArr [VArr []]
             else if isArray (at_ val 0) then val
             else VArr [val]
           else if (numIs traceCount (inject_Z (Z.of_nat (List.length items)))
                    && forallb (fun item => isArray item || isNull item) items)%bool
                then val
           else if negb (isArray (at_ val 0)) then VArr [val]
           else val
       | _ => VArr [val]
       end.

(** The test of [stripFragileAnnotationKeys] on a key. *)
Definition fragileKey (key : string) : bool :=
  (startsWith key "annotations[" && endsWith key "].text")%bool.

(** [function stripFragileAnnotationKeys(obj)].  The keys of an array
    are its indices, none of which is fragile. *)
Definition stripFragileAnnotationKeys (obj : value) : value :=
  if (negb (truthy obj) || negb (typeofObject obj))%bool then obj
  else match obj with
       | VObj props =>
           VObj (filter (fun kv => negb (fragileKey (fst kv))) props)
       | _ => obj
       end.

(** One turn of [for(const key of TRACE_KEYS)] on [dataArgs]. *)
Definition normalizeKey (traceCount : value) (dataArgs : value) (key : string)
  : value :=
  if hasProp key dataArgs
  then set dataArgs key (normalizePerTraceValue (get dataArgs key) traceCount)
  else dataArgs.

(** What [normalizeUpdateMenus] does to [btn.args[0]]. *)
Definition normalizeDataArgs (traceCount dataArgs : value) : value :=
  if (truthy dataArgs && typeofObject dataArgs)%bool
  then stripFragileAnnotationKeys
         (fold_left (normalizeKey traceCount) TRACE_KEYS dataArgs)
  else dataArgs.

(** What [normalizeUpdateMenus] does to [btn.args[1]]. *)
Definition normalizeLayoutArgs (layoutArgs : value) : value :=
  if (truthy layoutArgs && typeofObject layoutArgs)%bool
  then stripFragileAnnotationKeys layoutArgs
  else layoutArgs.

Fixpoint replaceNth {A : Type} (n : nat) (x : A) (l : list A) : list A :=
  match l, n with
  | [], _ => []
  | _ :: rest, O => x :: rest
  | y :: rest, S m => y :: replaceNth m x rest
  end.

(** [traceCount=(fig.data||[]).length||1]. *)
Definition traceCountOf (fig : value) : value :=
  or_else (get (or_else (get fig "data") (VArr [])) "length") (num 1).

(** [menus=(fig.layout||{}).updatemenus||[]]. *)
Definition menusOf (fig : value) : value :=
  or_else (get (or_else (get fig "layout") (VObj [])) "updatemenus") (VArr []).

(** [buttons=(menu&&menu.buttons)||[]]. *)
Definition buttonsOf (menu : value) : value :=
  or_else (if truthy menu then get menu "buttons" else menu) (VArr []).

(** [Math.round(q)]: the integer nearest to [q], halves going up. *)
Definition mathRound (q : Q) : Z := Qfloor (q + (1 # 2)).

(** The Number an integer literal of the script denotes.  Up to 2^53 in
    absolute value it is the integer itself.  Beyond, it is the nearest
    double (the standard allows an approximation past twenty digits),
    which is an integer again, or an infinity (from about 1.8e308 on),
    which the values of the development do not hold.  These readings are
    not modelled: the development is parametric in the integer read, and
    what it states of the height of a chart it states for the literals up
    to 2^53 only. *)
Definition integerLiteral (bigLiteral : Z -> Z) (z : Z) : Z :=
  if Z.abs z <=? 2 ^ 53 then z else bigLiteral z.

(** [function mobileHeight()].  [explicitHeight] and [defaultHeight] are
    the constants Python writes into the script, the second as an integer
    literal; [innerWidth] is [window.innerWidth].  The product [w*0.6] is
    taken exactly: for an integer [w] between 280 and 1400 the exact
    product is at least a tenth away from every half-integer, far more
    than the rounding error of the double product, so [Math.round] returns
    the same integer. *)
Definition mobileHeight (bigLiteral : Z -> Z) (explicitHeight : bool)
    (defaultHeight innerWidth : Z) : Z :=
  if explicitHeight then integerLiteral bigLiteral defaultHeight
  else
    let w := Z.max 280 (Z.min (if innerWidth =? 0 then 1024 else innerWidth)
                              1400) in
    Z.max 280 (Z.min 560 (mathRound (inject_Z w * (6 # 10)))).

(** The live chart [gd], as far as the click handler reads it:
    [gd.layout] and [gd._fullData]. *)
Record graphDiv : Type := { gd_layout : value; gd_fullData : value }.

(** [eventData.points[0]] of a [plotly_click] event: the index of the
    clicked trace and the clicked category. *)
Record point : Type := { curveNumber : Z; point_x : value }.

(** The calls the click handler makes on the charting library. *)
Inductive call : Type :=
| Relayout (patch : list (string * value))
| Restyle (update : list (string * value)) (traces : list Z).

(** [function normalizeLinkedSeries(value)]. *)
Definition normalizeLinkedSeries (val : value) : value :=
  match val with
  | VArr items =>
      if ((List.length items =? 1)%nat && isArray (at_ val 0))%bool
      then at_ val 0 else val
  | _ => val
  end.

(** The loop that fills [update] from the payload. *)
Definition updateOf (payload : value) : list (string * value) :=
  flat_map
    (fun key =>
       if isDefined (get payload key)
       then [(key,
              VArr [if String.eqb key "customdata" then get payload key
                    else normalizeLinkedSeries (get payload key)])]
       else [])
    TRACE_KEYS.

Section WithNumberPrinter.

Variable fractionToString : Q -> string.
Variable stringExceeds : string -> Z -> bool.
Variable bigLiteral : Z -> Z.

(** [String(btn.method||'')]; [None] when the conversion throws. *)
Definition methodOf (btn : value) : option string :=
  toString fractionToString (or_else (get btn "method") (VStr "")).

(** [String(btn.method||'').toLowerCase()==='update'], for a method
    that can be converted. *)
Definition isUpdate (btn : value) : bool :=
  match methodOf btn with
  | Some method => String.eqb (toLowerCase method) "update"
  | None => false
  end.

(** Whether the body of [for(const btn of buttons)] throws on [btn]: the
    button gets past the first [continue] and its method cannot be
    converted.  Nothing of the button has been changed by then. *)
Definition throwsOn (btn : value) : bool :=
  (truthy btn && isArray (get btn "args")
   && negb (numIs (get (get btn "args") "length") 0)
   && match methodOf btn with None => true | Some _ => false end)%bool.

(** The body of [for(const btn of buttons)], on a button on which it
    does not throw.  The patch objects are mutated in place by the
    script; here the button is rebuilt around them. *)
Definition normalizeButton (traceCount btn : value) : value :=
  let args := get btn "args" in
  if (negb (truthy btn) || negb (isArray args)
      || numIs (get args "length") 0)%bool then btn
  else if negb (isUpdate btn) then btn
  else match args with
       | VArr items =>
           let items1 :=
             replaceNth 0 (normalizeDataArgs traceCount (at_ args 0)) items in
           let items2 :=
             if (1 <? List.length items)%nat
             then replaceNth 1 (normalizeLayoutArgs (at_ args 1)) items1
             else items1 in
           set btn "args" (VArr items2)
       | _ => btn
       end.

(** The body of [for(const menu of menus)]; [None] when [buttons] is not
    iterable, or when the loop throws on one of the buttons. *)
Definition normalizeMenu (traceCount menu : value) : option value :=
  match iterate (buttonsOf menu) with
  | None => None
  | Some btns =>
      if existsb throwsOn btns then None
      else
        let btns' := map (normalizeButton traceCount) btns in
        Some (match get menu "buttons" with
              | VArr _ => set menu "buttons" (VArr btns')
              | _ => menu
              end)
  end.

Fixpoint forEach {A B : Type} (f : A -> option B) (l : list A)
  : option (list B) :=
  match l with
  | [] => Some []
  | x :: rest =>
      match f x with
      | None => None
      | Some y =>
          match forEach f rest with
          | None => None
          | Some ys => Some (y :: ys)
          end
      end
  end.

(** [function normalizeUpdateMenus()], on the script's global [fig].
    [None] when a loop meets a value that is not iterable or a method
    that cannot be converted to a string: the TypeError leaves [render],
    nothing is drawn and no handler is installed. *)
Definition normalizeUpdateMenus (fig : value) : option value :=
  let layout := or_else (get fig "layout") (VObj []) in
  let traceCount := traceCountOf fig in
  match iterate (menusOf fig) with
  | None => None
  | Some menus =>
      match forEach (normalizeMenu traceCount) menus with
      | None => None
      | Some menus' =>
          Some (match get layout "updatemenus" with
                | VArr _ =>
                    set fig "layout" (set layout "updatemenus" (VArr menus'))
                | _ => fig
                end)
      end
  end.

(** [function render()]: the new [fig] ([Plotly.react] then draws
    [fig.data||[]] with [fig.layout], and the frame takes the height
    [fig.layout.height]). *)
Definition render (explicitHeight : bool) (defaultHeight innerWidth : Z)
    (fig : value) : option value :=
  match normalizeUpdateMenus fig with
  | None => None
  | Some fig1 =>
      let layout0 := or_else (get fig1 "layout") (VObj []) in
      let layout1 := set layout0 "autosize" (VBool true) in
      let layout2 := set layout1 "width" VNull in
      let layout3 :=
        set layout2 "height"
            (num (mobileHeight bigLiteral explicitHeight defaultHeight
                    innerWidth)) in
      Some (set fig1 "layout" layout3)
  end.

(** [meta=((fig.layout||{}).meta||{}).pylogue_linked_interaction];
    [None] when [setupLinkedInteraction] returns without installing the
    handler. *)
Definition linkedMeta (fig : value) : option value :=
  let meta :=
    get (or_else (get (or_else (get fig "layout") (VObj [])) "meta") (VObj []))
        "pylogue_linked_interaction" in
  if (negb (truthy meta) || negb (typeofObject meta))%bool then None
  else Some meta.

Section Handler.

Variable meta : value.

Definition sourceTrace : Z := integerOr (get meta "source_trace") 0.
Definition targetTrace : Z := integerOr (get meta "target_trace") 1.
Definition seasonMenuIndex : Z := integerOr (get meta "season_menu_index") 0.

Definition lookup : value :=
  if (truthy (get meta "lookup") && typeofObject (get meta "lookup"))%bool
  then get meta "lookup" else VObj [].

(** [defaultSeason]; [None] when [String(meta.default_season)] throws:
    [setupLinkedInteraction] throws with it and installs no handler. *)
Definition defaultSeason : option string :=
  if isNullish (get meta "default_season") then Some ""
  else toString fractionToString (get meta "default_season").

(** [function activeSeason()], [season0] being the constant
    [defaultSeason].  The one step of its [try] block that can throw is
    [String(btn.label)]; the [catch] then returns [defaultSeason]. *)
Definition activeSeason (season0 : string) (gd : graphDiv) : string :=
  let menus :=
    or_else (if truthy (gd_layout gd) then get (gd_layout gd) "updatemenus"
             else gd_layout gd)
            (VArr []) in
  let menu := item fractionToString menus seasonMenuIndex in
  if (negb (truthy menu) || negb (isArray (get menu "buttons")))%bool
  then season0
  else
    let active := integerOr (get menu "active") 0 in
    let btn := item fractionToString (get menu "buttons") active in
    if (negb (truthy btn) || isNullish (get btn "label"))%bool
    then season0
    else match toString fractionToString (get btn "label") with
         | Some label => label
         | None => season0
         end.

(** [payload=lookup[combinedKey]||lookup[label]]. *)
Definition resolve (season label : string) : value :=
  or_else (get lookup (season ++ "||" ++ label)) (get lookup label).

(** [v > z], with a comparison that throws counted as false: where
    the script compares inside a [try] block, throwing and failing both
    end without the call the comparison guards. *)
Definition above (v : value) (z : Z) : bool :=
  match exceeds fractionToString stringExceeds v z with
  | Some b => b
  | None => false
  end.

(** The first [try] block of the handler: the y axis of the target
    trace becomes categorical when the payload's y values are strings.
    When [String(target.yaxis||'y')] throws, the empty [catch] leaves the
    block without a call. *)
Definition axisCalls (gd : graphDiv) (payload : value) : list call :=
  let fullData := or_else (gd_fullData gd) (VArr []) in
  let target :=
    or_else (item fractionToString fullData targetTrace) (VObj []) in
  match toString fractionToString (or_else (get target "yaxis") (VStr "y"))
  with
  | None => []
  | Some yRef =>
      let yLayoutKey :=
        if String.eqb yRef "y" then "yaxis" else "yaxis" ++ slice1 yRef in
      let yVals := get payload "y" in
      if (isArray yVals && above (get yVals "length") 0
          && typeofString (at_ yVals 0))%bool
      then [Relayout [(yLayoutKey ++ ".type", VStr "category")]]
      else []
  end.

(** [idx] of the title block, for the annotations [anns]; [None] when
    the comparison [anns.length>1] throws. *)
Definition titleIndex (anns : value) : option Z :=
  if isInteger (get meta "target_title_annotation_index")
  then Some (integerOr (get meta "target_title_annotation_index") 0)
  else option_map (fun more : bool => if more then 1 else 0)
         (exceeds fractionToString stringExceeds (get anns "length") 1).

(** [anns.length && idx>=0 && idx<anns.length]; [None] when the last
    comparison, which is made only when the first two tests hold,
    throws. *)
Definition addressed (anns : value) (idx : Z) : option bool :=
  if (truthy (get anns "length") && (0 <=? idx))%bool
  then exceeds fractionToString stringExceeds (get anns "length") idx
  else Some false.

(** The [if(payload.title)] block of the handler.  Both branches
    evaluate [String(payload.title)] before they call the library: when
    that throws, or one of the comparisons with [anns.length] does, the
    empty [catch] leaves the block without a call. *)
Definition titleCalls (gd : graphDiv) (payload : value) : list call :=
  if truthy (get payload "title") then
    let anns :=
      or_else (if truthy (gd_layout gd) then get (gd_layout gd) "annotations"
               else gd_layout gd)
              (VArr []) in
    match titleIndex anns with
    | None => []
    | Some idx =>
        match addressed anns idx,
              toString fractionToString (get payload "title") with
        | Some there, Some text =>
            let title := VStr text in
            if there
            then [Relayout
                    [("annotations["
                      ++ numberToString fractionToString (inject_Z idx)
                      ++ "].text", title)]]
            else [Relayout [("title", title)]]
        | _, _ => []
        end
    end
  else [].

(** The library calls a click makes, in order, on a chart whose
    contract is [meta].  [eventData] is [None] when the event carries no
    point.  No call is made when no handler was installed
    ([defaultSeason] threw), nor when [String(point.x)] throws and the
    handler with it. *)
Definition onClick (gd : graphDiv) (eventData : option point) : list call :=
  match defaultSeason, eventData with
  | None, _ | _, None => []
  | Some season0, Some pt =>
      if negb (curveNumber pt =? sourceTrace) then []
      else
        match toString fractionToString (point_x pt) with
        | None => []
        | Some label =>
            let season := activeSeason season0 gd in
            let payload := resolve season label in
            if (negb (truthy payload) || negb (typeofObject payload))%bool
            then []
            else
              let update := updateOf payload in
              if (List.length update =? 0)%nat then []
              else axisCalls gd payload
                   ++ [Restyle update [targetTrace]]
                   ++ titleCalls gd payload
        end
  end.

End Handler.


End WithNumberPrinter.

End Script.

(* ================================================================== *)
(** ** The Python pipeline *)
(* ================================================================== *)

Module Py.
Import Js.

(** How a call into code that is not the pipeline's own ends, [E]
    being the exceptions. *)
Inductive ending (E A : Type) : Type :=
| Returned (a : A)
| Raised (e : E)
| Diverged.

Arguments Returned {E A} a.
Arguments Raised {E A} e.
Arguments Diverged {E A}.

(** A raised exception: whether it is an instance of [Exception] (what
    [except Exception] catches; [SystemExit], [KeyboardInterrupt] and
    [GeneratorExit] are not), and how [str()] of it ends: with the
    message, or, when its [__str__] raises or does not return, with
    another exception or not at all. *)
Inductive exn : Type :=
  Exn { isException : bool; message : ending exn string }.

Definition outcome (A : Type) : Type := ending exn A.

(** The pipeline's computations: the SQL statements sent to the database
    so far, and how the computation ended. *)
Definition M (A : Type) : Type := (list string * outcome A)%type.

Definition ret {A : Type} (a : A) : M A := ([], Returned a).

Definition lift {A : Type} (o : outcome A) : M A := ([], o).

Definition bind {A B : Type} (m : M A) (k : A -> M B) : M B :=
  match m with
  | (log, Returned a) => let (log', r) := k a in ((log ++ log')%list, r)
  | (log, Raised e) => (log, Raised e)
  | (log, Diverged) => (log, Diverged)
  end.

(** [try: x = m / except Exception as exc: return handler(exc)], then
    [k x]. *)
Definition try_ {A B : Type} (m : M A) (handler : exn -> M B) (k : A -> M B)
  : M B :=
  match m with
  | (log, Returned a) => let (log', r) := k a in ((log ++ log')%list, r)
  | (log, Raised e) =>
      if isException e
      then let (log', r) := handler e in ((log ++ log')%list, r)
      else (log, Raised e)
  | (log, Diverged) => (log, Diverged)
  end.

Notation "x <- m ;; k" := (bind m (fun x => k))
  (at level 61, m at next level, right associativity).

(** [f"{prefix}{exc}"]: the formatting calls [str(exc)], and raises
    when that does. *)
Definition formatted {A : Type} (wrap : string -> A) (prefix : string)
    (exc : exn) : outcome A :=
  match message exc with
  | Returned text => Returned (wrap (prefix ++ text))
  | Raised e => Raised e
  | Diverged => Diverged
  end.

(** [return f"{prefix}{exc}"] in a handler. *)
Definition format {A : Type} (wrap : string -> A) (prefix : string)
    (exc : exn) : M A :=
  lift (formatted wrap prefix exc).

(** Python truthiness of a JSON-like value. *)
Definition truthy (v : value) : bool :=
  match v with
  | VUndefined | VNull => false
  | VBool b => b
  | VNum q => negb (Qeq_bool q 0)
  | VStr s => negb (String.eqb s "")
  | VArr items => negb (List.length items =? 0)%nat
  | VObj props => negb (List.length props =? 0)%nat
  end.

(** [isinstance(v, (int, float))]; [bool] is a subclass of [int]. *)
Definition isNumber (v : value) : bool :=
  match v with VNum _ | VBool _ => true | _ => false end.

(** [int(v)] on such a value: truncation toward zero (the values hold
    neither NaN nor an infinity, on which [int] raises). *)
Definition int (v : value) : Z :=
  match v with
  | VNum q => Z.quot (Qnum q) (Zpos (Qden q))
  | VBool true => 1
  | _ => 0
  end.

(** What the snippet's namespace holds. *)
Inductive pyobj : Type :=
| Plain (v : value)
    (** None, a number, a string, a list, a dict *)
| Library (name : string)
    (** [pd], [px], [go], [make_subplots] *)
| Frame (records : value)
    (** a DataFrame, by its rows *)
| Figure (to_plotly_json : outcome value)
    (** any object with a [to_plotly_json] attribute, by what calling it
        does *).

Definition scope : Type := list (string * pyobj).

Fixpoint scope_get (name : string) (s : scope) : pyobj :=
  match s with
  | [] => Plain VNull
  | (k, o) :: rest => if String.eqb name k then o else scope_get name rest
  end.

(** What [store_html] receives: the figure, and the two constants written
    into the script (the markup around them is fixed text). *)
Record artifact : Type :=
  { fig_payload : value; explicitHeight : bool; defaultHeight : Z }.

(** What [render_plotly_chart_py] returns: a string, or the mapping
    [{"_pylogue_html_id": html_id, "message": message}]. *)
Inductive result : Type :=
| Text (s : string)
| Handle (html_id : string) (message : string).

Definition quote : string := String (ascii_of_nat 34) EmptyString.

Section Pipeline.

(** The type name Python prints in the message of an AttributeError or
    TypeError (the values do not tell [int] from [float]). *)
Variable typeName : value -> string.

(** Whether pandas and plotly could be imported. *)
Variable dependencies : bool.

(** [pd.DataFrame(rows)], returning the frame's records. *)
Variable DataFrame : value -> outcome value.

(** [json.dumps(fig_json, cls=PlotlyJSONEncoder)]: the text of the
    document, which the script reads back; it raises on what the encoder
    cannot serialise. *)
Variable json_dumps : value -> outcome string.

(** [pylogue.embeds.store_html]. *)
Variable store_html : artifact -> outcome string.

Definition attributeError (v : value) (attr : string) : exn :=
  {| isException := true;
     message := Returned ("'" ++ typeName v ++ "' object has no attribute '"
                          ++ attr ++ "'") |}.

Definition itemAssignmentError (v : value) : exn :=
  {| isException := true;
     message := Returned ("'" ++ typeName v
                          ++ "' object does not support item assignment") |}.

(** [d.get(key)]. *)
Definition dict_get (d : value) (key : string) : outcome value :=
  match d with
  | VObj props =>
      Returned (match assoc key props with Some v => v | None => VNull end)
  | _ => Raised (attributeError d "get")
  end.

Definition listIndexError : exn :=
  {| isException := true;
     message :=
       Returned "list indices must be integers or slices, not str" |}.

(** [d[key] = v], for a string [key]. *)
Definition dict_setitem (d : value) (key : string) (v : value)
  : outcome value :=
  match d with
  | VObj props => Returned (VObj (assign key v props))
  | VArr _ => Raised listIndexError
  | _ => Raised (itemAssignmentError d)
  end.

(** [d.setdefault(key, v)], on a dict. *)
Definition dict_setdefault (d : value) (key : string) (v : value) : value :=
  match d with
  | VObj props => if hasKey key props then d else VObj (assign key v props)
  | _ => d
  end.

(** [d.pop(key, None)], on a dict. *)
Definition dict_pop (d : value) (key : string) : value :=
  match d with
  | VObj props =>
      VObj (filter (fun kv => negb (String.eqb (fst kv) key)) props)
  | _ => d
  end.

Definition obind {A B : Type} (o : outcome A) (k : A -> outcome B)
  : outcome B :=
  match o with
  | Returned a => k a
  | Raised e => Raised e
  | Diverged => Diverged
  end.

(** [layout = fig_json.get("layout") or {}] and
    [user_height = layout.get("height")]. *)
Definition user_height_of (fig_json : value) : outcome value :=
  obind (dict_get fig_json "layout") (fun layout0 =>
  let layout := if truthy layout0 then layout0 else VObj [] in
  dict_get layout "height").

(** From [layout = fig_json.get("layout") or {}] to the constants of
    the script. *)
Definition prepare (fig_json : value) : outcome artifact :=
  obind (user_height_of fig_json) (fun user_height =>
  let has_explicit_height := isNumber user_height in
  let default_height := if has_explicit_height then int user_height else 420 in
  obind
    (if negb has_explicit_height then
       let fig_json1 := dict_setdefault fig_json "layout" (VObj []) in
       obind (dict_setitem (get fig_json1 "layout") "autosize" (VBool true))
             (fun layout1 =>
                Returned (set fig_json1 "layout" (dict_pop layout1 "width")))
     else Returned fig_json)
    (fun fig_json2 =>
       Returned {| fig_payload := fig_json2;
                   explicitHeight := has_explicit_height;
                   defaultHeight := default_height |})).

Definition missing_dependencies : string :=
  "Missing dependencies. Install with: pip install " ++ quote
  ++ "pylogue[dashboard]" ++ quote ++ " plotly".

Definition no_figure : string :=
  "Error: Plotly code must define a `fig` variable.".

(** [hasattr(fig, "to_plotly_json")] and the call, when there is one. *)
Definition to_plotly_json (fig : pyobj) : option (outcome value) :=
  match fig with
  | Figure call => Some call
  | _ => None
  end.

(** The namespace before any data is attached. *)
Definition initial_scope : scope :=
  [("pd", Library "pd"); ("px", Library "px"); ("go", Library "go");
   ("make_subplots", Library "make_subplots")].

(** [if sql_query_runner is not None and sql_query is not None: ...]:
    the namespace the snippet runs in. *)
Definition attach_data (sql_query_runner : option (string -> M value))
    (sql_query : option string) : M scope :=
  match sql_query_runner, sql_query with
  | Some runner, Some query =>
      rows <- runner query ;;
      records <- lift (DataFrame rows) ;;
      ret (initial_scope
           ++ [("df", Frame records); ("data", Plain records)])%list
  | _, _ => ret initial_scope
  end.

(** From [fig = local_scope.get("fig")] to the final [return]. *)
Definition finish (local_scope : scope) : M result :=
  let fig := scope_get "fig" local_scope in
  match to_plotly_json fig with
  | None => ret (Text no_figure)
  | Some call =>
      try_ (lift call)
           (format Text "Error serializing Plotly figure: ")
           (fun fig_json =>
              art <- lift (prepare fig_json) ;;
              _ <- lift (json_dumps (fig_payload art)) ;;
              html_id <- lift (store_html art) ;;
              ret (Handle html_id "Plotly chart rendered."))
  end.

(** The body of the outer [try]. *)
Definition body (sql_query_runner : option (string -> M value))
    (sql_query : option string)
    (plotly_python : scope -> outcome scope) : M result :=
  if negb dependencies then ret (Text missing_dependencies)
  else
    local_scope <- attach_data sql_query_runner sql_query ;;
    try_ (lift (plotly_python local_scope))
         (format Text "Error executing Plotly code: ")
         finish.

(** [render_plotly_chart_py].  The snippet is given by what executing it
    does to the namespace; logging has no effect on the result. *)
Definition render_plotly_chart_py
    (sql_query_runner : option (string -> M value))
    (sql_query : option string)
    (plotly_python : scope -> outcome scope) : M result :=
  try_ (body sql_query_runner sql_query plotly_python)
       (format Text "Error in render_plotly_chart_py: ")
       ret.

End Pipeline.

End Py.

(* ================================================================== *)
(** ** The SQL gate of the IPL agent *)
(* ================================================================== *)

Module Ipl.
Import Js Py.

(** [str.isspace] on a character below U+0100. *)
Definition isspace (c : ascii) : bool :=
  let n := nat_of_ascii c in
  (((9 <=? n) && (n <=? 13)) || ((28 <=? n) && (n <=? 32))
   || (n =? 133) || (n =? 160))%nat%bool.

Fixpoint lstripWith (p : ascii -> bool) (s : string) : string :=
  match s with
  | EmptyString => EmptyString
  | String c rest => if p c then lstripWith p rest else s
  end.

(** The string without its trailing characters that satisfy [p]. *)
Fixpoint rstripWith (p : ascii -> bool) (s : string) : string :=
  match s with
  | EmptyString => EmptyString
  | String c rest =>
      match rstripWith p rest with
      | EmptyString => if p c then EmptyString else String c EmptyString
      | kept => String c kept
      end
  end.

Definition stripWith (p : ascii -> bool) (s : string) : string :=
  rstripWith p (lstripWith p s).

(** [s.strip()], [s.strip("`")] and [s.rstrip(";")]. *)
Definition strip (s : string) : string := stripWith isspace s.
Definition strip_backticks (s : string) : string :=
  stripWith (Ascii.eqb "`"%char) s.
Definition rstrip_semicolons (s : string) : string :=
  rstripWith (Ascii.eqb ";"%char) s.

(** [s.startswith(p)], [s.endswith(p)] and [s.lower()]. *)
Definition startswith (s p : string) : bool := Js.startsWith s p.
Definition endswith (s p : string) : bool := Js.endsWith s p.
Definition lower (s : string) : string := Js.toLowerCase s.

(** [s[n:]]. *)
Fixpoint drop (n : nat) (s : string) : string :=
  match n, s with
  | O, _ => s
  | S m, EmptyString => EmptyString
  | S m, String _ rest => drop m rest
  end.

(** [s[:-1]]. *)
Fixpoint dropLast (s : string) : string :=
  match s with
  | EmptyString => EmptyString
  | String c EmptyString => EmptyString
  | String c rest => String c (dropLast rest)
  end.

(** [s.replace(old, new)] for a two-character [old] (a backslash and a
    letter) and a one-character [new]. *)
Fixpoint replaceEscape (letter new : ascii) (s : string) : string :=
  match s with
  | EmptyString => EmptyString
  | String c rest =>
      match rest with
      | String d rest' =>
          if (Ascii.eqb c "\"%char && Ascii.eqb d letter)%bool
          then String new (replaceEscape letter new rest')
          else String c (replaceEscape letter new rest)
      | EmptyString => s
      end
  end.

Definition newline : ascii := ascii_of_nat 10.
Definition tab : ascii := ascii_of_nat 9.
Definition carriage_return : ascii := ascii_of_nat 13.

(** [_normalize_sql_query]; [None] is Python's [None]. *)
Definition _normalize_sql_query (sql_query : option string) : string :=
  let query := strip (match sql_query with Some s => s | None => "" end) in
  let query :=
    if startswith query "```" then
      let query := strip_backticks query in
      if startswith (lower query) (String "s" (String "q" (String "l"
                      (String newline EmptyString))))
      then drop 4 query else query
    else query in
  let query :=
    if ((startswith query quote && endswith query quote)
        || (startswith query "'" && endswith query "'"))%bool
    then dropLast (drop 1 query) else query in
  rstrip_semicolons
    (strip
       (replaceEscape "r"%char carriage_return
          (replaceEscape "t"%char tab
             (replaceEscape "n"%char newline query)))).

(** A CSV file next to the script: its stem and its POSIX path. *)
Record csv : Type := { stem : string; as_posix : string }.

Fixpoint replaceChar (old new : ascii) (s : string) : string :=
  match s with
  | EmptyString => EmptyString
  | String c rest =>
      String (if Ascii.eqb c old then new else c) (replaceChar old new rest)
  end.

Definition only_select : string :=
  "Error: Only SELECT queries are allowed. Reference registered tables like matches or deliveries.".

Section Agent.

Variable typeName : value -> string.
Variable dependencies : bool.
Variable DataFrame : value -> outcome value.
Variable json_dumps : value -> outcome string.
Variable store_html : artifact -> outcome string.

(** [conn.execute(sql)] and what is fetched from it, on a fresh
    connection. *)
Variable execute : string -> outcome value.

(** [DATA_DIR.glob("*.csv")]. *)
Variable csv_files : list csv.

(** A statement sent to the database. *)
Definition run (sql : string) : M value := ([sql], execute sql).

Definition create_view (f : csv) : string :=
  "CREATE OR REPLACE VIEW " ++ replaceChar "-"%char "_"%char (stem f)
  ++ " AS SELECT * FROM read_csv_auto('" ++ as_posix f ++ "')".

(** [register_csv_views(conn)]. *)
Fixpoint register (targets : list csv) : M unit :=
  match targets with
  | [] => ret tt
  | f :: rest => bind (run (create_view f)) (fun _ => register rest)
  end.

Definition register_csv_views : M unit := register csv_files.

Definition limited_query (normalized_inner : string) : string :=
  "SELECT * FROM (" ++ normalized_inner ++ ") t LIMIT 2000".

(** The closure [_sql_query_runner]. *)
Definition _sql_query_runner (query : string) : M value :=
  run (limited_query (_normalize_sql_query (Some query))).

(** [render_plotly_chart]. *)
Definition render_plotly_chart (sql_query : option string)
    (plotly_python : scope -> outcome scope) : M result :=
  bind register_csv_views (fun _ =>
  let normalized_query := _normalize_sql_query sql_query in
  if negb (startswith (lower normalized_query) "select")
  then ret (Text only_select)
  else render_plotly_chart_py typeName dependencies DataFrame json_dumps
      store_html
         (Some _sql_query_runner) (Some normalized_query) plotly_python).

End Agent.

End Ipl.

(* ================================================================== *)
(** ** The other tools of the IPL agent *)
(* ================================================================== *)

Module IplTools.
Import Js Py Ipl.

(** What [read_csv_with_schema] returns. *)
Record schema_report : Type :=
  { sample_csv : string; schema_csv : string; row_count : value }.

Section Tools.

Variable execute : string -> outcome value.
Variable csv_files : list csv.

(** [DataFrame.to_csv(index=...)]. *)
Variable to_csv : bool -> value -> outcome string.

(** [execute_sql_on_csv]: the check on [black_list_cmds] is commented
    out in the source. *)
Definition execute_sql_on_csv (sql_query : option string) : M string :=
  bind (register_csv_views execute csv_files) (fun _ =>
  let sql_query := _normalize_sql_query sql_query in
  bind (run execute sql_query) (fun result_df =>
  lift (to_csv true result_df))).

Definition sample_query (table : string) : string :=
  "SELECT * FROM " ++ table ++ " LIMIT 50".

Definition schema_query (table : string) : string :=
  "DESCRIBE SELECT * FROM " ++ table.

Definition count_query (table : string) : string :=
  "SELECT COUNT(*) AS rows FROM " ++ table.

(** [read_csv_with_schema]. *)
Definition read_csv_with_schema (table : string) : M schema_report :=
  bind (register_csv_views execute csv_files) (fun _ =>
  bind (run execute (sample_query table)) (fun sample_df =>
  bind (run execute (schema_query table)) (fun schema_df =>
  bind (run execute (count_query table)) (fun count =>
  bind (lift (to_csv false sample_df)) (fun sample =>
  bind (lift (to_csv false schema_df)) (fun schema =>
  ret {| sample_csv := sample; schema_csv := schema;
         row_count := count |})))))).

End Tools.

End IplTools.

(* ================================================================== *)
(** ** The tool of the agno example *)
(* ================================================================== *)

Module Agno.
Import Js Py.

(** [render_plotly_chart] of [scripts/examples/ai/agno/iirm_app.py]. *)
Definition render_plotly_chart (typeName : value -> string)
    (dependencies : bool) (DataFrame : value -> outcome value)
    (json_dumps : value -> outcome string)
    (store_html : artifact -> outcome string)
    (plotly_python : scope -> outcome scope) : M result :=
  render_plotly_chart_py typeName dependencies DataFrame json_dumps store_html
    None None plotly_python.

End Agno.

(* ================================================================== *)
(** ** The tools of the basic pydantic-ai example *)
(* ================================================================== *)

Module Basic.
Import Js Py.

(** A callable: what calling it with a query does, and its truth value
    (true of a function; an object with [__call__] may define
    [__bool__]). *)
Record runner : Type :=
  { runner_call : string -> M value; runner_bool : bool }.

(** What the dependencies hold under a name: data, or a callable. *)
Inductive entry : Type :=
| Data (v : value)
| Callable (r : runner).

(** [ctx.deps]: a plain dict, or any other object by its attributes
    ([None] has none). *)
Inductive deps : Type :=
| DepsDict (items : list (string * entry))
| DepsObject (attrs : list (string * entry)).

Fixpoint find (name : string) (items : list (string * entry))
  : option entry :=
  match items with
  | [] => None
  | (k, e) :: rest => if String.eqb name k then Some e else find name rest
  end.




(** [user.get(key)], on a dict. *)
Definition user_get (user : list (string * value)) (key : string) : value :=
  match assoc key user with Some v => v | None => VNull end.

(** [inspect_user_context]; [randint] is what
    [random.randint(1000, 9999)] returned. *)
Definition inspect_user_context (randint : Z) (deps_obj : deps) : value :=
  let user :=
    match deps_obj with
    | DepsDict items => find "pylogue_user" items
    | DepsObject attrs => find "pylogue_user" attrs
    end in
  match user with
  | Some (Data (VObj user)) =>
      VObj [("ok", VBool true);
            ("name", if truthy (user_get user "display_name")
                     then user_get user "display_name"
                     else user_get user "name");
            ("email", user_get user "email");
            ("provider", user_get user "provider");
            ("session_sig", VStr ("haiku-" ++ decimal randint))]
  | _ =>
      VObj [("ok", VBool false);
            ("message", VStr "No pylogue_user found in ctx.deps");
            ("session_sig", VStr ("haiku-" ++ decimal randint))]
  end.

End Basic.

(* ================================================================== *)
(** ** The text the pipeline produces: previews and markup *)
(* ================================================================== *)

Module Markup.
Import Js Py Ipl.

(** [s.split()]: the maximal runs of characters that are not
    whitespace; [word] is the run being read. *)
Fixpoint split_from (word s : string) : list string :=
  match s with
  | EmptyString =>
      match word with EmptyString => [] | _ => [word] end
  | String c rest =>
      if isspace c then
        match word with
        | EmptyString => split_from EmptyString rest
        | _ => word :: split_from EmptyString rest
        end
      else split_from (word ++ String c EmptyString) rest
  end.

Definition split (s : string) : list string := split_from EmptyString s.

(** [s[:n]], for [n >= 0]. *)
Definition take (n : nat) (s : string) : string := substring 0 n s.

(** [_preview(code, limit)], for a limit that is not negative (the
    default is 240); [None] is Python's [None]. *)
Definition _preview (code : option string) (limit : nat) : string :=
  match code with
  | None | Some EmptyString => ""
  | Some code =>
      let compact := joinWith " " (split (strip code)) in
      take limit compact
      ++ (if (limit <? String.length compact)%nat then "..." else "")
  end.

(** [s.replace(old, new)] for a one-character [old]. *)
Fixpoint replaceWith (old : ascii) (new s : string) : string :=
  match s with
  | EmptyString => EmptyString
  | String c rest =>
      (if Ascii.eqb c old then new else String c EmptyString)
      ++ replaceWith old new rest
  end.

Definition quote_char : ascii := ascii_of_nat 34.

(** [html.escape(s, quote=True)]: the five replacements, the ampersand
    first. *)
Definition escape (s : string) : string :=
  replaceWith "'"%char "&#x27;"
    (replaceWith quote_char "&quot;"
       (replaceWith ">"%char "&gt;"
          (replaceWith "<"%char "&lt;"
             (replaceWith "&"%char "&amp;" s)))).

(** [srcdoc], around the markup and script of the chart. *)
Definition srcdoc (script_html : string) : string :=
  "<!doctype html><html><head><meta charset='utf-8'/>"
  ++ "<meta name='viewport' content='width=device-width,initial-scale=1'/>"
  ++ "<style>html,body{margin:0;padding:0;background:#fff;overflow:hidden;}"
  ++ "#plot-wrap{width:100%;max-width:100%;}</style>"
  ++ "</head><body>"
  ++ script_html
  ++ "</body></html>".

(** [iframe_html]. *)
Definition iframe_html (script_html : string) (default_height : Z) : string :=
  "<iframe "
  ++ "srcdoc=" ++ quote ++ escape (srcdoc script_html) ++ quote ++ " "
  ++ "height=" ++ quote ++ decimal default_height ++ quote ++ " "
  ++ "style=" ++ quote ++ "width:100%;max-width:100%;height:"
  ++ decimal default_height ++ "px;border:0;display:block;" ++ quote ++ " "
  ++ "title=" ++ quote ++ "Plotly Chart" ++ quote ++ "></iframe>".

End Markup.

(* ================================================================== *)
(** ** Properties *)
(* ================================================================== *)

Import Js Script.

(** *** Definitions used by the statements *)

(** The case analysis of section 4.3 of the specification, in its words:
    null or absent is unchanged; a scalar is wrapped; with one trace a
    sequence of sequences (or an empty one) is left as it is and any other
    sequence is wrapped; with several traces a sequence of the right length
    whose elements are sequences or null is left as it is and any other
    sequence is wrapped. *)
Definition spec_normalizePerTraceValue (v : value) (n : Z) : value :=
  match v with
  | VUndefined | VNull => v
  | VArr items =>
      if n =? 1 then
        if forallb isArray items then v else VArr [v]
      else if ((Z.of_nat (List.length items) =? n)
               && forallb (fun item => isArray item || isNull item) items)%bool
           then v
      else VArr [v]
  | _ => VArr [v]
  end.

(** [clamp(lo, hi, x)] of the specification. *)
Definition clamp (lo hi x : Z) : Z := Z.max lo (Z.min hi x).

(** The height formula of section 4.4, in the specification's words. *)
Definition spec_height (viewportWidth : Z) : Z :=
  clamp 280 560 (mathRound ((6 # 10) * inject_Z (clamp 280 1400 viewportWidth))).

(** A figure as the script receives it: an object whose layout is an
    object. *)
Definition wellFormed (fig : value) : Prop :=
  exists props lprops,
    fig = VObj props /\ assoc "layout" props = Some (VObj lprops).

(** A printer of fractional numbers, for examples that print none. *)
Definition noFractions : Q -> string := fun _ => "".

(** A comparison of strings with numbers, for examples that make none. *)
Definition noStringNumbers : string -> Z -> bool := fun _ _ => false.

(** Python type names, integers being taken for [int]. *)
Definition exampleTypeName (v : value) : string :=
  match v with
  | VUndefined | VNull => "NoneType"
  | VBool _ => "bool"
  | VNum q => if Qeq_bool q (inject_Z (Qfloor q)) then "int" else "float"
  | VStr _ => "str"
  | VArr _ => "list"
  | VObj _ => "dict"
  end.

(** Whether [setupLinkedInteraction()] throws on the document: the
    contract is there and [String(meta.default_season)] throws.  The
    script then stops before it installs its resize observers. *)
Definition setupThrows (fts : Q -> string) (fig : value) : bool :=
  match linkedMeta fig with
  | Some meta =>
      match defaultSeason fts meta with None => true | Some _ => false end
  | None => false
  end.

(** The [render()] of each resize event, the viewport widths being
    [widths]. *)
Fixpoint resizes (fts : Q -> string) (lit : Z -> Z) (e : bool) (d : Z)
    (widths : list Z) (fig : value) : option value :=
  match widths with
  | [] => Some fig
  | w :: rest =>
      match render fts lit e d w fig with
      | None => None
      | Some fig1 => resizes fts lit e d rest fig1
      end
  end.

(** The end of the script: the initial [render()], at the first of the
    [widths], then [setupLinkedInteraction()] and, unless that throws and
    stops the script, the resize observers, which render once per event,
    at the widths that follow.  [None] when a render throws. *)
Definition renders (fts : Q -> string) (lit : Z -> Z) (e : bool) (d : Z)
    (widths : list Z) (fig : value) : option value :=
  match widths with
  | [] => Some fig
  | w :: rest =>
      match render fts lit e d w fig with
      | None => None
      | Some fig1 =>
          if setupThrows fts fig1 then Some fig1
          else resizes fts lit e d rest fig1
      end
  end.

(** The width of the last render the script makes. *)
Definition lastRender (fts : Q -> string) (fig : value) (w : Z)
    (widths : list Z) : Z :=
  if setupThrows fts fig then w else last widths w.

(** A reader of integer literals beyond 2^53, for examples that read
    none. *)
Definition noBigLiteral : Z -> Z := fun z => z.

(** A document with an explicit height, an explicit width and autosize
    off. *)
Definition C8_document : value :=
  VObj [("data", VArr []);
        ("layout", VObj [("height", num 300); ("width", num 500);
                         ("autosize", VBool false)])].



(** The index the specification infers when none is configured: the
    second annotation when exactly two exist, else the first. *)
Definition spec_titleIndex (annotations : nat) : Z :=
  if (annotations =? 2)%nat then 1 else 0.

(** A chart with three annotations. *)
Definition C6_gd : graphDiv :=
  {| gd_layout := VObj [("annotations",
                         VArr [VObj [("text", VStr "left")];
                               VObj [("text", VStr "middle")];
                               VObj [("text", VStr "right")]])];
     gd_fullData := VArr [] |}.

(** A payload with y values and a title. *)
Definition C6_payload : value :=
  VObj [("y", VArr [num 1]); ("title", VStr "MI 2020")].

(** An instance of [Exception] whose [str()] returns. *)
Definition printable (e : Py.exn) : Prop :=
  Py.isException e = true /\ exists text, Py.message e = Py.Returned text.

(** A call that returns, or raises such an exception. *)
Definition tame {A : Type} (o : Py.outcome A) : Prop :=
  match o with
  | Py.Returned _ => True
  | Py.Raised e => printable e
  | Py.Diverged => False
  end.

(** The results of the pipeline: the success mapping and the five kinds
    of error strings. *)
Definition described (r : Py.result) : Prop :=
  match r with
  | Py.Handle _ msg => msg = "Plotly chart rendered."
  | Py.Text s =>
      s = Py.missing_dependencies
      \/ s = Py.no_figure
      \/ (exists m, s = "Error executing Plotly code: " ++ m)
      \/ (exists m, s = "Error serializing Plotly figure: " ++ m)
      \/ (exists m, s = "Error in render_plotly_chart_py: " ++ m)
  end.

(** A computation that returns a described result, or raises an
    instance of [Exception] whose [str()] returns. *)
Definition good (m : Py.M Py.result) : Prop :=
  match snd m with
  | Py.Returned r => described r
  | Py.Raised e => printable e
  | Py.Diverged => False
  end.

(** The snippets [raise SystemExit(0)] and [while True: pass]. *)
Definition C3_exit : Py.scope -> Py.outcome Py.scope :=
  fun _ => Py.Raised {| Py.isException := false;
                     Py.message := Py.Returned "0" |}.

Definition C3_loop : Py.scope -> Py.outcome Py.scope := fun _ => Py.Diverged.

(** The snippet [fig = px.bar(df)], run without data. *)
Definition C3_name_error : Py.scope -> Py.outcome Py.scope :=
  fun _ => Py.Raised {| Py.isException := true;
                     Py.message := Py.Returned "name 'df' is not defined" |}.

(** A snippet that raises an exception whose [__str__] raises, the
    exception raised there being of the same kind. *)
Definition C3_unprintable : Py.scope -> Py.outcome Py.scope :=
  fun _ =>
    Py.Raised
      {| Py.isException := true;
         Py.message :=
           Py.Raised
             {| Py.isException := true;
                Py.message :=
                  Py.Raised {| Py.isException := true;
                               Py.message := Py.Returned "boom" |} |} |}.

(** The snippets [fig = 42] and [x = 1]. *)
Definition C10_number : Py.scope -> Py.outcome Py.scope :=
  fun sc => Py.Returned (("fig", Py.Plain (num 42)) :: sc).

Definition C10_nothing : Py.scope -> Py.outcome Py.scope :=
  fun sc => Py.Returned (("x", Py.Plain (num 1)) :: sc).

(** A value that is null, absent or a sequence. *)
Definition shaped (v : value) : bool := (isNullish v || isArray v)%bool.

(** An object proper (neither null nor an array). *)
Definition isObj (v : value) : bool :=
  match v with VObj _ => true | _ => false end.

(** The loop over [TRACE_KEYS]. *)
Definition normalizeKeys (tc d : value) : value :=
  fold_left (normalizeKey tc) TRACE_KEYS d.

(** What [normalizeUpdateMenus] makes of the elements of [btn.args]. *)
Definition rewriteArgs (tc : value) (items : list value) : list value :=
  let items1 :=
    replaceNth 0 (normalizeDataArgs tc (at_ (VArr items) 0)) items in
  if (1 <? List.length items)%nat
  then replaceNth 1 (normalizeLayoutArgs (at_ (VArr items) 1)) items1
  else items1.

(** No fragile key in the patches of an update button. *)
Definition clean (fts : Q -> string) (b : value) : Prop :=
  isUpdate fts b = true -> isArray (get b "args") = true ->
  forall k, fragileKey k = true ->
            hasProp k (at_ (get b "args") 0) = false
            /\ hasProp k (at_ (get b "args") 1) = false.

(** The trace keys of the data patch of an update button hold no
    scalar. *)
Definition settled (fts : Q -> string) (b : value) : Prop :=
  isUpdate fts b = true -> isArray (get b "args") = true ->
  forall k, In k TRACE_KEYS ->
            shaped (get (at_ (get b "args") 0) k) = true.

(** A property of every button of a menu. *)
Definition buttonsAll (P : value -> Prop) (m : value) : Prop :=
  forall btns, iterate (buttonsOf m) = Some btns -> Forall P btns.

(** A property of every menu of a document. *)
Definition menusAll (P : value -> Prop) (fig : value) : Prop :=
  forall menus, iterate (menusOf fig) = Some menus -> Forall P menus.

(** A document with one trace and one update button whose two patches
    hold a fragile key each; the button, the menu and the document after
    the pass. *)
Definition C7_document : value :=
  VObj [("data", VArr [VObj []]);
        ("layout",
         VObj [("updatemenus",
                VArr [VObj [("buttons",
                             VArr [VObj [("method", VStr "Update");
                                         ("args",
                                          VArr [VObj [("y", VArr [num 5]);
                                                      ("annotations[0].text",
                                                       VStr "a")];
                                                VObj [("annotations[1].text",
                                                       VStr "b");
                                                      ("title", VStr "t")]])]])]])])].

Definition C7_button : value :=
  VObj [("method", VStr "Update");
        ("args", VArr [VObj [("y", VArr [VArr [num 5]])];
                       VObj [("title", VStr "t")]])].

Definition C7_menu : value := VObj [("buttons", VArr [C7_button])].

Definition C7_normalized : value :=
  VObj [("data", VArr [VObj []]);
        ("layout", VObj [("updatemenus", VArr [C7_menu])])].

(** A document with one trace and one update button whose y is the
    scalar 5, and the same document with another y. *)
Definition C4_document : value :=
  VObj [("data", VArr [VObj []]);
        ("layout",
         VObj [("updatemenus",
                VArr [VObj [("buttons",
                             VArr [VObj [("method", VStr "update");
                                         ("args",
                                          VArr [VObj [("y", num 5)]])]])]])])].

Definition C4_after (y : value) : value :=
  VObj [("data", VArr [VObj []]);
        ("layout",
         VObj [("updatemenus",
                VArr [VObj [("buttons",
                             VArr [VObj [("method", VStr "update");
                                         ("args",
                                          VArr [VObj [("y", y)]])]])]])])].

(** Whether a call is a restyle. *)
Definition isRestyle (c : call) : bool :=
  match c with Restyle _ _ => true | Relayout _ => false end.

(** The layout keys [render] writes. *)
Definition renderKeys : list string :=
  ["updatemenus"; "autosize"; "width"; "height"].

(** The first and the last character of a string, if any. *)
Definition firstChar (s : string) : option ascii :=
  match s with
  | EmptyString => None
  | String c _ => Some c
  end.

Fixpoint lastChar (s : string) : option ascii :=
  match s with
  | EmptyString => None
  | String c EmptyString => Some c
  | String _ rest => lastChar rest
  end.

(** Whether there is such a character and it satisfies [p]. *)
Definition satisfies (p : ascii -> bool) (c : option ascii) : bool :=
  match c with
  | Some c => p c
  | None => false
  end.

(** How often a character occurs in a string. *)
Fixpoint count (c : ascii) (s : string) : nat :=
  match s with
  | EmptyString => O
  | String d rest => ((if Ascii.eqb d c then 1 else 0) + count c rest)%nat
  end.

(** Whether every character of a string satisfies [p]. *)
Fixpoint allChars (p : ascii -> bool) (s : string) : bool :=
  match s with
  | EmptyString => true
  | String c rest => (p c && allChars p rest)%bool
  end.

(** A character that is not a backslash. *)
Definition noBackslash (c : ascii) : bool := negb (Ascii.eqb c "\"%char).

(** A character a preview may hold: anything that is not whitespace, and
    the plain space. *)
Definition oneLine (c : ascii) : bool :=
  (negb (Ipl.isspace c) || Ascii.eqb c " "%char)%bool.

(** A decimal digit or the minus sign. *)
Definition digitOrMinus (c : ascii) : bool :=
  let n := nat_of_ascii c in
  (((48 <=? n) && (n <=? 57)) || (n =? 45))%nat%bool.

(** The handlers of the pipeline return strings: following an outcome
    through them never ends in a handle. *)
Ltac through_handlers H :=
  repeat (cbn in H;
          match type of H with
          | context [Py.formatted _ _ ?e] =>
              unfold Py.formatted in H; destruct (Py.message e) eqn:?
          | context [if Py.isException ?e then _ else _] =>
              destruct (Py.isException e) eqn:?
          | context [match Py.message ?e with _ => _ end] =>
              destruct (Py.message e) eqn:?
          end);
  cbn in H; try discriminate H.

(** A fenced query, two quoted ones and one with the three escapes. *)
Definition C9_fenced : string :=
  "```SQL" ++ String Ipl.newline "SELECT team FROM matches;"
  ++ String Ipl.newline "```".

Definition C9_quoted : string := "  'select team from matches;'  ".

Definition C9_double_quoted : string :=
  Py.quote ++ "select team from matches ;;" ++ Py.quote.

Definition C9_escaped : string := "select team\nfrom\tmatches\r;".

(** A query that closes the wrapping parenthesis itself and opens a
    comment. *)
Definition C9_escaping : string := "select * from matches) t --".

(** A CSV file next to the script. *)
Definition C9_matches : Ipl.csv :=
  {| Ipl.stem := "ipl-matches"; Ipl.as_posix := "/data/ipl-matches.csv" |}.

(** A database that refuses every statement. *)
Definition C9_refused : Py.exn :=
  {| Py.isException := true; Py.message := Py.Returned "IO Error" |}.

(** *** Basic facts about the primitives *)

Lemma Qeq_bool_inject (a b : Z) :
  Qeq_bool (inject_Z a) (inject_Z b) = (a =? b).
Proof.
  unfold Qeq_bool, inject_Z; simpl.
  rewrite !Z.mul_1_r.
  reflexivity.
Qed.

Lemma numIs_num (a b : Z) : numIs (num a) (inject_Z b) = (a =? b).
Proof. apply Qeq_bool_inject. Qed.

Lemma at_0_arr (items : list value) :
  at_ (VArr items) 0 = hd VUndefined items.
Proof. destruct items; reflexivity. Qed.

Lemma at_1_arr (items : list value) :
  at_ (VArr items) 1 = nth 1 items VUndefined.
Proof. reflexivity. Qed.

Lemma length_arr (items : list value) :
  get (VArr items) "length" = num (Z.of_nat (List.length items)).
Proof. reflexivity. Qed.

(** *** Per-trace normalisation (C1) *)

(** C1, refuted as stated: with one trace the empty sequence is not left
    as it is but becomes [[ [] ]], and with two traces a sequence of three
    sequences is not wrapped but left as it is. *)
Lemma C1_counterexample :
  normalizePerTraceValue (VArr []) (num 1)
    <> spec_normalizePerTraceValue (VArr []) 1
  /\ normalizePerTraceValue
       (VArr [VArr [num 1]; VArr [num 2]; VArr [num 3]]) (num 2)
     <> spec_normalizePerTraceValue
          (VArr [VArr [num 1]; VArr [num 2]; VArr [num 3]]) 2.
Proof. split; vm_compute; discriminate. Qed.

(** C1, amended: for every value and trace count [n >= 1],
    null or absent is returned unchanged; a scalar [v] becomes [[v]];
    with [n = 1] the empty sequence becomes [[ [] ]], a sequence whose
    first element is a sequence is returned unchanged and any other is
    wrapped once; with [n > 1] a sequence of length [n] whose elements are
    all sequences or null is returned unchanged, and any other sequence is
    wrapped once unless its first element is a sequence, in which case it
    is returned unchanged. *)
Theorem C1_normalizePerTraceValue_cases (v : value) (n : Z) (Hn : 1 <= n) :
  (isNullish v = true -> normalizePerTraceValue v (num n) = v)
  /\ (isNullish v = false -> isArray v = false ->
      normalizePerTraceValue v (num n) = VArr [v])
  /\ (n = 1 -> v = VArr [] ->
      normalizePerTraceValue v (num n) = VArr [VArr []])
  /\ (forall first rest,
        n = 1 -> v = VArr (first :: rest) ->
        normalizePerTraceValue v (num n)
        = if isArray first then v else VArr [v])
  /\ (forall items,
        1 < n -> v = VArr items ->
        Z.of_nat (List.length items) = n ->
        forallb (fun item => isArray item || isNull item) items = true ->
        normalizePerTraceValue v (num n) = v)
  /\ (forall items,
        1 < n -> v = VArr items ->
        (Z.of_nat (List.length items) <> n
         \/ forallb (fun item => isArray item || isNull item) items = false) ->
        normalizePerTraceValue v (num n)
        = if isArray (hd VUndefined items) then v else VArr [v]).
Proof.
  assert (Hone : forall m, numIs (num m) 1 = (m =? 1))
    by (intro m; apply (numIs_num m 1)).
  repeat split.
  - intro H. unfold normalizePerTraceValue. now rewrite H.
  - intros H1 H2. unfold normalizePerTraceValue. rewrite H1.
    destruct v; try reflexivity; discriminate.
  - intros -> ->. reflexivity.
  - intros first rest -> ->. unfold normalizePerTraceValue. simpl isNullish.
    cbv iota. rewrite Hone, at_0_arr. simpl.
    destruct (isArray first); reflexivity.
  - intros items Hgt -> Hlen Hall. unfold normalizePerTraceValue.
    simpl isNullish. cbv iota. rewrite Hone.
    replace (n =? 1) with false by (symmetry; apply Z.eqb_neq; lia).
    rewrite numIs_num, Hall.
    replace (n =? _) with true by (symmetry; apply Z.eqb_eq; lia).
    reflexivity.
  - intros items Hgt -> Hor. unfold normalizePerTraceValue.
    simpl isNullish. cbv iota. rewrite Hone.
    replace (n =? 1) with false by (symmetry; apply Z.eqb_neq; lia).
    rewrite numIs_num, at_0_arr.
    assert (Hc : ((n =? Z.of_nat (Datatypes.length items))
                  && forallb (fun item => isArray item || isNull item) items)%bool
                 = false).
    { destruct Hor as [Hne | Hall].
      - replace (n =? _) with false by (symmetry; apply Z.eqb_neq; lia).
        reflexivity.
      - rewrite Hall. apply andb_false_r. }
    rewrite Hc. destruct (isArray (hd VUndefined items)); reflexivity.
Qed.

Lemma C1_normalizePerTraceValue_cases_witness :
  1 <= 2
  /\ normalizePerTraceValue (VArr [num 10; num 20]) (num 2)
     = VArr [VArr [num 10; num 20]].
Proof.
  split; [lia |].
  destruct (C1_normalizePerTraceValue_cases (VArr [num 10; num 20]) 2
              ltac:(lia))
    as (_ & _ & _ & _ & _ & H).
  apply (H [num 10; num 20]); [lia | reflexivity |].
  right. reflexivity.
Defined.

(** *** Responsive height (C5) *)

Lemma mathRound_six_tenths (w : Z) :
  mathRound (inject_Z w * (6 # 10)) = (6 * w + 5) / 10.
Proof.
  unfold mathRound, Qfloor, Qplus, Qmult, inject_Z; simpl.
  replace (w * 6 * 2 + 10) with (2 * (6 * w + 5)) by lia.
  change 20 with (2 * 10).
  apply Z.div_mul_cancel_l; lia.
Qed.

Lemma spec_height_eq (w : Z) :
  spec_height w = clamp 280 560 ((6 * clamp 280 1400 w + 5) / 10).
Proof.
  unfold spec_height. f_equal.
  rewrite <- mathRound_six_tenths.
  unfold mathRound. apply Qfloor_comp.
  rewrite (Qmult_comm (6 # 10)). reflexivity.
Qed.

Lemma mobileHeight_auto (lit : Z -> Z) (d w : Z) :
  mobileHeight lit false d w = spec_height (if w =? 0 then 1024 else w).
Proof.
  rewrite spec_height_eq. unfold mobileHeight, clamp.
  rewrite mathRound_six_tenths, (Z.min_comm _ 1400). reflexivity.
Qed.

Lemma spec_height_bounds (w : Z) : 280 <= spec_height w <= 560.
Proof. rewrite spec_height_eq. unfold clamp. lia. Qed.

Lemma spec_height_mono (w1 w2 : Z) :
  w1 <= w2 -> spec_height w1 <= spec_height w2.
Proof.
  intro H. rewrite !spec_height_eq. unfold clamp.
  assert (Hd : (6 * Z.max 280 (Z.min 1400 w1) + 5) / 10
               <= (6 * Z.max 280 (Z.min 1400 w2) + 5) / 10)
    by (apply Z.div_le_mono; lia).
  lia.
Qed.

(** C5, refuted as stated: with no explicit height and a viewport of
    width 0 the script computes 560 where the formula gives 280, so the
    height is not monotone between widths 0 and 1; and an explicit height
    of 300.5 yields the computed height 300. *)
Lemma C5_counterexample :
  mobileHeight noBigLiteral false 420 0 = 560
  /\ spec_height 0 = 280
  /\ mobileHeight noBigLiteral false 420 1 = 280
  /\ mobileHeight noBigLiteral (Py.isNumber (VNum 300.5))
       (Py.int (VNum 300.5)) 1024 = 300.
Proof. repeat split. Qed.

(** *** Objects: reading after writing *)

Lemma assoc_assign_same (k : string) (v : value) (props : list (string * value)) :
  assoc k (assign k v props) = Some v.
Proof.
  induction props as [| [k' v'] rest IH]; simpl.
  - now rewrite String.eqb_refl.
  - destruct (String.eqb k k') eqn:E; simpl; rewrite E; auto.
Qed.

Lemma assoc_assign_other (k k' : string) (v : value)
    (props : list (string * value)) :
  k <> k' -> assoc k' (assign k v props) = assoc k' props.
Proof.
  intro Hne. induction props as [| [k0 v0] rest IH]; simpl.
  - destruct (String.eqb k' k) eqn:E; [| reflexivity].
    apply String.eqb_eq in E. congruence.
  - destruct (String.eqb k k0) eqn:E; simpl.
    + apply String.eqb_eq in E. subst k0.
      destruct (String.eqb k' k) eqn:E'; [| reflexivity].
      apply String.eqb_eq in E'. congruence.
    + now rewrite IH.
Qed.

Lemma get_set_same (props : list (string * value)) (k : string) (v : value) :
  get (set (VObj props) k v) k = v.
Proof. simpl. now rewrite assoc_assign_same. Qed.

Lemma get_rebuilt (props : list (string * value)) (k : string) (v : value) :
  get (VObj (assign k v props)) k = v.
Proof. apply get_set_same. Qed.

Lemma get_set_other (o : value) (k k' : string) (v : value) :
  k <> k' -> get (set o k v) k' = get o k'.
Proof.
  intro Hne. destruct o; try reflexivity.
  simpl. now rewrite assoc_assign_other.
Qed.

Lemma wellFormed_layout (fig : value) :
  wellFormed fig ->
  exists lprops, or_else (get fig "layout") (VObj []) = VObj lprops
                 /\ get fig "layout" = VObj lprops.
Proof.
  intros (props & lprops & -> & H). exists lprops.
  unfold or_else. simpl. rewrite H. auto.
Qed.

Lemma normalizeUpdateMenus_wellFormed (fts : Q -> string) (fig fig1 : value) :
  wellFormed fig ->
  normalizeUpdateMenus fts fig = Some fig1 -> wellFormed fig1.
Proof.
  intros Hwf. destruct (wellFormed_layout _ Hwf) as (lprops & Hl & _).
  destruct Hwf as (props & lp & -> & Hassoc).
  unfold normalizeUpdateMenus. rewrite Hl.
  destruct (iterate _); [| discriminate].
  destruct (forEach _ _); [| discriminate].
  destruct (get (VObj lprops) "updatemenus");
    intro H; injection H as <-;
    try (exists props, lp; now split).
  simpl. eexists _, _. split; [reflexivity |]. apply assoc_assign_same.
Qed.

(** What [render] leaves in the layout. *)
Lemma render_layout (fts : Q -> string) (lit : Z -> Z) (e : bool) (d w : Z)
    (fig fig' : value) :
  wellFormed fig ->
  render fts lit e d w fig = Some fig' ->
  wellFormed fig'
  /\ get (get fig' "layout") "autosize" = VBool true
  /\ get (get fig' "layout") "width" = VNull
  /\ get (get fig' "layout") "height" = num (mobileHeight lit e d w).
Proof.
  intros Hwf. unfold render.
  destruct (normalizeUpdateMenus fts fig) as [fig1 |] eqn:E; [| discriminate].
  apply normalizeUpdateMenus_wellFormed in E; [| assumption].
  destruct (wellFormed_layout _ E) as (lprops & Hl & _).
  destruct E as (props & lp & -> & Hassoc).
  rewrite Hl. intro H. injection H as <-.
  split.
  - eexists _, _. split; [reflexivity |]. apply assoc_assign_same.
  - unfold get. rewrite assoc_assign_same.
    rewrite !(assoc_assign_other "height") by discriminate.
    rewrite (assoc_assign_other "width" "autosize") by discriminate.
    now rewrite !assoc_assign_same.
Qed.

(** *** The pre-render pass of the Python side *)

Section Prepare.

Variable typeName : value -> string.

Lemma prepare_explicit (fig_json h : value) :
  Py.user_height_of typeName fig_json = Py.Returned h ->
  Py.isNumber h = true ->
  Py.prepare typeName fig_json
  = Py.Returned {| Py.fig_payload := fig_json;
                   Py.explicitHeight := true;
                   Py.defaultHeight := Py.int h |}.
Proof.
  intros Hh Hnum. unfold Py.prepare. rewrite Hh. simpl. now rewrite Hnum.
Qed.

Lemma user_height_explicit_wellFormed (fig_json h : value) :
  Py.user_height_of typeName fig_json = Py.Returned h ->
  Py.isNumber h = true ->
  wellFormed fig_json.
Proof.
  unfold Py.user_height_of. destruct fig_json; try discriminate. simpl.
  destruct (assoc "layout" props) as [layout0 |] eqn:E.
  - destruct (Py.truthy layout0) eqn:T.
    + destruct layout0; try discriminate. intros _ _. now exists props, props0.
    + simpl. intros H. injection H as <-. discriminate.
  - simpl. intros H. injection H as <-. discriminate.
Qed.

Lemma pop_absent (key : string) (props : list (string * value)) :
  assoc key (filter (fun kv => negb (String.eqb (fst kv) key)) props) = None.
Proof.
  induction props as [| [k v] rest IH]; [reflexivity |]. simpl.
  destruct (String.eqb k key) eqn:E; simpl; [assumption |].
  rewrite String.eqb_sym, E. assumption.
Qed.

Lemma pop_other (key k : string) (props : list (string * value)) :
  k <> key ->
  assoc k (filter (fun kv => negb (String.eqb (fst kv) key)) props)
  = assoc k props.
Proof.
  intro Hne. induction props as [| [k0 v] rest IH]; [reflexivity |]. simpl.
  destruct (String.eqb k0 key) eqn:E; simpl.
  - apply String.eqb_eq in E. subst k0.
    destruct (String.eqb k key) eqn:E'; [| assumption].
    apply String.eqb_eq in E'. contradiction.
  - now rewrite IH.
Qed.

Lemma prepare_auto (fig_json h : value) (art : Py.artifact) :
  Py.user_height_of typeName fig_json = Py.Returned h ->
  Py.isNumber h = false ->
  Py.prepare typeName fig_json = Py.Returned art ->
  Py.explicitHeight art = false
  /\ Py.defaultHeight art = 420
  /\ wellFormed (Py.fig_payload art)
  /\ get (get (Py.fig_payload art) "layout") "autosize" = VBool true
  /\ hasProp "width" (get (Py.fig_payload art) "layout") = false.
Proof.
  intros Hh Hnum. unfold Py.prepare. rewrite Hh.
  cbv beta iota delta [Py.obind]. rewrite Hnum. cbv beta iota zeta.
  change (negb false) with true. cbv iota.
  destruct fig_json; try discriminate.
  assert (Hshape : exists props1,
             Py.dict_setdefault (VObj props) "layout" (VObj []) = VObj props1).
  { unfold Py.dict_setdefault. destruct (hasKey _ _); eauto. }
  destruct Hshape as (props1 & ->).
  unfold Py.dict_setitem.
  destruct (get (VObj props1) "layout") as [| | | | | | lp]; try discriminate.
  intro H. injection H as <-.
  cbv [Py.fig_payload Py.explicitHeight Py.defaultHeight set Py.dict_pop].
  repeat split.
  - eexists _, _. split; [reflexivity |]. apply assoc_assign_same.
  - unfold get at 2. rewrite assoc_assign_same. unfold get.
    rewrite pop_other by discriminate. now rewrite assoc_assign_same.
  - unfold get. rewrite assoc_assign_same. unfold hasProp, hasKey.
    now rewrite pop_absent.
Qed.

Lemma prepare_wellFormed (fig_json : value) (art : Py.artifact) :
  Py.prepare typeName fig_json = Py.Returned art ->
  wellFormed (Py.fig_payload art).
Proof.
  intro H.
  destruct (Py.user_height_of typeName fig_json) as [h | |] eqn:Hh;
    try (unfold Py.prepare in H; rewrite Hh in H; discriminate).
  destruct (Py.isNumber h) eqn:Hnum.
  - rewrite (prepare_explicit _ _ Hh Hnum) in H. injection H as <-.
    eapply user_height_explicit_wellFormed; eauto.
  - now destruct (prepare_auto _ _ _ Hh Hnum H) as (_ & _ & Hwf & _).
Qed.

End Prepare.

(** *** Successive renders *)

(** A render leaves the linked-interaction contract as it is. *)
Lemma render_meta (fts : Q -> string) (lit : Z -> Z) (e : bool) (d w : Z)
    (fig fig' : value) :
  wellFormed fig ->
  render fts lit e d w fig = Some fig' ->
  linkedMeta fig' = linkedMeta fig.
Proof.
  intros Hwf. destruct (wellFormed_layout _ Hwf) as (lprops & Hl & Hget).
  unfold render.
  destruct (normalizeUpdateMenus fts fig) as [fig1 |] eqn:E; [| discriminate].
  assert (Hmeta : get (get fig1 "layout") "meta" = get (VObj lprops) "meta").
  { revert E. destruct Hwf as (props & lp & -> & Hassoc).
    unfold normalizeUpdateMenus. rewrite Hl.
    destruct (iterate _); [| discriminate].
    destruct (forEach _ _); [| discriminate].
    destruct (get (VObj lprops) "updatemenus");
      intro H; injection H as <-; try (now rewrite Hget).
    rewrite get_rebuilt.
    apply (get_set_other (VObj lprops) "updatemenus" "meta"). discriminate. }
  pose proof (normalizeUpdateMenus_wellFormed fts fig fig1 Hwf E) as Hwf1.
  destruct (wellFormed_layout _ Hwf1) as (lp1 & Hl1 & Hget1).
  destruct Hwf1 as (props1 & lp1' & -> & Hassoc1).
  rewrite Hl1. intro H.
  assert (Hfig : fig'
                 = set (VObj props1) "layout"
                     (set (set (set (VObj lp1) "autosize" (VBool true))
                               "width" VNull)
                          "height" (num (mobileHeight lit e d w))))
    by (injection H; intro; symmetry; assumption).
  clear H. subst fig'. rewrite Hget1 in Hmeta.
  unfold linkedMeta. rewrite get_set_same, Hl, <- Hmeta.
  assert (Hor : forall h,
             or_else (set (set (set (VObj lp1) "autosize" (VBool true))
                               "width" VNull) "height" h) (VObj [])
             = set (set (set (VObj lp1) "autosize" (VBool true))
                        "width" VNull) "height" h)
    by reflexivity.
  rewrite Hor, !get_set_other by discriminate. reflexivity.
Qed.

Lemma resizes_layout (fts : Q -> string) (lit : Z -> Z) (e : bool) (d : Z)
    (widths : list Z) :
  forall (w : Z) (fig fig' : value),
    wellFormed fig ->
    resizes fts lit e d (w :: widths) fig = Some fig' ->
    wellFormed fig'
    /\ get (get fig' "layout") "autosize" = VBool true
    /\ get (get fig' "layout") "width" = VNull
    /\ get (get fig' "layout") "height"
       = num (mobileHeight lit e d (last widths w)).
Proof.
  induction widths as [| w' rest IH]; intros w fig fig' Hwf H.
  - simpl in H. destruct (render fts lit e d w fig) as [fig1 |] eqn:E;
      [| discriminate].
    injection H as <-. now apply (render_layout fts lit e d w fig).
  - cbn [resizes] in H.
    destruct (render fts lit e d w fig) as [fig1 |] eqn:E; [| discriminate].
    apply render_layout in E; [| assumption]. destruct E as (Hwf1 & _).
    specialize (IH w' fig1 fig' Hwf1 H).
    replace (last (w' :: rest) w) with (last rest w'); [exact IH |].
    clear. revert w'. induction rest; intros; simpl in *; auto.
    destruct rest; auto.
Qed.

(** What the script leaves in the layout. *)
Lemma renders_layout (fts : Q -> string) (lit : Z -> Z) (e : bool) (d : Z)
    (widths : list Z) (w : Z) (fig fig' : value) :
  wellFormed fig ->
  renders fts lit e d (w :: widths) fig = Some fig' ->
  wellFormed fig'
  /\ get (get fig' "layout") "autosize" = VBool true
  /\ get (get fig' "layout") "width" = VNull
  /\ get (get fig' "layout") "height"
     = num (mobileHeight lit e d (lastRender fts fig w widths)).
Proof.
  intros Hwf H. unfold renders in H. unfold lastRender.
  destruct (render fts lit e d w fig) as [fig1 |] eqn:E; [| discriminate].
  assert (Hthrows : setupThrows fts fig1 = setupThrows fts fig)
    by (unfold setupThrows; now rewrite (render_meta _ _ _ _ _ _ _ Hwf E)).
  rewrite Hthrows in H.
  pose proof (render_layout fts lit e d w fig fig1 Hwf E) as Hfirst.
  destruct (setupThrows fts fig).
  - now injection H as <-.
  - destruct widths as [| w' rest].
    + now injection H as <-.
    + destruct Hfirst as (Hwf1 & _).
      replace (last (w' :: rest) w) with (last rest w').
      * exact (resizes_layout fts lit e d rest w' fig1 fig' Hwf1 H).
      * clear. revert w'. induction rest; intros; simpl in *; auto.
        destruct rest; auto.
Qed.

(** C5, amended: when [layout.height] is an int, a float or a bool, the
    height computed is the same at every render, whatever the viewport
    width; it is [int(height)] (the height itself when it is an integer,
    the height truncated toward zero otherwise) when that is at most 2^53
    in absolute value, the script reading the literal [int(height)]
    exactly up to there.  When [layout.height] is anything else, the
    height computed for the viewport width [w] is the specification's
    formula taken at [w], or at 1024 when [w] is 0; it lies within
    [280, 560] and is non-decreasing over positive widths.  In both cases
    ([int(height)] being at most 2^53 in the first) the height computed
    at a render is what that render writes into the layout. *)
Theorem C5_computed_height (typeName : value -> string) (fts : Q -> string)
    (lit : Z -> Z) (fig_json h : value) (art : Py.artifact) :
  Py.user_height_of typeName fig_json = Py.Returned h ->
  Py.prepare typeName fig_json = Py.Returned art ->
  let height :=
    mobileHeight lit (Py.explicitHeight art) (Py.defaultHeight art) in
  (Py.isNumber h = false \/ Z.abs (Py.int h) <= 2 ^ 53 ->
   forall w widths fig',
     renders fts lit (Py.explicitHeight art) (Py.defaultHeight art)
             (w :: widths) (Py.fig_payload art) = Some fig' ->
     get (get fig' "layout") "height"
     = num (height (lastRender fts (Py.fig_payload art) w widths)))
  /\ (Py.isNumber h = true ->
      (forall w w', height w = height w')
      /\ (Z.abs (Py.int h) <= 2 ^ 53 -> forall w, height w = Py.int h))
  /\ (forall z, h = num z -> Py.int h = z)
  /\ (Py.isNumber h = false ->
      forall w, height w = spec_height (if w =? 0 then 1024 else w)
                /\ 280 <= height w <= 560)
  /\ (Py.isNumber h = false ->
      forall w1 w2, 0 < w1 <= w2 -> height w1 <= height w2).
Proof.
  intros Hh Hp height.
  assert (Hauto : Py.isNumber h = false ->
                  forall w, height w = spec_height (if w =? 0 then 1024 else w)).
  { intros Hnum w.
    destruct (prepare_auto typeName _ _ _ Hh Hnum Hp) as (He & _).
    unfold height. rewrite He. apply mobileHeight_auto. }
  split; [| split; [| split; [| split]]].
  - intros _ w widths fig' H.
    apply (renders_layout fts lit _ _ widths w (Py.fig_payload art) fig');
      [| exact H].
    eapply prepare_wellFormed; eauto.
  - intros Hnum. rewrite (prepare_explicit typeName _ _ Hh Hnum) in Hp.
    injection Hp as <-. unfold height. cbn [Py.explicitHeight Py.defaultHeight].
    unfold mobileHeight. split; [reflexivity |].
    intros Hle w. unfold integerLiteral.
    apply Z.leb_le in Hle. now rewrite Hle.
  - intros z ->. simpl. apply Z.quot_1_r.
  - intros Hnum w. rewrite (Hauto Hnum). split; [reflexivity |].
    apply spec_height_bounds.
  - intros Hnum w1 w2 Hw. rewrite !(Hauto Hnum).
    replace (w1 =? 0) with false by (symmetry; apply Z.eqb_neq; lia).
    replace (w2 =? 0) with false by (symmetry; apply Z.eqb_neq; lia).
    apply spec_height_mono. lia.
Qed.

Lemma C5_computed_height_witness :
  mobileHeight noBigLiteral true 300 1400 = 300.
Proof.
  destruct (C5_computed_height exampleTypeName noFractions noBigLiteral
              (VObj [("layout", VObj [("height", num 300)])]) (num 300)
              {| Py.fig_payload := VObj [("layout", VObj [("height", num 300)])];
                 Py.explicitHeight := true;
                 Py.defaultHeight := 300 |}
              eq_refl eq_refl) as (_ & H & _).
  destruct (H eq_refl) as (_ & Hexact).
  apply Hexact. vm_compute. discriminate.
Defined.

(** *** Width and autosize (C8) *)

(** C8, refuted as stated: the document has the explicit height 300, the
    width 500 and autosize off; the Python pass leaves it as it is, and the
    first render of the script clears the width and turns autosize on. *)
Lemma C8_counterexample :
  Py.user_height_of exampleTypeName C8_document = Py.Returned (num 300)
  /\ Py.prepare exampleTypeName C8_document
     = Py.Returned {| Py.fig_payload := C8_document;
                      Py.explicitHeight := true;
                      Py.defaultHeight := 300 |}
  /\ get (get C8_document "layout") "width" = num 500
  /\ get (get C8_document "layout") "autosize" = VBool false
  /\ exists fig',
       render noFractions noBigLiteral true 300 1024 C8_document = Some fig'
       /\ get (get fig' "layout") "width" = VNull
       /\ get (get fig' "layout") "autosize" = VBool true.
Proof.
  repeat split. eexists. repeat split.
Qed.

(** C8, amended: the Python pass clears the width and forces autosize
    only when the height is not explicit, and leaves a document with an
    explicit height exactly as it is; every render of the script, whether
    the height is explicit or not, sets autosize to true and the width to
    null. *)
Theorem C8_width_autosize (typeName : value -> string) (fts : Q -> string)
    (lit : Z -> Z) (fig_json h : value) (art : Py.artifact) :
  Py.user_height_of typeName fig_json = Py.Returned h ->
  Py.prepare typeName fig_json = Py.Returned art ->
  (Py.isNumber h = true -> Py.fig_payload art = fig_json)
  /\ (Py.isNumber h = false ->
      get (get (Py.fig_payload art) "layout") "autosize" = VBool true
      /\ hasProp "width" (get (Py.fig_payload art) "layout") = false)
  /\ (forall w widths fig',
        renders fts lit (Py.explicitHeight art) (Py.defaultHeight art)
                (w :: widths) (Py.fig_payload art) = Some fig' ->
        get (get fig' "layout") "autosize" = VBool true
        /\ get (get fig' "layout") "width" = VNull).
Proof.
  intros Hh Hp. split; [| split].
  - intro Hnum. rewrite (prepare_explicit typeName _ _ Hh Hnum) in Hp.
    now injection Hp as <-.
  - intro Hnum.
    now destruct (prepare_auto typeName _ _ _ Hh Hnum Hp) as (_ & _ & _ & H).
  - intros w widths fig' H.
    destruct (renders_layout fts lit _ _ widths w (Py.fig_payload art) fig'
                (prepare_wellFormed typeName _ _ Hp) H)
      as (_ & Ha & Hw & _).
    now split.
Qed.

Lemma C8_width_autosize_witness :
  Py.fig_payload {| Py.fig_payload := C8_document;
                    Py.explicitHeight := true;
                    Py.defaultHeight := 300 |} = C8_document.
Proof.
  destruct (C8_width_autosize exampleTypeName noFractions noBigLiteral
              C8_document (num 300)
              {| Py.fig_payload := C8_document;
                 Py.explicitHeight := true;
                 Py.defaultHeight := 300 |}
              eq_refl eq_refl) as (H & _).
  exact (H eq_refl).
Defined.

(** *** The click handler (C2, C6) *)

Lemma exceeds_num (fts : Q -> string) (cmp : string -> Z -> bool) (a b : Z) :
  exceeds fts cmp (num a) b = Some (b <? a).
Proof.
  unfold exceeds, num, Qle_bool, inject_Z; simpl.
  rewrite !Z.mul_1_r. rewrite Z.ltb_antisym. reflexivity.
Qed.

Lemma isInteger_num (z : Z) : isInteger (num z) = true.
Proof.
  unfold isInteger, num. rewrite Qfloor_Z, Qeq_bool_inject. apply Z.eqb_refl.
Qed.

Lemma integerOr_num (z dflt : Z) : integerOr (num z) dflt = z.
Proof.
  unfold integerOr, num. now rewrite Qfloor_Z, Qeq_bool_inject, Z.eqb_refl.
Qed.

(** An integer below 10^21 in absolute value prints in decimal. *)
Lemma numberToString_integer (fts : Q -> string) (z : Z) :
  Z.abs z < 10 ^ 21 -> numberToString fts (inject_Z z) = decimal z.
Proof.
  intro H. unfold numberToString.
  rewrite Qfloor_Z, Qeq_bool_inject, Z.eqb_refl.
  apply Z.ltb_lt in H. now rewrite H.
Qed.

Lemma item_small (fts : Q -> string) (v : value) (i : Z) :
  Z.abs i < 10 ^ 21 -> item fts v i = at_ v i.
Proof.
  intro H. unfold item, at_. now rewrite numberToString_integer.
Qed.

Lemma truthy_num (a : Z) : truthy (num a) = negb (a =? 0).
Proof. exact (f_equal negb (Qeq_bool_inject a 0)). Qed.



Section Click.

Variable fts : Q -> string.
Variable cmp : string -> Z -> bool.
Variable meta : value.
Variable gd : graphDiv.

(** When the handler goes past its guards it makes the axis call if
    any, one restyle, and the title call if any. *)
Lemma onClick_applied (pt : point) (season0 L : string) :
  let payload := resolve meta (activeSeason fts meta season0 gd) L in
  defaultSeason fts meta = Some season0 ->
  toString fts (point_x pt) = Some L ->
  curveNumber pt = sourceTrace meta ->
  truthy payload = true -> typeofObject payload = true ->
  updateOf payload <> [] ->
  onClick fts cmp meta gd (Some pt)
  = (axisCalls fts cmp meta gd payload
     ++ [Restyle (updateOf payload) [targetTrace meta]]
     ++ titleCalls fts cmp meta gd payload)%list.
Proof.
  intros payload Hseason HL Hsrc Ht Ho Hu. unfold onClick.
  rewrite Hseason, Hsrc, Z.eqb_refl, HL. simpl negb. cbv iota.
  fold payload. rewrite Ht, Ho. simpl.
  destruct (updateOf payload); [contradiction | reflexivity].
Qed.



End Click.




(** C6, refuted as stated: with three annotations and no configured
    index, the text patched is that of the second annotation, not that of
    the first. *)
Lemma C6_counterexample :
  isInteger (get (VObj []) "target_title_annotation_index") = false
  /\ titleCalls noFractions noStringNumbers (VObj []) C6_gd C6_payload
     = [Relayout [("annotations[1].text", VStr "MI 2020")]]
  /\ titleCalls noFractions noStringNumbers (VObj []) C6_gd C6_payload
     <> [Relayout [("annotations[" ++ decimal (spec_titleIndex 3) ++ "].text",
                    VStr "MI 2020")]].
Proof. repeat split. vm_compute. discriminate. Qed.

(** C6, amended: for an applied click (the handler goes past its
    guards and makes its restyle) whose payload has a (truthy) title, and
    no configured [target_title_annotation_index], the call that follows
    the restyle patches the text of the second annotation when two or
    more annotations exist, that of the first when exactly one exists,
    and the top-level chart title when there is none; when the title
    cannot be converted to a string, no call follows the restyle. *)
Theorem C6_title_annotation (fts : Q -> string)
    (cmp : string -> Z -> bool) (meta : value) (gd : graphDiv)
    (payload : value) :
  isInteger (get meta "target_title_annotation_index") = false ->
  truthy (get payload "title") = true ->
  (forall pt season0 L,
      defaultSeason fts meta = Some season0 ->
      toString fts (point_x pt) = Some L ->
      curveNumber pt = sourceTrace meta ->
      resolve meta (activeSeason fts meta season0 gd) L = payload ->
      typeofObject payload = true ->
      updateOf payload <> [] ->
      onClick fts cmp meta gd (Some pt)
      = (axisCalls fts cmp meta gd payload
         ++ [Restyle (updateOf payload) [targetTrace meta]]
         ++ titleCalls fts cmp meta gd payload)%list)
  /\ (toString fts (get payload "title") = None ->
      titleCalls fts cmp meta gd payload = [])
  /\ forall text,
       toString fts (get payload "title") = Some text ->
       (forall anns,
           get (gd_layout gd) "annotations" = VArr anns ->
           titleCalls fts cmp meta gd payload
           = match anns with
             | [] => [Relayout [("title", VStr text)]]
             | [_] => [Relayout [("annotations[0].text", VStr text)]]
             | _ :: _ :: _ => [Relayout [("annotations[1].text", VStr text)]]
             end)
       /\ (truthy (gd_layout gd) = false
           \/ truthy (get (gd_layout gd) "annotations") = false ->
           titleCalls fts cmp meta gd payload = [Relayout [("title", VStr text)]]).
Proof.
  intros Hidx Htitle. split; [| split].
  - intros pt season0 L Hseason HL Hsrc Hpayload Ho Hu.
    assert (Ht : truthy payload = true)
      by (destruct payload; try discriminate Ho; try reflexivity;
          discriminate Htitle).
    rewrite <- Hpayload in Ht, Ho, Hu |- *.
    now apply onClick_applied.
  - intro Hnone. unfold titleCalls. rewrite Htitle, Hnone.
    destruct (titleIndex fts cmp meta _) as [idx |]; [| reflexivity].
    now destruct (addressed fts cmp _ idx).
  - intros text Htext. split.
    + intros anns Hanns. unfold titleCalls, titleIndex, addressed.
      rewrite Htitle, Hidx, Htext.
      assert (Hl : truthy (gd_layout gd) = true).
      { destruct (gd_layout gd); try discriminate; reflexivity. }
      rewrite Hl, Hanns. unfold or_else.
      change (truthy (VArr anns)) with true. cbv iota.
      rewrite length_arr, exceeds_num, truthy_num.
      cbn [option_map].
      destruct anns as [| a [| b rest]].
      * reflexivity.
      * reflexivity.
      * replace (1 <? Z.of_nat (Datatypes.length (a :: b :: rest))) with true
          by (symmetry; apply Z.ltb_lt; simpl Datatypes.length; lia).
        replace (Z.of_nat (Datatypes.length (a :: b :: rest)) =? 0)
          with false
          by (symmetry; apply Z.eqb_neq; simpl Datatypes.length; lia).
        rewrite exceeds_num.
        replace (1 <? Z.of_nat (Datatypes.length (a :: b :: rest))) with true
          by (symmetry; apply Z.ltb_lt; simpl Datatypes.length; lia).
        reflexivity.
    + intro H. unfold titleCalls, titleIndex, addressed.
      rewrite Htitle, Hidx, Htext.
      assert (Ha : or_else (if truthy (gd_layout gd)
                            then get (gd_layout gd) "annotations"
                            else gd_layout gd) (VArr []) = VArr []).
      { unfold or_else. destruct H as [H | H].
        - now rewrite !H.
        - destruct (truthy (gd_layout gd)) eqn:E;
            [now rewrite H | now rewrite E]. }
      rewrite Ha. reflexivity.
Qed.

Lemma C6_title_annotation_witness :
  titleCalls noFractions noStringNumbers (VObj []) C6_gd C6_payload
  = [Relayout [("annotations[1].text", VStr "MI 2020")]].
Proof.
  destruct (C6_title_annotation noFractions noStringNumbers (VObj []) C6_gd C6_payload
              eq_refl eq_refl) as (_ & _ & H).
  destruct (H "MI 2020" eq_refl) as (Hanns & _).
  exact (Hanns _ eq_refl).
Defined.

(** *** The render pipeline never raises (C3, C10) *)

Import Py.

Lemma good_bind {A : Type} (m : M A) (k : A -> M result) :
  tame (snd m) -> (forall a, snd m = Returned a -> good (k a)) ->
  good (bind m k).
Proof.
  destruct m as [log [a | e |]]; simpl; intros Ht Hk; try assumption.
  specialize (Hk a eq_refl). unfold good in *. now destruct (k a).
Qed.

Lemma good_try {A : Type} (m : M A) (h : exn -> M result) (k : A -> M result) :
  tame (snd m) -> (forall e, printable e -> good (h e)) ->
  (forall a, snd m = Returned a -> good (k a)) ->
  good (try_ m h k).
Proof.
  destruct m as [log [a | e |]]; simpl; intros Ht Hh Hk.
  - specialize (Hk a eq_refl). unfold good in *. now destruct (k a).
  - specialize (Hh e Ht). destruct Ht as (He & _). rewrite He.
    unfold good in *. now destruct (h e).
  - contradiction.
Qed.

Lemma tame_bind {A B : Type} (m : M A) (k : A -> M B) :
  tame (snd m) -> (forall a, tame (snd (k a))) -> tame (snd (bind m k)).
Proof.
  destruct m as [log [a | e |]]; simpl; intros Ht Hk; try assumption.
  specialize (Hk a). now destruct (k a).
Qed.

(** What a handler returns for an exception it can print. *)
Lemma formatted_printable {A : Type} (wrap : string -> A) (prefix : string)
    (e : exn) (text : string) :
  message e = Returned text ->
  formatted wrap prefix e = Returned (wrap (prefix ++ text)).
Proof. intro H. unfold formatted. now rewrite H. Qed.

Section Outcomes.

Variable typeName : value -> string.
Variable dependencies : bool.
Variable DataFrame : value -> outcome value.
Variable json_dumps : value -> outcome string.
Variable store_html : artifact -> outcome string.

Lemma tame_prepare (fig_json : value) : tame (prepare typeName fig_json).
Proof.
  assert (Hattr : forall v attr, printable (attributeError typeName v attr))
    by (intros; split; [reflexivity | eexists; reflexivity]).
  assert (Hitem : forall v, printable (itemAssignmentError typeName v))
    by (intros; split; [reflexivity | eexists; reflexivity]).
  assert (Hlist : printable listIndexError)
    by (split; [reflexivity | eexists; reflexivity]).
  unfold prepare, user_height_of, obind, dict_get, dict_setitem.
  destruct fig_json; try apply Hattr.
  destruct (if truthy _ then _ else _); try apply Hattr.
  destruct (negb _); [| exact I].
  destruct (get _ "layout"); try apply Hitem; try apply Hlist; exact I.
Qed.

(** What the outer [try] does with the outcome of its body. *)
Lemma run_body (runner : option (string -> M value)) (query : option string)
    (snippet : scope -> outcome scope) :
  render_plotly_chart_py typeName dependencies DataFrame json_dumps store_html
    runner query snippet
  = match body typeName dependencies DataFrame json_dumps store_html
            runner query snippet
    with
    | (log, Raised e) =>
        if isException e
        then (log, formatted Text "Error in render_plotly_chart_py: " e)
        else (log, Raised e)
    | other => other
    end.
Proof.
  unfold render_plotly_chart_py, try_, ret, format, lift.
  destruct (body _ _ _ _ _ _ _ _) as [log [r | e |]];
    try destruct (isException e); now rewrite ?app_nil_r.
Qed.

(** The body once the namespace is ready. *)
Lemma body_attached (runner : option (string -> M value))
    (query : option string) (snippet : scope -> outcome scope)
    (log : list string) (sc : scope) :
  dependencies = true ->
  attach_data DataFrame runner query = (log, Returned sc) ->
  body typeName dependencies DataFrame json_dumps store_html
    runner query snippet
  = match snippet sc with
    | Returned sc' =>
        let (log', r) := finish typeName json_dumps store_html sc' in
        ((log ++ log')%list, r)
    | Raised e =>
        if isException e
        then (log, formatted Text "Error executing Plotly code: " e)
        else (log, Raised e)
    | Diverged => (log, Diverged)
    end.
Proof.
  intros Hd Ha. unfold body. rewrite Hd, Ha. simpl.
  destruct (snippet sc) as [sc' | e |]; simpl.
  - now destruct (finish typeName json_dumps store_html sc').
  - destruct (isException e); simpl; now rewrite ?app_nil_r.
  - now rewrite app_nil_r.
Qed.

Lemma finish_no_figure (sc : scope) :
  to_plotly_json (scope_get "fig" sc) = None ->
  finish typeName json_dumps store_html sc = ([], Returned (Text no_figure)).
Proof. intro H. unfold finish. now rewrite H. Qed.

Lemma finish_unserializable (sc : scope) (e : exn) :
  scope_get "fig" sc = Figure (Raised e) -> isException e = true ->
  finish typeName json_dumps store_html sc
  = ([], formatted Text "Error serializing Plotly figure: " e).
Proof. intros H He. unfold finish. rewrite H. simpl. now rewrite He. Qed.

(** The figure is there and its serialisation returned: what follows
    is the pre-render pass, the encoder and the store, none of which has
    a handler of its own. *)
Lemma finish_serialized (sc : scope) (fig_json : value) :
  scope_get "fig" sc = Figure (Returned fig_json) ->
  finish typeName json_dumps store_html sc
  = ([], obind (prepare typeName fig_json) (fun art =>
         obind (json_dumps (fig_payload art)) (fun _ =>
         obind (store_html art) (fun html_id =>
         Returned (Handle html_id "Plotly chart rendered."))))).
Proof.
  intro H. unfold finish. rewrite H. cbn [to_plotly_json lift try_ bind].
  destruct (prepare typeName fig_json) as [art | e |]; [| reflexivity ..].
  cbn [lift bind obind app].
  destruct (json_dumps (fig_payload art)) as [text | e |];
    [| reflexivity ..].
  cbn [lift bind obind app].
  destruct (store_html art) as [html_id | e |]; reflexivity.
Qed.

Lemma good_format (prefix : string) (e : exn) :
  printable e ->
  (forall text, described (Text (prefix ++ text))) ->
  good (format Text prefix e).
Proof.
  intros (_ & text & Hmsg) Hd. unfold good, format, lift.
  cbn [snd]. rewrite (formatted_printable Text prefix e text Hmsg).
  apply Hd.
Qed.

Lemma good_finish (sc : scope) :
  (forall call, scope_get "fig" sc = Figure call -> tame call) ->
  (forall doc, tame (json_dumps doc)) ->
  (forall art, tame (store_html art)) ->
  good (finish typeName json_dumps store_html sc).
Proof.
  intros Hcall Hdumps Hstore. unfold finish.
  destruct (scope_get "fig" sc) as [v | n | r | call] eqn:E;
    cbn [to_plotly_json]; try (right; left; reflexivity).
  apply good_try.
  - now apply Hcall.
  - intros e He. apply good_format; [exact He |].
    intro text. right. right. right. left. eauto.
  - intros fig_json _. apply good_bind; [apply tame_prepare |].
    intros art _. apply good_bind; [apply Hdumps |].
    intros text _. apply good_bind; [apply Hstore |].
    intros id _. reflexivity.
Qed.

Lemma good_body (runner : option (string -> M value)) (query : option string)
    (snippet : scope -> outcome scope) :
  (forall r q, runner = Some r -> tame (snd (r q))) ->
  (forall rows, tame (DataFrame rows)) ->
  (forall sc, tame (snippet sc)) ->
  (forall sc sc' call,
      snippet sc = Returned sc' -> scope_get "fig" sc' = Figure call ->
      tame call) ->
  (forall doc, tame (json_dumps doc)) ->
  (forall art, tame (store_html art)) ->
  good (body typeName dependencies DataFrame json_dumps store_html
          runner query snippet).
Proof.
  intros Hrun Hdf Hsn Hcall Hdumps Hstore. unfold body.
  destruct dependencies; cbn [negb]; [| left; reflexivity].
  apply good_bind.
  - unfold attach_data. destruct runner as [r |]; [| exact I].
    destruct query as [q |]; [| exact I].
    apply tame_bind; [now apply (Hrun r q) |].
    intro rows. apply tame_bind; [apply Hdf |]. intro. exact I.
  - intros sc _. apply good_try.
    + apply Hsn.
    + intros e He. apply good_format; [exact He |].
      intro text. right. right. left. eauto.
    + intros sc' Hret. apply good_finish; [| assumption ..].
      intros call Hfig. now apply (Hcall sc sc' call).
Qed.

End Outcomes.

(** C3, refuted as stated: an exception that is not an instance of
    [Exception] passes through both handlers and leaves the function, a
    snippet that never ends keeps the function from returning, and an
    exception whose [str()] raises makes each handler that formats it
    raise in its turn. *)
Lemma C3_counterexample :
  render_plotly_chart_py exampleTypeName true (fun rows => Returned rows)
    (fun _ => Returned "{}") (fun _ => Returned "html-1") None None C3_exit
  = ([], Raised {| isException := false; message := Returned "0" |})
  /\ render_plotly_chart_py exampleTypeName true (fun rows => Returned rows)
       (fun _ => Returned "{}") (fun _ => Returned "html-1") None None C3_loop
     = ([], Diverged)
  /\ render_plotly_chart_py exampleTypeName true (fun rows => Returned rows)
       (fun _ => Returned "{}") (fun _ => Returned "html-1") None None
       C3_unprintable
     = ([], Raised {| isException := true; message := Returned "boom" |}).
Proof. repeat split. Qed.

(** C3, amended: when every call the function makes into other code
    (the data fetch, the construction of the frame, the snippet, the
    serialization of the figure, the JSON encoder, the store) returns or
    raises an instance of [Exception] whose [str()] returns, the function
    returns, and what it returns is the success mapping or one of the
    error strings.  Once the namespace is ready, a snippet that raises
    yields "Error executing Plotly code: " followed by the message, a
    snippet that leaves no figure yields the literal "Error: Plotly code
    must define a `fig` variable.", and a figure whose serialization
    raises yields "Error serializing Plotly figure: " followed by the
    message; any other failure, among them a document the JSON encoder
    refuses, yields "Error in render_plotly_chart_py: " followed by the
    message. *)
Theorem C3_pipeline_returns (typeName : value -> string) (dependencies : bool)
    (DataFrame : value -> outcome value)
    (json_dumps : value -> outcome string)
    (store_html : artifact -> outcome string)
    (runner : option (string -> M value)) (query : option string)
    (snippet : scope -> outcome scope) :
  (forall r q, runner = Some r -> tame (snd (r q))) ->
  (forall rows, tame (DataFrame rows)) ->
  (forall sc, tame (snippet sc)) ->
  (forall sc sc' call,
      snippet sc = Returned sc' -> scope_get "fig" sc' = Figure call ->
      tame call) ->
  (forall doc, tame (json_dumps doc)) ->
  (forall art, tame (store_html art)) ->
  let result :=
    render_plotly_chart_py typeName dependencies DataFrame json_dumps
      store_html runner query snippet in
  (exists log r, result = (log, Returned r) /\ described r)
  /\ (dependencies = false ->
      result = ([], Returned (Text missing_dependencies)))
  /\ (forall log sc,
        dependencies = true ->
        attach_data DataFrame runner query = (log, Returned sc) ->
        (forall e text,
            snippet sc = Raised e -> message e = Returned text ->
            result = (log, Returned (Text ("Error executing Plotly code: "
                                           ++ text))))
        /\ (forall sc',
               snippet sc = Returned sc' ->
               to_plotly_json (scope_get "fig" sc') = None ->
               result = (log, Returned (Text no_figure)))
        /\ (forall sc' e text,
               snippet sc = Returned sc' ->
               scope_get "fig" sc' = Figure (Raised e) ->
               message e = Returned text ->
               result
               = (log, Returned (Text ("Error serializing Plotly figure: "
                                       ++ text))))
        /\ (forall sc' fig_json art e text,
               snippet sc = Returned sc' ->
               scope_get "fig" sc' = Figure (Returned fig_json) ->
               prepare typeName fig_json = Returned art ->
               json_dumps (fig_payload art) = Raised e ->
               message e = Returned text ->
               result
               = (log, Returned (Text ("Error in render_plotly_chart_py: "
                                       ++ text)))))
  /\ (forall log e text,
        body typeName dependencies DataFrame json_dumps store_html
          runner query snippet
        = (log, Raised e) ->
        message e = Returned text ->
        result = (log, Returned (Text ("Error in render_plotly_chart_py: "
                                       ++ text)))).
Proof.
  intros Hrun Hdf Hsn Hcall Hdumps Hstore result.
  pose proof (good_body typeName dependencies DataFrame json_dumps store_html
                runner query snippet Hrun Hdf Hsn Hcall Hdumps Hstore)
    as Hgood.
  pose proof (run_body typeName dependencies DataFrame json_dumps store_html
                runner query snippet) as Hrb.
  fold result in Hrb.
  assert (Hcatch : forall log e text,
             body typeName dependencies DataFrame json_dumps store_html
               runner query snippet = (log, Raised e) ->
             message e = Returned text ->
             result = (log, Returned (Text ("Error in render_plotly_chart_py: "
                                            ++ text)))).
  { intros log e text Hb Hmsg. rewrite Hb in Hrb, Hgood.
    unfold good in Hgood. simpl in Hgood. destruct Hgood as (He & _).
    rewrite He in Hrb.
    now rewrite (formatted_printable Text _ e text Hmsg) in Hrb. }
  split; [| split; [| split]].
  - rewrite Hrb. unfold good in Hgood.
    destruct (body _ _ _ _ _ _ _ _) as [log [r | e |]]; simpl in Hgood.
    + now exists log, r.
    + destruct Hgood as (He & text & Hmsg). rewrite He.
      rewrite (formatted_printable Text _ e text Hmsg).
      eexists _, _. split; [reflexivity |].
      simpl. right. right. right. right. eauto.
    + contradiction.
  - intro Hd. rewrite Hrb. unfold body. now rewrite Hd.
  - intros log sc Hd Ha.
    pose proof (body_attached typeName dependencies DataFrame json_dumps
                  store_html runner query snippet log sc Hd Ha) as Hb.
    split; [| split; [| split]].
    + intros e text He Hmsg. rewrite Hb, He in Hrb.
      pose proof (Hsn sc) as Ht. rewrite He in Ht.
      destruct Ht as (Hex & _). rewrite Hex in Hrb.
      now rewrite (formatted_printable Text _ e text Hmsg) in Hrb.
    + intros sc' He Hnone. rewrite Hb, He in Hrb.
      rewrite (finish_no_figure typeName json_dumps store_html sc' Hnone)
        in Hrb.
      now rewrite app_nil_r in Hrb.
    + intros sc' e text He Hfig Hmsg. rewrite Hb, He in Hrb.
      pose proof (Hcall sc sc' _ He Hfig) as Ht.
      destruct Ht as (Hex & _).
      rewrite (finish_unserializable typeName json_dumps store_html sc' e
                 Hfig Hex) in Hrb.
      rewrite (formatted_printable Text _ e text Hmsg) in Hrb.
      now rewrite app_nil_r in Hrb.
    + intros sc' fig_json art e text He Hfig Hp Hd' Hmsg.
      apply (Hcatch log e text); [| exact Hmsg].
      rewrite Hb, He.
      rewrite (finish_serialized typeName json_dumps store_html sc' fig_json
                 Hfig).
      rewrite Hp. cbn [obind]. rewrite Hd'. cbn [obind].
      now rewrite app_nil_r.
  - exact Hcatch.
Qed.

Lemma C3_pipeline_returns_witness :
  render_plotly_chart_py exampleTypeName true (fun rows => Returned rows)
    (fun _ => Returned "{}") (fun _ => Returned "html-1") None None
    C3_name_error
  = ([], Returned (Text "Error executing Plotly code: name 'df' is not defined")).
Proof.
  destruct (C3_pipeline_returns exampleTypeName true (fun rows => Returned rows)
              (fun _ => Returned "{}") (fun _ => Returned "html-1")
              None None C3_name_error)
    as (_ & _ & H & _).
  - intros r q Hr. discriminate Hr.
  - intro rows. exact I.
  - intro sc. split; [reflexivity | eexists; reflexivity].
  - intros sc sc' call Hs. discriminate Hs.
  - intro doc. exact I.
  - intro art. exact I.
  - destruct (H [] initial_scope eq_refl eq_refl) as (He & _).
    exact (He _ _ eq_refl eq_refl).
Defined.

(** *** A figure is judged by its interface (C10) *)

Lemma scope_get_absent (name : string) (sc : scope) :
  (forall o, ~ In (name, o) sc) -> scope_get name sc = Plain VNull.
Proof.
  induction sc as [| [k o] rest IH]; intro H; [reflexivity |]. simpl.
  destruct (String.eqb name k) eqn:E.
  - apply String.eqb_eq in E. subst k. exfalso. apply (H o). now left.
  - apply IH. intros o' Hin. apply (H o'). now right.
Qed.

(** C10: once the namespace is ready, a snippet that binds [fig] to a
    value without a [to_plotly_json] attribute (None, a number, a string, a
    list, a dict, a library handle, a data frame) and a snippet that never
    binds [fig] get the same result, the literal string "Error: Plotly code
    must define a `fig` variable.". *)
Theorem C10_figure_by_interface (typeName : value -> string)
    (DataFrame : value -> outcome value)
    (json_dumps : value -> outcome string)
    (store_html : artifact -> outcome string)
    (runner : option (string -> M value)) (query : option string)
    (binds leaves : scope -> outcome scope)
    (log : list string) (sc bound unbound : scope) :
  attach_data DataFrame runner query = (log, Returned sc) ->
  binds sc = Returned bound ->
  (exists v, scope_get "fig" bound = Plain v)
  \/ (exists n, scope_get "fig" bound = Library n)
  \/ (exists r, scope_get "fig" bound = Frame r) ->
  leaves sc = Returned unbound ->
  (forall o, ~ In ("fig", o) unbound) ->
  render_plotly_chart_py typeName true DataFrame json_dumps
      store_html runner query binds
  = (log, Returned (Text "Error: Plotly code must define a `fig` variable."))
  /\ render_plotly_chart_py typeName true DataFrame json_dumps
      store_html runner query
       leaves
     = render_plotly_chart_py typeName true DataFrame json_dumps
         store_html runner query
         binds.
Proof.
  intros Ha Hb Hfig Hl Habsent.
  assert (Hrun : forall snippet sc',
             snippet sc = Returned sc' ->
             to_plotly_json (scope_get "fig" sc') = None ->
             render_plotly_chart_py typeName true DataFrame json_dumps
                 store_html
               runner query snippet
             = (log, Returned (Text no_figure))).
  { intros snippet sc' Hs Hnone. rewrite run_body.
    rewrite (body_attached typeName true DataFrame json_dumps
        store_html runner query
               snippet log sc eq_refl Ha).
    rewrite Hs, (finish_no_figure typeName json_dumps store_html sc' Hnone).
    now rewrite app_nil_r. }
  assert (H1 : to_plotly_json (scope_get "fig" bound) = None).
  { destruct Hfig as [(v & ->) | [(n & ->) | (r & ->)]]; reflexivity. }
  assert (H2 : to_plotly_json (scope_get "fig" unbound) = None).
  { now rewrite (scope_get_absent "fig" unbound Habsent). }
  rewrite (Hrun binds bound Hb H1), (Hrun leaves unbound Hl H2).
  split; reflexivity.
Qed.

Lemma C10_figure_by_interface_witness :
  render_plotly_chart_py exampleTypeName true (fun rows => Returned rows)
    (fun _ => Returned "{}") (fun _ => Returned "html-1") None None C10_number
  = ([], Returned (Text "Error: Plotly code must define a `fig` variable.")).
Proof.
  refine (proj1 (C10_figure_by_interface exampleTypeName
                   (fun rows => Returned rows)
                   (fun _ => Returned "{}") (fun _ => Returned "html-1")
                   None None C10_number C10_nothing [] initial_scope
                   (("fig", Plain (num 42)) :: initial_scope)
                   (("x", Plain (num 1)) :: initial_scope)
                   eq_refl eq_refl _ eq_refl _)).
  - left. exists (num 42). reflexivity.
  - intros o H. simpl in H.
    repeat (destruct H as [H | H]; [discriminate H |]). exact H.
Defined.

(** *** The statements sent to the database *)

Import Ipl.

Section Statements.

Variable typeName : value -> string.
Variable dependencies : bool.
Variable DataFrame : value -> outcome value.
Variable json_dumps : value -> outcome string.
Variable store_html : artifact -> outcome string.

Lemma fst_bind_lift {A B : Type} (m : M A) (k : A -> M B) :
  (forall a, fst (k a) = []) -> fst (bind m k) = fst m.
Proof.
  intro Hk. destruct m as [log [a | e |]]; simpl; try reflexivity.
  specialize (Hk a). destruct (k a) as [log' r]. simpl in *. subst log'.
  apply app_nil_r.
Qed.

Lemma fst_try {A B : Type} (m : M A) (h : exn -> M B) (k : A -> M B) :
  (forall e, fst (h e) = []) -> (forall a, fst (k a) = []) ->
  fst (try_ m h k) = fst m.
Proof.
  intros Hh Hk. destruct m as [log [a | e |]]; simpl; try reflexivity.
  - specialize (Hk a). destruct (k a) as [log' r]. simpl in *. subst log'.
    apply app_nil_r.
  - destruct (isException e); [| reflexivity].
    specialize (Hh e). destruct (h e) as [log' r]. simpl in *. subst log'.
    apply app_nil_r.
Qed.

Lemma fst_finish (sc : scope) : fst (finish typeName json_dumps
    store_html sc) = [].
Proof.
  unfold finish. destruct (to_plotly_json _); [| reflexivity].
  rewrite fst_try; try reflexivity.
  intro fig_json. rewrite fst_bind_lift; [reflexivity |].
  intro art. rewrite fst_bind_lift; [reflexivity |].
  intro text. rewrite fst_bind_lift; reflexivity.
Qed.

(** The statements sent while [render_plotly_chart_py] runs are those
    of its single call of the runner. *)
Lemma statements_of_render (runner : string -> M value) (query : string)
    (snippet : scope -> outcome scope) :
  fst (render_plotly_chart_py typeName dependencies DataFrame json_dumps
      store_html
         (Some runner) (Some query) snippet)
  = if dependencies then fst (runner query) else [].
Proof.
  unfold render_plotly_chart_py. rewrite fst_try; try reflexivity.
  unfold body. destruct dependencies; [| reflexivity]. cbn [negb].
  rewrite fst_bind_lift.
  - unfold attach_data. rewrite fst_bind_lift; [reflexivity |].
    intro rows. rewrite fst_bind_lift; reflexivity.
  - intro sc. rewrite fst_try; try reflexivity. apply fst_finish.
Qed.

End Statements.

(** *** Idempotence of the per-trace normalisation (C4, values) *)

Lemma normalizePerTraceValue_shaped (v tc : value) :
  shaped (normalizePerTraceValue v tc) = true.
Proof.
  unfold normalizePerTraceValue.
  destruct v; try reflexivity.
  cbn [isNullish]. cbv iota.
  repeat match goal with
         | |- context [if ?c then _ else _] => destruct c
         end; reflexivity.
Qed.

Lemma normalizePerTraceValue_arr (items : list value) (tc : value) :
  normalizePerTraceValue (VArr items) tc
  = if numIs tc 1 then
      match items with
      | [] => VArr [VArr []]
      | first :: _ => if isArray first then VArr items else VArr [VArr items]
      end
    else if (numIs tc (inject_Z (Z.of_nat (List.length items)))
             && forallb (fun item => isArray item || isNull item) items)%bool
         then VArr items
    else match items with
         | [] => VArr [VArr items]
         | first :: _ => if isArray first then VArr items else VArr [VArr items]
         end.
Proof.
  unfold normalizePerTraceValue. cbn [isNullish]. cbv iota.
  rewrite at_0_arr.
  destruct items as [| first rest]; cbn [hd Datatypes.length Nat.eqb];
    [reflexivity |].
  destruct (isArray first); reflexivity.
Qed.

Lemma normalizePerTraceValue_idempotent (v tc : value) :
  shaped v = true ->
  normalizePerTraceValue (normalizePerTraceValue v tc) tc
  = normalizePerTraceValue v tc.
Proof.
  destruct v; try discriminate; try reflexivity. intros _.
  rewrite (normalizePerTraceValue_arr items).
  destruct (numIs tc 1) eqn:Hone.
  - destruct items as [| first rest].
    + rewrite normalizePerTraceValue_arr, Hone. reflexivity.
    + destruct (isArray first) eqn:Hfirst;
        rewrite normalizePerTraceValue_arr, Hone; cbn [isArray];
        now rewrite ?Hfirst.
  - destruct (_ && _)%bool eqn:Hper.
    + now rewrite normalizePerTraceValue_arr, Hone, Hper.
    + assert (Hwrap : normalizePerTraceValue (VArr [VArr items]) tc
                      = VArr [VArr items]).
      { rewrite normalizePerTraceValue_arr, Hone.
        change (inject_Z (Z.of_nat (Datatypes.length [VArr items])))
          with 1%Q.
        rewrite Hone. reflexivity. }
      destruct items as [| first rest]; [exact Hwrap |].
      destruct (isArray first) eqn:Hfirst; [| exact Hwrap].
      now rewrite normalizePerTraceValue_arr, Hone, Hper, Hfirst.
Qed.

(** A scalar is wrapped once more by a second application. *)
Lemma normalizePerTraceValue_scalar_twice (v tc : value) :
  shaped v = false ->
  normalizePerTraceValue v tc = VArr [v]
  /\ normalizePerTraceValue (normalizePerTraceValue v tc) tc = VArr [VArr [v]].
Proof.
  intro H.
  assert (H1 : normalizePerTraceValue v tc = VArr [v])
    by (destruct v; try discriminate; reflexivity).
  split; [exact H1 |]. rewrite H1.
  unfold normalizePerTraceValue. cbn [isNullish]. cbv iota.
  change (Datatypes.length [v]) with 1%nat.
  change (inject_Z (Z.of_nat 1)) with 1%Q.
  rewrite at_0_arr. cbn [hd Nat.eqb].
  assert (Hv : isArray v = false) by (destruct v; try discriminate; reflexivity).
  rewrite Hv. destruct (numIs tc 1); reflexivity.
Qed.

(** *** Patch objects under normalisation *)

Lemma assign_same_value (k : string) (v : value) (props : list (string * value)) :
  assoc k props = Some v -> assign k v props = props.
Proof.
  induction props as [| [k' v'] rest IH]; simpl; [discriminate |].
  destruct (String.eqb k k') eqn:E.
  - intro H. now injection H as ->.
  - intro H. now rewrite IH.
Qed.

Lemma assign_assign (k : string) (v w : value) (props : list (string * value)) :
  assign k v (assign k w props) = assign k v props.
Proof.
  induction props as [| [k' v'] rest IH]; simpl.
  - now rewrite String.eqb_refl.
  - destruct (String.eqb k k') eqn:E; simpl; rewrite E; [reflexivity |].
    now rewrite IH.
Qed.

Lemma assoc_strip_keep (k : string) (props : list (string * value)) :
  fragileKey k = false ->
  assoc k (filter (fun kv => negb (fragileKey (fst kv))) props) = assoc k props.
Proof.
  intro Hk. induction props as [| [k' v'] rest IH]; [reflexivity |]. simpl.
  destruct (fragileKey k') eqn:F; simpl.
  - destruct (String.eqb k k') eqn:E; [| assumption].
    apply String.eqb_eq in E. congruence.
  - now rewrite IH.
Qed.

Lemma assoc_strip_drop (k : string) (props : list (string * value)) :
  fragileKey k = true ->
  assoc k (filter (fun kv => negb (fragileKey (fst kv))) props) = None.
Proof.
  intro Hk. induction props as [| [k' v'] rest IH]; [reflexivity |]. simpl.
  destruct (fragileKey k') eqn:F; simpl; [assumption |].
  destruct (String.eqb k k') eqn:E; [| assumption].
  apply String.eqb_eq in E. congruence.
Qed.

Lemma filter_twice {A : Type} (p : A -> bool) (l : list A) :
  filter p (filter p l) = filter p l.
Proof.
  induction l as [| x rest IH]; [reflexivity |]. simpl.
  destruct (p x) eqn:E; simpl; rewrite ?E, IH; reflexivity.
Qed.

(** A fragile key is neither an array index nor ["length"]. *)
Lemma fragileKey_not_index (k : string) :
  fragileKey k = true -> arrayIndex k = None /\ String.eqb k "length" = false.
Proof.
  unfold fragileKey, startsWith. intro H. apply andb_prop in H as [H _].
  destruct k as [| c rest]; [discriminate |].
  cbn [startsWith] in H. apply andb_prop in H as [H _].
  apply Ascii.eqb_eq in H. subst c.
  split.
  - unfold arrayIndex. simpl.
    now destruct (NilEmpty.uint_of_string rest).
  - reflexivity.
Qed.

Lemma hasProp_fragile_arr (k : string) (items : list value) :
  fragileKey k = true -> hasProp k (VArr items) = false.
Proof.
  intro H. destruct (fragileKey_not_index k H) as [Hi Hl].
  unfold hasProp. now rewrite Hi.
Qed.

Lemma stripFragileAnnotationKeys_other (obj : value) :
  (forall props, obj <> VObj props) -> stripFragileAnnotationKeys obj = obj.
Proof.
  intro H. unfold stripFragileAnnotationKeys.
  destruct (_ || _)%bool; [reflexivity |].
  destruct obj; try reflexivity. now destruct (H props).
Qed.

Lemma stripFragileAnnotationKeys_obj (props : list (string * value)) :
  stripFragileAnnotationKeys (VObj props)
  = VObj (filter (fun kv => negb (fragileKey (fst kv))) props).
Proof. reflexivity. Qed.

Lemma stripFragileAnnotationKeys_clean (k : string) (obj : value) :
  fragileKey k = true -> hasProp k (stripFragileAnnotationKeys obj) = false.
Proof.
  intro H. destruct obj;
    try (rewrite stripFragileAnnotationKeys_other by discriminate).
  1-5: reflexivity.
  - now apply hasProp_fragile_arr.
  - rewrite stripFragileAnnotationKeys_obj. simpl. unfold hasKey.
    now rewrite assoc_strip_drop.
Qed.

Lemma stripFragileAnnotationKeys_twice (obj : value) :
  stripFragileAnnotationKeys (stripFragileAnnotationKeys obj)
  = stripFragileAnnotationKeys obj.
Proof.
  destruct obj as [| | b | q | s | items | props].
  7: { rewrite !stripFragileAnnotationKeys_obj. now rewrite filter_twice. }
  all: match goal with
       | |- _ = stripFragileAnnotationKeys ?o =>
           assert (E : stripFragileAnnotationKeys o = o)
             by (apply stripFragileAnnotationKeys_other; discriminate)
       end; now rewrite !E.
Qed.

Lemma get_strip (k : string) (obj : value) :
  fragileKey k = false -> get (stripFragileAnnotationKeys obj) k = get obj k.
Proof.
  intro H. destruct obj;
    try (now rewrite stripFragileAnnotationKeys_other by discriminate).
  rewrite stripFragileAnnotationKeys_obj. simpl.
  now rewrite assoc_strip_keep.
Qed.

Section Keys.

Variable tc : value.

Lemma normalizeKey_isObj (d : value) (k : string) :
  isObj d = true -> isObj (normalizeKey tc d k) = true.
Proof.
  destruct d; try discriminate. intros _. unfold normalizeKey.
  now destruct (hasProp k _).
Qed.

Lemma get_normalizeKey_same (d : value) (k : string) :
  isObj d = true ->
  get (normalizeKey tc d k) k = normalizePerTraceValue (get d k) tc.
Proof.
  destruct d; try discriminate. intros _. unfold normalizeKey, hasProp, hasKey.
  destruct (assoc k props) as [v |] eqn:E.
  - apply get_set_same.
  - simpl. now rewrite E.
Qed.

Lemma get_normalizeKey_other (d : value) (k k' : string) :
  k <> k' -> get (normalizeKey tc d k) k' = get d k'.
Proof.
  intro H. unfold normalizeKey. destruct (hasProp k d); [| reflexivity].
  now apply get_set_other.
Qed.

Lemma normalizeKey_fixed (d : value) (k : string) :
  normalizePerTraceValue (get d k) tc = get d k -> normalizeKey tc d k = d.
Proof.
  intro H. unfold normalizeKey. destruct (hasProp k d) eqn:E; [| reflexivity].
  rewrite H. destruct d; try reflexivity.
  simpl in *. unfold hasKey in E.
  destruct (assoc k props) as [v |] eqn:A; [| discriminate].
  now rewrite (assign_same_value k v props A).
Qed.

Lemma normalizeKeys_isObj (d : value) :
  isObj d = true -> isObj (normalizeKeys tc d) = true.
Proof.
  intro H. unfold normalizeKeys. simpl.
  now repeat apply normalizeKey_isObj.
Qed.

Lemma get_normalizeKeys (d : value) (k : string) :
  isObj d = true -> In k TRACE_KEYS ->
  get (normalizeKeys tc d) k = normalizePerTraceValue (get d k) tc.
Proof.
  intros Hd Hk. unfold normalizeKeys. simpl.
  destruct Hk as [<- | [<- | [<- | [<- | []]]]];
    rewrite ?get_normalizeKey_other by discriminate;
    rewrite get_normalizeKey_same by (now repeat apply normalizeKey_isObj);
    rewrite ?get_normalizeKey_other by discriminate;
    reflexivity.
Qed.

Lemma normalizeKeys_fixed (d : value) :
  (forall k, In k TRACE_KEYS ->
             normalizePerTraceValue (get d k) tc = get d k) ->
  normalizeKeys tc d = d.
Proof.
  intro H. unfold normalizeKeys. simpl.
  rewrite (normalizeKey_fixed d "x") by (apply H; simpl; auto).
  rewrite (normalizeKey_fixed d "y") by (apply H; simpl; auto).
  rewrite (normalizeKey_fixed d "text") by (apply H; simpl; auto).
  apply normalizeKey_fixed. apply H. simpl. auto.
Qed.

Lemma normalizeDataArgs_obj (props : list (string * value)) :
  normalizeDataArgs tc (VObj props)
  = stripFragileAnnotationKeys (normalizeKeys tc (VObj props)).
Proof. reflexivity. Qed.

Lemma normalizeDataArgs_other (d : value) :
  isObj d = false -> normalizeDataArgs tc d = d.
Proof.
  destruct d; try discriminate; intros _; unfold normalizeDataArgs;
    cbn [typeofObject]; rewrite ?andb_false_r; reflexivity.
Qed.

Lemma get_normalizeDataArgs (d : value) (k : string) :
  In k TRACE_KEYS ->
  get (normalizeDataArgs tc d) k
  = if isObj d then normalizePerTraceValue (get d k) tc else get d k.
Proof.
  intro Hk. destruct (isObj d) eqn:E.
  - destruct d; try discriminate. rewrite normalizeDataArgs_obj.
    rewrite get_strip.
    + now apply get_normalizeKeys.
    + destruct Hk as [<- | [<- | [<- | [<- | []]]]]; reflexivity.
  - now rewrite normalizeDataArgs_other.
Qed.

Lemma get_trace_key_undefined (d : value) (k : string) :
  isObj d = false -> In k TRACE_KEYS -> get d k = VUndefined.
Proof.
  intros Hd Hk. destruct d; try discriminate; try reflexivity;
    destruct Hk as [<- | [<- | [<- | [<- | []]]]]; reflexivity.
Qed.

Lemma normalizeDataArgs_shaped (d : value) (k : string) :
  In k TRACE_KEYS -> shaped (get (normalizeDataArgs tc d) k) = true.
Proof.
  intro Hk. rewrite get_normalizeDataArgs by assumption.
  destruct (isObj d) eqn:E.
  - apply normalizePerTraceValue_shaped.
  - now rewrite get_trace_key_undefined.
Qed.

Lemma normalizeDataArgs_twice (d : value) :
  (forall k, In k TRACE_KEYS -> shaped (get d k) = true) ->
  normalizeDataArgs tc (normalizeDataArgs tc d) = normalizeDataArgs tc d.
Proof.
  intro H. destruct (isObj d) eqn:E.
  - destruct d; try discriminate. rewrite normalizeDataArgs_obj.
    destruct (normalizeKeys tc (VObj props)) as [| | | | | | props1] eqn:N;
      try (pose proof (normalizeKeys_isObj (VObj props) eq_refl) as Ho;
           rewrite N in Ho; discriminate).
    assert (Hs : stripFragileAnnotationKeys (VObj props1)
                 = VObj (filter (fun kv => negb (fragileKey (fst kv))) props1))
      by reflexivity.
    rewrite Hs, normalizeDataArgs_obj, <- Hs.
    rewrite normalizeKeys_fixed.
    + apply stripFragileAnnotationKeys_twice.
    + intros k Hk. rewrite get_strip
        by (destruct Hk as [<- | [<- | [<- | [<- | []]]]]; reflexivity).
      rewrite <- N, get_normalizeKeys by auto.
      apply normalizePerTraceValue_idempotent. now apply H.
  - rewrite (normalizeDataArgs_other d E). exact (normalizeDataArgs_other d E).
Qed.

Lemma normalizeDataArgs_clean (d : value) (k : string) :
  fragileKey k = true -> hasProp k (normalizeDataArgs tc d) = false.
Proof.
  intro Hk. unfold normalizeDataArgs.
  destruct (Js.truthy d && typeofObject d)%bool eqn:E.
  - now apply stripFragileAnnotationKeys_clean.
  - destruct d; try reflexivity; discriminate.
Qed.

End Keys.

Lemma normalizeLayoutArgs_strip (l : value) :
  normalizeLayoutArgs l = stripFragileAnnotationKeys l.
Proof.
  unfold normalizeLayoutArgs.
  destruct (Js.truthy l && typeofObject l)%bool eqn:E; [reflexivity |].
  unfold stripFragileAnnotationKeys.
  destruct (Js.truthy l); destruct (typeofObject l);
    try discriminate; reflexivity.
Qed.

Lemma normalizeLayoutArgs_clean (l : value) (k : string) :
  fragileKey k = true -> hasProp k (normalizeLayoutArgs l) = false.
Proof.
  rewrite normalizeLayoutArgs_strip. apply stripFragileAnnotationKeys_clean.
Qed.

Lemma normalizeLayoutArgs_twice (l : value) :
  normalizeLayoutArgs (normalizeLayoutArgs l) = normalizeLayoutArgs l.
Proof.
  rewrite !normalizeLayoutArgs_strip. apply stripFragileAnnotationKeys_twice.
Qed.

(** *** Buttons under normalisation *)

Lemma rewriteArgs_one (tc a : value) :
  rewriteArgs tc [a] = [normalizeDataArgs tc a].
Proof. reflexivity. Qed.

Lemma rewriteArgs_more (tc a b : value) (rest : list value) :
  rewriteArgs tc (a :: b :: rest)
  = normalizeDataArgs tc a :: normalizeLayoutArgs b :: rest.
Proof. reflexivity. Qed.

Lemma get_args_arr (b : value) (items : list value) :
  get b "args" = VArr items ->
  exists props, b = VObj props /\ assoc "args" props = Some (VArr items).
Proof.
  destruct b; try discriminate. simpl.
  destruct (assoc "args" props) as [v |] eqn:E; [| discriminate].
  intros ->. eauto.
Qed.

Lemma length_is_zero (items : list value) :
  numIs (get (VArr items) "length") 0 = (List.length items =? 0)%nat.
Proof.
  rewrite length_arr. change 0%Q with (inject_Z 0). rewrite numIs_num.
  destruct items; reflexivity.
Qed.

Section Buttons.

Variable fts : Q -> string.
Variable tc : value.

Lemma methodOf_assign_args (props : list (string * value)) (v : value) :
  methodOf fts (VObj (assign "args" v props)) = methodOf fts (VObj props).
Proof.
  unfold methodOf. f_equal. f_equal.
  apply (get_set_other (VObj props) "args" "method"). discriminate.
Qed.

Lemma isUpdate_assign_args (props : list (string * value)) (v : value) :
  isUpdate fts (VObj (assign "args" v props)) = isUpdate fts (VObj props).
Proof. unfold isUpdate. now rewrite methodOf_assign_args. Qed.

(** A button the loop passes over is left as it is. *)
Lemma normalizeButton_skip (b : value) :
  (isArray (get b "args") = false
   \/ get b "args" = VArr []
   \/ isUpdate fts b = false) ->
  normalizeButton fts tc b = b.
Proof.
  intro H. unfold normalizeButton. destruct H as [H | [H | H]].
  - rewrite H. cbn [negb]. now rewrite orb_true_r.
  - rewrite H. cbn [isArray negb]. rewrite length_is_zero. cbn.
    now rewrite orb_true_r.
  - rewrite H. cbn [negb]. now destruct (_ || _)%bool.
Qed.

(** A button the loop normalises is rebuilt around its new arguments. *)
Lemma normalizeButton_obj (props : list (string * value))
    (items : list value) :
  assoc "args" props = Some (VArr items) -> items <> [] ->
  isUpdate fts (VObj props) = true ->
  normalizeButton fts tc (VObj props)
  = VObj (assign "args" (VArr (rewriteArgs tc items)) props).
Proof.
  intros Ha Hne Hu. unfold normalizeButton.
  assert (Hg : get (VObj props) "args" = VArr items) by (simpl; now rewrite Ha).
  rewrite Hg, Hu, length_is_zero. cbn [Js.truthy isArray negb orb].
  destruct items; [contradiction | reflexivity].
Qed.

Lemma normalizeButton_cases (b : value) :
  normalizeButton fts tc b = b
  \/ exists props items,
       b = VObj props /\ assoc "args" props = Some (VArr items)
       /\ items <> [] /\ isUpdate fts b = true
       /\ normalizeButton fts tc b
          = VObj (assign "args" (VArr (rewriteArgs tc items)) props).
Proof.
  destruct (get b "args") as [| | | | | items |] eqn:G;
    try (left; apply normalizeButton_skip; left; now rewrite G).
  destruct items as [| a rest];
    [left; apply normalizeButton_skip; right; left; exact G |].
  destruct (isUpdate fts b) eqn:U;
    [| left; apply normalizeButton_skip; right; right; exact U].
  destruct (get_args_arr _ _ G) as (props & -> & Ha).
  right. exists props, (a :: rest).
  repeat split; try assumption; try discriminate.
  apply normalizeButton_obj; [assumption | discriminate | assumption].
Qed.

Lemma args_of_rebuilt (props : list (string * value)) (items : list value) :
  get (VObj (assign "args" (VArr items) props)) "args" = VArr items.
Proof. apply get_set_same. Qed.

Lemma hasProp_undefined (k : string) : hasProp k VUndefined = false.
Proof. reflexivity. Qed.

Lemma clean_normalizeButton (b : value) :
  clean fts (normalizeButton fts tc b).
Proof.
  destruct (normalizeButton_cases b)
    as [Hskip | (props & items & -> & Ha & Hne & Hu & Hb)].
  - (* passed over: the loop would have normalised it otherwise *)
    rewrite Hskip. intros Hu Harr k Hk.
    destruct (get b "args") as [| | | | | items |] eqn:G; try discriminate.
    destruct items as [| a rest]; [now split |].
    destruct (get_args_arr _ _ G) as (props & -> & Ha).
    rewrite (normalizeButton_obj props (a :: rest) Ha ltac:(discriminate) Hu)
      in Hskip.
    injection Hskip as Hp.
    assert (Hitems : rewriteArgs tc (a :: rest) = a :: rest).
    { pose proof (assoc_assign_same "args"
                    (VArr (rewriteArgs tc (a :: rest))) props) as Hs.
      rewrite Hp, Ha in Hs. now injection Hs as Hs. }
    destruct rest as [| b' rest].
    + rewrite rewriteArgs_one in Hitems. injection Hitems as Ha0.
      split; [| reflexivity].
      rewrite at_0_arr. cbn [hd]. rewrite <- Ha0.
      now apply normalizeDataArgs_clean.
    + rewrite rewriteArgs_more in Hitems. injection Hitems as Ha0 Hb0.
      split.
      * rewrite at_0_arr. cbn [hd]. rewrite <- Ha0.
        now apply normalizeDataArgs_clean.
      * rewrite at_1_arr. cbn [nth]. rewrite <- Hb0.
        now apply normalizeLayoutArgs_clean.
  - rewrite Hb. intros _ _ k Hk. rewrite args_of_rebuilt.
    destruct items as [| a [| b' rest]]; [contradiction | |].
    + rewrite rewriteArgs_one. split; [| reflexivity].
      rewrite at_0_arr. now apply normalizeDataArgs_clean.
    + rewrite rewriteArgs_more. split.
      * rewrite at_0_arr. now apply normalizeDataArgs_clean.
      * rewrite at_1_arr. now apply normalizeLayoutArgs_clean.
Qed.

End Buttons.

Section ButtonsTwice.

Variable fts : Q -> string.
Variable tc : value.

Lemma settled_normalizeButton (b : value) :
  settled fts (normalizeButton fts tc b).
Proof.
  destruct (normalizeButton_cases fts tc b)
    as [Hskip | (props & items & -> & Ha & Hne & Hu & Hb)].
  - rewrite Hskip. intros Hu Harr k Hk.
    destruct (get b "args") as [| | | | | items |] eqn:G; try discriminate.
    destruct items as [| a rest];
      [destruct Hk as [<- | [<- | [<- | [<- | []]]]]; reflexivity |].
    destruct (get_args_arr _ _ G) as (props & -> & Ha).
    rewrite (normalizeButton_obj fts tc props (a :: rest) Ha
               ltac:(discriminate) Hu) in Hskip.
    injection Hskip as Hp.
    assert (Hitems : rewriteArgs tc (a :: rest) = a :: rest).
    { pose proof (assoc_assign_same "args"
                    (VArr (rewriteArgs tc (a :: rest))) props) as Hs.
      rewrite Hp, Ha in Hs. now injection Hs as Hs. }
    assert (Ha0 : normalizeDataArgs tc a = a).
    { destruct rest as [| b' rest].
      - rewrite rewriteArgs_one in Hitems. now injection Hitems.
      - rewrite rewriteArgs_more in Hitems. now injection Hitems. }
    rewrite at_0_arr. cbn [hd]. rewrite <- Ha0.
    now apply normalizeDataArgs_shaped.
  - rewrite Hb. intros _ _ k Hk. rewrite args_of_rebuilt, at_0_arr.
    destruct items as [| a [| b' rest]]; [contradiction | |].
    + rewrite rewriteArgs_one. now apply normalizeDataArgs_shaped.
    + rewrite rewriteArgs_more. now apply normalizeDataArgs_shaped.
Qed.

Lemma normalizeButton_twice (b : value) :
  settled fts b ->
  normalizeButton fts tc (normalizeButton fts tc b) = normalizeButton fts tc b.
Proof.
  intro Hs.
  destruct (normalizeButton_cases fts tc b)
    as [Hskip | (props & items & -> & Ha & Hne & Hu & Hb)].
  - now rewrite !Hskip.
  - rewrite Hb.
    assert (Hfirst : forall k, In k TRACE_KEYS ->
                               shaped (get (hd VUndefined items) k) = true).
    { intros k Hk. rewrite <- at_0_arr.
      assert (Hg : get (VObj props) "args" = VArr items)
        by (simpl; now rewrite Ha).
      rewrite <- Hg. apply Hs; [assumption | now rewrite Hg | assumption]. }
    assert (Hfix : rewriteArgs tc (rewriteArgs tc items) = rewriteArgs tc items).
    { destruct items as [| a [| b' rest]]; [contradiction | |].
      - rewrite !rewriteArgs_one. f_equal.
        apply normalizeDataArgs_twice. exact Hfirst.
      - rewrite !rewriteArgs_more. f_equal.
        + apply normalizeDataArgs_twice. exact Hfirst.
        + f_equal. apply normalizeLayoutArgs_twice. }
    rewrite (normalizeButton_obj fts tc _ (rewriteArgs tc items)).
    + now rewrite Hfix, assign_assign.
    + apply assoc_assign_same.
    + destruct items as [| a [| b' rest]]; [contradiction | |]; discriminate.
    + now rewrite isUpdate_assign_args.
Qed.

End ButtonsTwice.

(** *** Menus and documents under normalisation *)

Lemma get_buttons_arr (m : value) (btns : list value) :
  get m "buttons" = VArr btns ->
  exists props, m = VObj props /\ assoc "buttons" props = Some (VArr btns).
Proof.
  destruct m; try discriminate. simpl.
  destruct (assoc "buttons" props) as [v |] eqn:E; [| discriminate].
  intros ->. eauto.
Qed.

Lemma get_updatemenus_arr (l : value) (ms : list value) :
  get l "updatemenus" = VArr ms ->
  exists lprops, l = VObj lprops /\ assoc "updatemenus" lprops = Some (VArr ms).
Proof.
  destruct l; try discriminate. simpl.
  destruct (assoc "updatemenus" props) as [v |] eqn:E; [| discriminate].
  intros ->. eauto.
Qed.

Lemma get_layout_obj (fig : value) (lprops : list (string * value)) :
  get fig "layout" = VObj lprops ->
  exists props, fig = VObj props /\ assoc "layout" props = Some (VObj lprops).
Proof.
  destruct fig; try discriminate. simpl.
  destruct (assoc "layout" props) as [v |] eqn:E; [| discriminate].
  intros ->. eauto.
Qed.

Lemma buttonsOf_string (s : string) : buttonsOf (VStr s) = VArr [].
Proof.
  unfold buttonsOf, or_else.
  destruct (Js.truthy (VStr s)) eqn:T; [reflexivity | now rewrite T].
Qed.

Lemma iterable_cases (v : value) (items : list value) :
  iterate v = Some items ->
  (v = VArr items) \/ (exists s, v = VStr s /\ items = chars s).
Proof.
  destruct v; try discriminate; simpl; intro H; injection H as <-; eauto.
Qed.

Lemma chars_strings (s : string) (v : value) :
  In v (chars s) -> exists c, v = VStr c.
Proof.
  induction s as [| a rest IH]; simpl; [contradiction |].
  intros [<- | H]; eauto.
Qed.

Lemma forEach_Forall2 {A B : Type} (f : A -> option B) (l : list A)
    (l' : list B) :
  forEach f l = Some l' -> Forall2 (fun x y => f x = Some y) l l'.
Proof.
  revert l'. induction l as [| x rest IH]; simpl; intros l' H.
  - injection H as <-. constructor.
  - destruct (f x) as [y |] eqn:E; [| discriminate].
    destruct (forEach f rest) as [ys |]; [| discriminate].
    injection H as <-. constructor; auto.
Qed.

Lemma Forall2_transfer {A B : Type} (R : A -> B -> Prop) (S : A -> Prop)
    (T : B -> Prop) (l : list A) (l' : list B) :
  (forall x y, S x -> R x y -> T y) ->
  Forall2 R l l' -> Forall S l -> Forall T l'.
Proof.
  intros Hstep HR. induction HR as [| x y l l' Hxy _ IH]; intro HS.
  - constructor.
  - inversion HS; subst. constructor; eauto.
Qed.

Lemma forEach_fixed {A : Type} (f : A -> option A) (l : list A) :
  Forall (fun x => f x = Some x) l -> forEach f l = Some l.
Proof.
  induction 1 as [| x rest Hx _ IH]; simpl; [reflexivity |].
  now rewrite Hx, IH.
Qed.

Section Menus.

Variable fts : Q -> string.
Variable tc : value.

Lemma normalizeMenu_obj (props : list (string * value)) (btns : list value) :
  assoc "buttons" props = Some (VArr btns) ->
  normalizeMenu fts tc (VObj props)
  = if existsb (throwsOn fts) btns then None
    else Some (VObj (assign "buttons"
                       (VArr (map (normalizeButton fts tc) btns)) props)).
Proof.
  intro H. unfold normalizeMenu, buttonsOf, or_else.
  cbn [Js.truthy]. cbv iota. simpl get. rewrite H. reflexivity.
Qed.

(** The loop of a menu that completes met no button it throws on. *)
Lemma normalizeMenu_quiet (m m' : value) (btns : list value) :
  normalizeMenu fts tc m = Some m' ->
  iterate (buttonsOf m) = Some btns ->
  existsb (throwsOn fts) btns = false.
Proof.
  intros H Hi. unfold normalizeMenu in H. rewrite Hi in H.
  destruct (existsb (throwsOn fts) btns); [discriminate | reflexivity].
Qed.

Lemma normalizeMenu_cases (m m' : value) :
  normalizeMenu fts tc m = Some m' ->
  (exists props btns,
      m = VObj props /\ assoc "buttons" props = Some (VArr btns)
      /\ m' = VObj (assign "buttons"
                      (VArr (map (normalizeButton fts tc) btns)) props))
  \/ (m' = m /\ (buttonsOf m = VArr [] \/ exists s, buttonsOf m = VStr s)).
Proof.
  destruct (get m "buttons") as [| | | | | btns |] eqn:G.
  6: { destruct (get_buttons_arr _ _ G) as (props & -> & Ha).
       rewrite (normalizeMenu_obj props btns Ha).
       destruct (existsb (throwsOn fts) btns); [discriminate |].
       intro H. injection H as <-.
       left. eauto. }
  all: unfold normalizeMenu; rewrite G;
    destruct (iterate (buttonsOf m)) as [items |] eqn:I; [| discriminate];
    destruct (existsb (throwsOn fts) items); [discriminate |];
    intro H; injection H as <-; right; split; [reflexivity |];
    unfold buttonsOf, or_else in *; rewrite G in *;
    destruct (Js.truthy (if Js.truthy m then _ else m)) eqn:T; [| now left];
    destruct (Js.truthy m) eqn:Tm; try discriminate;
    destruct m; try discriminate; eauto.
Qed.

Lemma buttonsAll_string (P : value -> Prop) (s : string) :
  buttonsAll P (VStr s).
Proof.
  intros btns H. rewrite buttonsOf_string in H. injection H as <-. constructor.
Qed.

Lemma buttonsOf_rebuilt (props : list (string * value)) (btns : list value) :
  buttonsOf (VObj (assign "buttons" (VArr btns) props)) = VArr btns.
Proof.
  unfold buttonsOf, or_else. cbn [Js.truthy]. cbv iota.
  now rewrite get_rebuilt.
Qed.

Lemma normalizeMenu_all (P : value -> Prop) (m m' : value) :
  (forall b, P (normalizeButton fts tc b)) -> (forall s, P (VStr s)) ->
  normalizeMenu fts tc m = Some m' -> buttonsAll P m'.
Proof.
  intros HP Hs H btns' Hb.
  destruct (normalizeMenu_cases m m' H)
    as [(props & btns & -> & Ha & ->) | (-> & [Hd | (s & Hd)])].
  - rewrite buttonsOf_rebuilt in Hb. injection Hb as <-.
    apply Forall_forall. intros b Hin. apply in_map_iff in Hin.
    destruct Hin as (b0 & <- & _). apply HP.
  - rewrite Hd in Hb. injection Hb as <-. constructor.
  - rewrite Hd in Hb. injection Hb as <-.
    apply Forall_forall. intros b Hin.
    destruct (chars_strings _ _ Hin) as (c & ->). apply Hs.
Qed.

(** Whether the loop throws on a button is not changed by what it does
    to the button. *)
Lemma throwsOn_normalizeButton (b : value) :
  throwsOn fts (normalizeButton fts tc b) = throwsOn fts b.
Proof.
  destruct (normalizeButton_cases fts tc b)
    as [-> | (props & items & -> & Ha & Hne & _ & ->)]; [reflexivity |].
  unfold throwsOn. rewrite methodOf_assign_args, get_rebuilt.
  assert (Hg : get (VObj props) "args" = VArr items)
    by (simpl; now rewrite Ha).
  rewrite Hg, !length_is_zero. cbn [Js.truthy isArray].
  destruct items as [| a [| b' rest]]; [contradiction | |].
  - now rewrite rewriteArgs_one.
  - now rewrite rewriteArgs_more.
Qed.

Lemma normalizeMenu_twice (m m' : value) :
  buttonsAll (settled fts) m ->
  normalizeMenu fts tc m = Some m' -> normalizeMenu fts tc m' = Some m'.
Proof.
  intros Hall H.
  destruct (normalizeMenu_cases m m' H)
    as [(props & btns & -> & Ha & ->) | (-> & _)]; [| exact H].
  assert (Hb : iterate (buttonsOf (VObj props)) = Some btns).
  { unfold buttonsOf, or_else. cbn [Js.truthy]. cbv iota. simpl get.
    rewrite Ha. reflexivity. }
  pose proof (normalizeMenu_quiet _ _ btns H Hb) as Hquiet.
  rewrite (normalizeMenu_obj _ (map (normalizeButton fts tc) btns))
    by apply assoc_assign_same.
  assert (Hquiet' : existsb (throwsOn fts) (map (normalizeButton fts tc) btns)
                    = false).
  { rewrite <- Hquiet. clear. induction btns as [| b rest IH];
      [reflexivity |].
    cbn [map existsb]. now rewrite throwsOn_normalizeButton, IH. }
  rewrite Hquiet'.
  rewrite assign_assign. do 4 f_equal.
  rewrite map_map. apply map_ext_in. intros b Hin.
  apply normalizeButton_twice.
  specialize (Hall btns Hb). rewrite Forall_forall in Hall. now apply Hall.
Qed.

End Menus.

Section Documents.

Variable fts : Q -> string.

Lemma traceCountOf_rebuilt (props : list (string * value)) (v : value) :
  traceCountOf (VObj (assign "layout" v props)) = traceCountOf (VObj props).
Proof.
  unfold traceCountOf. f_equal. f_equal. f_equal.
  apply (get_set_other (VObj props) "layout" "data"). discriminate.
Qed.

Lemma menusOf_obj (props lprops : list (string * value)) (ms : list value) :
  assoc "layout" props = Some (VObj lprops) ->
  assoc "updatemenus" lprops = Some (VArr ms) ->
  menusOf (VObj props) = VArr ms.
Proof.
  intros Hl Hm. unfold menusOf, or_else. simpl get. rewrite Hl.
  cbn [Js.truthy]. cbv iota. unfold get. now rewrite Hm.
Qed.

Lemma normalizeUpdateMenus_obj (props lprops : list (string * value))
    (ms : list value) :
  assoc "layout" props = Some (VObj lprops) ->
  assoc "updatemenus" lprops = Some (VArr ms) ->
  normalizeUpdateMenus fts (VObj props)
  = match forEach (normalizeMenu fts (traceCountOf (VObj props))) ms with
    | Some ms' =>
        Some (VObj (assign "layout"
                      (VObj (assign "updatemenus" (VArr ms') lprops)) props))
    | None => None
    end.
Proof.
  intros Hl Hm. unfold normalizeUpdateMenus.
  rewrite (menusOf_obj props lprops ms Hl Hm). cbn [iterate].
  destruct (forEach _ ms) as [ms' |]; [| reflexivity].
  assert (Hg : or_else (get (VObj props) "layout") (VObj []) = VObj lprops).
  { unfold or_else. simpl get. now rewrite Hl. }
  rewrite Hg. simpl get. rewrite Hm. reflexivity.
Qed.

Lemma normalizeUpdateMenus_cases (fig fig' : value) :
  normalizeUpdateMenus fts fig = Some fig' ->
  (exists props lprops ms ms',
      fig = VObj props
      /\ assoc "layout" props = Some (VObj lprops)
      /\ assoc "updatemenus" lprops = Some (VArr ms)
      /\ forEach (normalizeMenu fts (traceCountOf fig)) ms = Some ms'
      /\ fig' = VObj (assign "layout"
                        (VObj (assign "updatemenus" (VArr ms') lprops)) props))
  \/ (fig' = fig /\ (menusOf fig = VArr [] \/ exists s, menusOf fig = VStr s)).
Proof.
  destruct (get (or_else (get fig "layout") (VObj [])) "updatemenus")
    as [| | | | | ms |] eqn:G.
  6: { destruct (get_updatemenus_arr _ _ G) as (lprops & Hl & Hm).
       assert (Hfig : get fig "layout" = VObj lprops).
       { revert Hl Hm. unfold or_else.
         destruct (Js.truthy (get fig "layout")); [auto |].
         intro H. injection H as <-. discriminate. }
       destruct (get_layout_obj _ _ Hfig) as (props & -> & Hlp).
       rewrite (normalizeUpdateMenus_obj props lprops ms Hlp Hm).
       destruct (forEach _ ms) as [ms' |] eqn:F; [| discriminate].
       intro H. injection H as <-. left. exists props, lprops, ms, ms'.
       repeat split; assumption. }
  all: unfold normalizeUpdateMenus;
    destruct (iterate (menusOf fig)) as [items |] eqn:I; [| discriminate];
    destruct (forEach _ items); [| discriminate];
    rewrite G; intro H; injection H as <-; right; split; [reflexivity |];
    unfold menusOf in *; rewrite G in *; unfold or_else in *;
    match type of I with
    | iterate (if ?c then _ else _) = _ => destruct c eqn:T
    end; [| now left];
    simpl in I; try discriminate I; right; eauto.
Qed.

Lemma menusOf_rebuilt (props lprops : list (string * value)) (ms : list value) :
  menusOf (VObj (assign "layout"
                   (VObj (assign "updatemenus" (VArr ms) lprops)) props))
  = VArr ms.
Proof.
  apply (menusOf_obj _ (assign "updatemenus" (VArr ms) lprops));
    apply assoc_assign_same.
Qed.

Lemma normalizeUpdateMenus_all (P : value -> Prop) (fig fig' : value) :
  (forall tc b, P (normalizeButton fts tc b)) -> (forall s, P (VStr s)) ->
  normalizeUpdateMenus fts fig = Some fig' ->
  menusAll (buttonsAll P) fig'.
Proof.
  intros HP Hs H menus' Hm.
  destruct (normalizeUpdateMenus_cases fig fig' H)
    as [(props & lprops & ms & ms' & -> & Hl & Hu & Hf & ->)
       | (-> & [Hd | (s & Hd)])].
  - rewrite menusOf_rebuilt in Hm. injection Hm as <-.
    apply forEach_Forall2 in Hf.
    eapply (Forall2_transfer _ (fun _ => True));
      [| exact Hf | apply Forall_forall; auto].
    intros m m' _ Hmm.
    apply (normalizeMenu_all fts (traceCountOf (VObj props)) P m m'); auto.
  - rewrite Hd in Hm. injection Hm as <-. constructor.
  - rewrite Hd in Hm. injection Hm as <-.
    apply Forall_forall. intros m Hin.
    destruct (chars_strings _ _ Hin) as (c & ->). apply buttonsAll_string.
Qed.

Lemma normalizeUpdateMenus_twice (fig fig1 : value) :
  menusAll (buttonsAll (settled fts)) fig ->
  normalizeUpdateMenus fts fig = Some fig1 ->
  normalizeUpdateMenus fts fig1 = Some fig1.
Proof.
  intros Hall H.
  destruct (normalizeUpdateMenus_cases fig fig1 H)
    as [(props & lprops & ms & ms' & -> & Hl & Hu & Hf & ->) | (-> & _)];
    [| exact H].
  rewrite (normalizeUpdateMenus_obj _ (assign "updatemenus" (VArr ms') lprops)
             ms') by apply assoc_assign_same.
  rewrite traceCountOf_rebuilt.
  assert (Hms : Forall (buttonsAll (settled fts)) ms).
  { apply Hall. now rewrite (menusOf_obj props lprops ms Hl Hu). }
  assert (Hfix : forEach (normalizeMenu fts (traceCountOf (VObj props))) ms'
                 = Some ms').
  { apply forEach_fixed. apply forEach_Forall2 in Hf.
    eapply Forall2_transfer; [| exact Hf | exact Hms].
    intros m m' Hm Hmm. eapply normalizeMenu_twice; eauto. }
  rewrite Hfix. now rewrite !assign_assign.
Qed.

End Documents.

(** *** Fragile annotation keys are stripped (C7) *)

Lemma length_append (a b : string) :
  String.length (a ++ b) = (String.length a + String.length b)%nat.
Proof. induction a as [| c a IH]; simpl; [reflexivity | now rewrite IH]. Qed.

Lemma substring_whole (p : string) : substring 0 (String.length p) p = p.
Proof. induction p as [| c p IH]; simpl; [reflexivity | now rewrite IH]. Qed.

Lemma substring_append (a p : string) :
  substring (String.length a) (String.length p) (a ++ p) = p.
Proof.
  induction a as [| c a IH]; simpl; [apply substring_whole | exact IH].
Qed.

Lemma endsWith_append (a p : string) : endsWith (a ++ p) p = true.
Proof.
  unfold endsWith. rewrite length_append.
  replace (String.length a + String.length p - String.length p)%nat
    with (String.length a) by lia.
  rewrite substring_append, String.eqb_refl.
  replace (String.length p <=? String.length a + String.length p)%nat
    with true by (symmetry; apply Nat.leb_le; lia).
  reflexivity.
Qed.

Lemma append_assoc (a b c : string) : ((a ++ b) ++ c = a ++ (b ++ c))%string.
Proof. induction a as [| x a IH]; simpl; [reflexivity | now rewrite IH]. Qed.

(** Every key of the form [annotations[<index>].text] is fragile. *)
Lemma fragileKey_pattern (index : string) :
  fragileKey ("annotations[" ++ index ++ "].text") = true.
Proof.
  unfold fragileKey. apply andb_true_intro. split.
  - reflexivity.
  - rewrite <- append_assoc. apply endsWith_append.
Qed.

(** C7: after the normalisation pass, in every button of every menu
    whose method is "update" in any letter case and whose [args] is a
    sequence, neither the trace-data patch [args[0]] nor the layout patch
    [args[1]] has a key of the form [annotations[<index>].text], whatever
    the index. *)
Theorem C7_fragile_keys_stripped (fts : Q -> string) (fig fig' : value)
    (menus buttons : list value) (menu btn : value) (index : string) :
  normalizeUpdateMenus fts fig = Some fig' ->
  iterate (menusOf fig') = Some menus -> In menu menus ->
  iterate (buttonsOf menu) = Some buttons -> In btn buttons ->
  isUpdate fts btn = true -> isArray (get btn "args") = true ->
  hasProp ("annotations[" ++ index ++ "].text") (at_ (get btn "args") 0) = false
  /\ hasProp ("annotations[" ++ index ++ "].text") (at_ (get btn "args") 1)
     = false.
Proof.
  intros H Hm Hin Hb Hbin Hu Ha.
  pose proof (normalizeUpdateMenus_all fts (clean fts) fig fig'
                (clean_normalizeButton fts)) as Hall.
  assert (Hstr : forall s, clean fts (VStr s)).
  { intros s _ Harr. discriminate Harr. }
  specialize (Hall Hstr H menus Hm).
  rewrite Forall_forall in Hall. specialize (Hall menu Hin buttons Hb).
  rewrite Forall_forall in Hall.
  exact (Hall btn Hbin Hu Ha _ (fragileKey_pattern index)).
Qed.

Lemma C7_fragile_keys_stripped_witness :
  hasProp "annotations[0].text" (at_ (get C7_button "args") 0) = false
  /\ hasProp "annotations[0].text" (at_ (get C7_button "args") 1) = false.
Proof.
  refine (C7_fragile_keys_stripped noFractions C7_document C7_normalized
            [C7_menu] [C7_button] C7_menu C7_button "0"
            eq_refl eq_refl _ eq_refl _ eq_refl eq_refl); simpl; auto.
Defined.

(** *** Idempotence of the normalisation pass (C4) *)

(** C4, refuted as stated: the scalar 5 becomes [[5]] and then [[ [5] ]],
    and so does the y of an update button of a document with one trace:
    the second run of the pass changes the document. *)
Lemma C4_counterexample :
  normalizePerTraceValue (num 5) (num 1) = VArr [num 5]
  /\ normalizePerTraceValue (normalizePerTraceValue (num 5) (num 1)) (num 1)
     = VArr [VArr [num 5]]
  /\ normalizeUpdateMenus noFractions C4_document
     = Some (C4_after (VArr [num 5]))
  /\ normalizeUpdateMenus noFractions (C4_after (VArr [num 5]))
     = Some (C4_after (VArr [VArr [num 5]])).
Proof. repeat split. Qed.

(** C4, amended: for every trace count [n >= 1], normalizePerTraceValue
    is idempotent on every value that is null, absent or a sequence; a
    scalar [v] becomes [[v]] and, applied to again, [[ [v] ]]; in all
    cases a third application changes nothing.  Consequently a second run
    of normalizeUpdateMenus leaves unchanged every normalized document in
    whose update buttons no x, y, text or customdata of the trace-data
    patch held a scalar, and a third run leaves every document
    unchanged. *)
Theorem C4_idempotence (fts : Q -> string) (n : Z) (Hn : 1 <= n) :
  (forall v,
      shaped v = true ->
      normalizePerTraceValue (normalizePerTraceValue v (num n)) (num n)
      = normalizePerTraceValue v (num n))
  /\ (forall v,
         shaped v = false ->
         normalizePerTraceValue v (num n) = VArr [v]
         /\ normalizePerTraceValue (normalizePerTraceValue v (num n)) (num n)
            = VArr [VArr [v]])
  /\ (forall v,
         normalizePerTraceValue
           (normalizePerTraceValue (normalizePerTraceValue v (num n)) (num n))
           (num n)
         = normalizePerTraceValue (normalizePerTraceValue v (num n)) (num n))
  /\ (forall fig fig1,
         menusAll (buttonsAll (settled fts)) fig ->
         normalizeUpdateMenus fts fig = Some fig1 ->
         normalizeUpdateMenus fts fig1 = Some fig1)
  /\ (forall fig fig1 fig2,
         normalizeUpdateMenus fts fig = Some fig1 ->
         normalizeUpdateMenus fts fig1 = Some fig2 ->
         normalizeUpdateMenus fts fig2 = Some fig2).
Proof.
  split; [| split; [| split; [| split]]].
  - intros v Hv. now apply normalizePerTraceValue_idempotent.
  - intros v Hv. now apply normalizePerTraceValue_scalar_twice.
  - intro v. apply normalizePerTraceValue_idempotent.
    apply normalizePerTraceValue_shaped.
  - intros fig fig1. apply normalizeUpdateMenus_twice.
  - intros fig fig1 fig2 H1 H2.
    apply (normalizeUpdateMenus_twice fts fig1 fig2); [| exact H2].
    apply (normalizeUpdateMenus_all fts (settled fts) fig fig1); auto.
    + intros tc b. apply settled_normalizeButton.
    + intros s _ Harr. discriminate Harr.
Qed.

Lemma C4_idempotence_witness :
  normalizePerTraceValue
    (normalizePerTraceValue (VArr [num 10; num 20]) (num 1)) (num 1)
  = normalizePerTraceValue (VArr [num 10; num 20]) (num 1).
Proof.
  destruct (C4_idempotence noFractions 1 ltac:(lia)) as (H & _).
  exact (H (VArr [num 10; num 20]) eq_refl).
Defined.



(* ================================================================== *)
(** ** Further properties of the script *)
(* ================================================================== *)

(** X1: normalizePerTraceValue wraps at most once: whatever the value and
    the trace count, the result is the value itself or the one-element
    sequence holding it; nothing of the value is lost. *)
Theorem X1_wraps_at_most_once (v tc : value) :
  normalizePerTraceValue v tc = v \/ normalizePerTraceValue v tc = VArr [v].
Proof.
  destruct v; try (now left); try (now right).
  rewrite normalizePerTraceValue_arr.
  destruct (numIs tc 1).
  - destruct items as [| first rest]; [now right |].
    destruct (isArray first); auto.
  - destruct (_ && _)%bool; [now left |].
    destruct items as [| first rest]; [now right |].
    destruct (isArray first); auto.
Qed.

(** X2: with one trace, a sequence is normalised to a sequence that is
    not empty and whose first element is a sequence, the shape in which an
    update reads it as the array of the only trace. *)
Theorem X2_one_trace_shape (v : value) :
  isArray v = true ->
  exists first rest,
    normalizePerTraceValue v (num 1) = VArr (first :: rest)
    /\ isArray first = true.
Proof.
  destruct v; try discriminate. intros _.
  rewrite normalizePerTraceValue_arr.
  change (numIs (num 1) 1) with true. cbv iota.
  destruct items as [| first rest].
  - exists (VArr []), []. now split.
  - destruct (isArray first) eqn:E.
    + exists first, rest. now split.
    + exists (VArr (first :: rest)), []. now split.
Qed.

Lemma X2_one_trace_shape_witness :
  exists first rest,
    normalizePerTraceValue (VArr [num 10; num 20]) (num 1)
    = VArr (first :: rest)
    /\ isArray first = true.
Proof. exact (X2_one_trace_shape (VArr [num 10; num 20]) eq_refl). Defined.

Lemma get_normalizeKeys_other (tc d : value) (k : string) :
  ~ In k TRACE_KEYS -> get (normalizeKeys tc d) k = get d k.
Proof.
  intro H. unfold normalizeKeys. simpl.
  rewrite !get_normalizeKey_other; [reflexivity | ..];
    intros <-; apply H; simpl; auto.
Qed.

(** X3: the pass changes a data patch only under x, y, text and
    customdata, whose values it normalises, and under the fragile keys,
    which it removes: every other key keeps its value, in the data patch
    and in the layout patch. *)
Theorem X3_patch_frame (tc patch : value) (k : string) :
  (~ In k TRACE_KEYS -> fragileKey k = false ->
   get (normalizeDataArgs tc patch) k = get patch k)
  /\ (In k TRACE_KEYS -> isObj patch = true ->
      get (normalizeDataArgs tc patch) k
      = normalizePerTraceValue (get patch k) tc)
  /\ (fragileKey k = false -> get (normalizeLayoutArgs patch) k = get patch k).
Proof.
  split; [| split].
  - intros Hk Hf. destruct (isObj patch) eqn:E.
    + destruct patch; try discriminate. rewrite normalizeDataArgs_obj.
      rewrite get_strip by assumption. now apply get_normalizeKeys_other.
    + now rewrite normalizeDataArgs_other.
  - intros Hk Ho. rewrite get_normalizeDataArgs by assumption. now rewrite Ho.
  - intro Hf. rewrite normalizeLayoutArgs_strip. now apply get_strip.
Qed.

Lemma forEach_none {A B : Type} (f : A -> option B) (l : list A) :
  forEach f l = None <-> exists x, In x l /\ f x = None.
Proof.
  induction l as [| x rest IH]; simpl.
  - split; [discriminate | intros (x & [] & _)].
  - destruct (f x) as [y |] eqn:E.
    + destruct (forEach f rest) as [ys |].
      * split; [discriminate |].
        intros (z & [<- | Hin] & Hz); [congruence |].
        assert (H : Some ys = None) by (apply IH; eauto).
        discriminate H.
      * split; [| reflexivity]. intros _.
        destruct (proj1 IH eq_refl) as (z & Hin & Hz). eauto.
    + split; [| reflexivity]. intros _. eauto.
Qed.

Lemma normalizeMenu_none (fts : Q -> string) (tc m : value) :
  normalizeMenu fts tc m = None
  <-> iterate (buttonsOf m) = None
      \/ exists btns btn,
           iterate (buttonsOf m) = Some btns /\ In btn btns
           /\ throwsOn fts btn = true.
Proof.
  unfold normalizeMenu. destruct (iterate (buttonsOf m)) as [btns |].
  - destruct (existsb (throwsOn fts) btns) eqn:E.
    + split; [| reflexivity]. intros _. right.
      apply existsb_exists in E. destruct E as (btn & Hin & Hthrows).
      exists btns, btn. auto.
    + split; [discriminate |].
      intros [H | (btns' & btn & H & Hin & Hthrows)]; [discriminate |].
      injection H as <-.
      assert (Hex : existsb (throwsOn fts) btns = true)
        by (apply existsb_exists; eauto).
      congruence.
  - split; [now left | reflexivity].
Qed.

(** X4: on a document that is an object, the pass fails (a TypeError
    leaves [render]) exactly when [layout.updatemenus] is truthy and not
    iterable, or the [buttons] of one of the menus is truthy and not
    iterable, or one of the buttons has a non-empty array of arguments and
    a method that cannot be converted to a string (an object with a
    [toString] property of its own, or an array that holds one); on every
    other such document it completes. *)
Theorem X4_pass_fails_iff (fts : Q -> string) (fig : value) :
  isObj fig = true ->
  (normalizeUpdateMenus fts fig = None
   <-> iterate (menusOf fig) = None
       \/ exists menus menu,
            iterate (menusOf fig) = Some menus /\ In menu menus
            /\ (iterate (buttonsOf menu) = None
                \/ exists btns btn,
                     iterate (buttonsOf menu) = Some btns /\ In btn btns
                     /\ throwsOn fts btn = true))
  /\ (forall btn,
        throwsOn fts btn = true
        <-> Js.truthy btn = true
            /\ (exists a rest, get btn "args" = VArr (a :: rest))
            /\ toString fts (or_else (get btn "method") (VStr "")) = None).
Proof.
  intros _. split.
  - unfold normalizeUpdateMenus.
    destruct (iterate (menusOf fig)) as [menus |] eqn:I.
    + destruct (forEach _ menus) as [menus' |] eqn:F.
      * split; [discriminate |].
        intros [H | (ms & m & Hms & Hin & Hb)]; [discriminate |].
        injection Hms as <-.
        assert (Hn : forEach (normalizeMenu fts (traceCountOf fig)) menus
                     = None).
        { apply forEach_none. exists m. split; [assumption |].
          now apply normalizeMenu_none. }
        congruence.
      * split; [| reflexivity]. intros _. right.
        apply forEach_none in F. destruct F as (m & Hin & Hm).
        exists menus, m. repeat split; try assumption.
        now apply normalizeMenu_none in Hm.
    + split; [now left | reflexivity].
  - intro btn. unfold throwsOn, methodOf. split.
    + intro H. apply andb_prop in H. destruct H as (H & Hm).
      apply andb_prop in H. destruct H as (H & Hlen).
      apply andb_prop in H. destruct H as (Ht & Harr).
      split; [exact Ht |]. split.
      * destruct (get btn "args") as [| | | | | items |] eqn:G;
          try discriminate Harr.
        rewrite length_is_zero in Hlen.
        destruct items as [| a rest]; [discriminate Hlen | eauto].
      * now destruct (toString fts _).
    + intros (Ht & (a & rest & Hargs) & Hm).
      rewrite Ht, Hargs, Hm, length_is_zero. reflexivity.
Qed.

Lemma X4_pass_fails_iff_witness :
  normalizeUpdateMenus noFractions
    (VObj [("layout",
            VObj [("updatemenus",
                   VArr [VObj [("buttons",
                                VArr [VObj [("method",
                                             VObj [("toString", VNull)]);
                                            ("args", VArr [VObj []])]])]])])])
  = None.
Proof.
  apply (proj1 (X4_pass_fails_iff noFractions
                  (VObj [("layout",
                          VObj [("updatemenus",
                                 VArr [VObj [("buttons",
                                              VArr [VObj [("method",
                                                           VObj [("toString",
                                                                  VNull)]);
                                                          ("args",
                                                           VArr [VObj []])]])]])])])
                  eq_refl)).
  right. eexists _, _. split; [reflexivity |]. split; [now left |].
  right. eexists _, _. split; [reflexivity |]. split; [now left |].
  reflexivity.
Defined.

Lemma normalizeMenu_untouched (fts : Q -> string) (tc m m' : value) :
  buttonsAll (fun b => isUpdate fts b = false) m ->
  normalizeMenu fts tc m = Some m' -> m' = m.
Proof.
  intros Hall H.
  destruct (normalizeMenu_cases fts tc m m' H)
    as [(props & btns & -> & Ha & ->) | (-> & _)]; [| reflexivity].
  assert (Hb : iterate (buttonsOf (VObj props)) = Some btns).
  { unfold buttonsOf, or_else. cbn [Js.truthy]. cbv iota. simpl get.
    rewrite Ha. reflexivity. }
  specialize (Hall btns Hb). rewrite Forall_forall in Hall.
  assert (Hmap : map (normalizeButton fts tc) btns = btns).
  { rewrite <- (map_id btns) at 2. apply map_ext_in. intros b Hin.
    apply normalizeButton_skip. right. right. now apply Hall. }
  rewrite Hmap. f_equal. now apply assign_same_value.
Qed.

(** X5: only "update" buttons are normalised: a document (an object)
    none of whose buttons has the method "update" (in any letter case)
    comes out of the pass exactly as it went in. *)
Theorem X5_other_methods_untouched (fts : Q -> string) (fig fig' : value) :
  isObj fig = true ->
  menusAll (buttonsAll (fun b => isUpdate fts b = false)) fig ->
  normalizeUpdateMenus fts fig = Some fig' ->
  fig' = fig.
Proof.
  intros _ Hall H.
  destruct (normalizeUpdateMenus_cases fts fig fig' H)
    as [(props & lprops & ms & ms' & -> & Hl & Hu & Hf & ->) | (-> & _)];
    [| reflexivity].
  assert (Hms : Forall (buttonsAll (fun b => isUpdate fts b = false)) ms).
  { apply Hall. now rewrite (menusOf_obj props lprops ms Hl Hu). }
  assert (Hfix : forEach (normalizeMenu fts (traceCountOf (VObj props))) ms
                 = Some ms).
  { apply forEach_fixed. rewrite Forall_forall in *. intros m Hin.
    destruct (normalizeMenu fts (traceCountOf (VObj props)) m) as [m' |] eqn:E.
    - f_equal. eapply normalizeMenu_untouched; eauto.
    - exfalso. assert (Hn : forEach (normalizeMenu fts
                                       (traceCountOf (VObj props))) ms = None)
        by (apply forEach_none; eauto).
      congruence. }
  rewrite Hfix in Hf. injection Hf as <-.
  f_equal. rewrite (assign_same_value "updatemenus" (VArr ms) lprops Hu).
  now apply assign_same_value.
Qed.

Lemma X5_other_methods_untouched_witness :
  normalizeUpdateMenus noFractions
    (VObj [("layout",
            VObj [("updatemenus",
                   VArr [VObj [("buttons",
                                VArr [VObj [("method", VStr "restyle");
                                            ("args",
                                             VArr [VObj [("y", num 5)]])]])]])])])
  = Some
      (VObj [("layout",
              VObj [("updatemenus",
                     VArr [VObj [("buttons",
                                  VArr [VObj [("method", VStr "restyle");
                                              ("args",
                                               VArr [VObj [("y", num 5)]])]])]])])]).
Proof.
  destruct (normalizeUpdateMenus noFractions _) as [fig' |] eqn:E;
    [| discriminate E].
  f_equal.
  apply (X5_other_methods_untouched noFractions _ fig');
    [reflexivity | | exact E].
  intros menus Hm. injection Hm as <-.
  repeat constructor.
  intros btns Hb. injection Hb as <-. repeat constructor.
Defined.

Lemma normalizeUpdateMenus_frame (fts : Q -> string) (fig fig1 : value) :
  normalizeUpdateMenus fts fig = Some fig1 ->
  (forall k, k <> "layout" -> get fig1 k = get fig k)
  /\ (forall k, k <> "updatemenus" ->
                get (get fig1 "layout") k = get (get fig "layout") k).
Proof.
  intro H.
  destruct (normalizeUpdateMenus_cases fts fig fig1 H)
    as [(props & lprops & ms & ms' & -> & Hl & Hu & _ & ->) | (-> & _)];
    [| split; reflexivity].
  split; intros k Hk.
  - change (VObj (assign "layout" ?v props)) with (set (VObj props) "layout" v).
    apply get_set_other. congruence.
  - rewrite get_rebuilt. simpl get at 3. rewrite Hl.
    change (VObj (assign "updatemenus" ?v lprops))
      with (set (VObj lprops) "updatemenus" v).
    apply get_set_other. congruence.
Qed.

(** X6: a render changes nothing of the document but the update menus
    and the layout's [autosize], [width] and [height]: the traces and
    every other top-level key are kept, so is every other layout key, and
    the linked-interaction contract read after the render is the one the
    document came with. *)
Theorem X6_render_frame (fts : Q -> string) (lit : Z -> Z) (e : bool) (d w : Z)
    (fig fig' : value) :
  wellFormed fig ->
  render fts lit e d w fig = Some fig' ->
  (forall k, k <> "layout" -> get fig' k = get fig k)
  /\ (forall k, ~ In k renderKeys ->
                get (get fig' "layout") k = get (get fig "layout") k)
  /\ linkedMeta fig' = linkedMeta fig.
Proof.
  intros Hwf H. unfold render in H.
  destruct (normalizeUpdateMenus fts fig) as [fig1 |] eqn:E; [| discriminate].
  destruct (normalizeUpdateMenus_frame fts fig fig1 E) as (Htop & Hlay).
  pose proof (normalizeUpdateMenus_wellFormed fts fig fig1 Hwf E) as Hwf1.
  destruct (wellFormed_layout _ Hwf1) as (lp1 & Hor & Hget).
  destruct Hwf1 as (props1 & lp1' & -> & Hassoc).
  rewrite Hor in H.
  assert (Hfig : fig'
                 = set (VObj props1) "layout"
                     (set (set (set (VObj lp1) "autosize" (VBool true))
                               "width" VNull)
                          "height" (num (mobileHeight lit e d w))))
    by (injection H; intro; symmetry; assumption).
  clear H. subst fig'.
  assert (Hkeys : forall k, ~ In k renderKeys ->
            get (get (set (VObj props1) "layout"
                        (set (set (set (VObj lp1) "autosize" (VBool true))
                                  "width" VNull)
                             "height" (num (mobileHeight lit e d w))))
                     "layout") k
            = get (get fig "layout") k).
  { intros k Hk. rewrite get_set_same.
    unfold renderKeys in Hk. simpl in Hk.
    rewrite !get_set_other by (intro; subst; tauto).
    rewrite <- Hget. apply Hlay. intro; subst; tauto. }
  split; [| split].
  - intros k Hk. rewrite get_set_other by congruence. now apply Htop.
  - exact Hkeys.
  - destruct (wellFormed_layout _ Hwf) as (lp & Hor0 & Hget0).
    unfold linkedMeta. rewrite Hor0, <- Hget0, <- (Hkeys "meta").
    + rewrite get_set_same. reflexivity.
    + unfold renderKeys. simpl. intuition discriminate.
Qed.

Lemma X6_render_frame_witness :
  exists fig',
    render noFractions noBigLiteral false 520 800
      (VObj [("data", VArr [VObj [("y", VArr [num 1])]]);
             ("layout", VObj [("title", VStr "Runs"); ("width", num 900)])])
    = Some fig'
    /\ get fig' "data" = VArr [VObj [("y", VArr [num 1])]]
    /\ get (get fig' "layout") "title" = VStr "Runs".
Proof.
  eexists. split; [reflexivity |].
  assert (Hwf : wellFormed
                  (VObj [("data", VArr [VObj [("y", VArr [num 1])]]);
                         ("layout", VObj [("title", VStr "Runs");
                                          ("width", num 900)])])).
  { eexists _, _. split; reflexivity. }
  destruct (X6_render_frame noFractions noBigLiteral false 520 800 _ _ Hwf
              eq_refl)
    as (Htop & Hlay & _).
  split.
  - rewrite Htop; [reflexivity | discriminate].
  - rewrite Hlay; [reflexivity |].
    unfold renderKeys. simpl. intuition discriminate.
Defined.

Lemma rewriteArgs_frame (tc : value) (items : list value) :
  List.length (rewriteArgs tc items) = List.length items
  /\ skipn 2 (rewriteArgs tc items) = skipn 2 items.
Proof.
  destruct items as [| a [| b rest]].
  - split; reflexivity.
  - rewrite rewriteArgs_one. split; reflexivity.
  - rewrite rewriteArgs_more. split; reflexivity.
Qed.

(** X7: normalising a button touches nothing but the first two entries
    of its [args]: every other property of the button is kept, [args]
    keeps its length, and the entries from the third on are the same. *)
Theorem X7_button_frame (fts : Q -> string) (tc b : value) :
  (forall k, k <> "args" -> get (normalizeButton fts tc b) k = get b k)
  /\ (forall items,
        get b "args" = VArr items ->
        exists items',
          get (normalizeButton fts tc b) "args" = VArr items'
          /\ List.length items' = List.length items
          /\ skipn 2 items' = skipn 2 items).
Proof.
  destruct (normalizeButton_cases fts tc b)
    as [-> | (props & items0 & -> & Ha & _ & _ & ->)].
  - split; [reflexivity |]. intros items ->. exists items. auto.
  - split.
    + intros k Hk.
      change (VObj (assign "args" ?v props)) with (set (VObj props) "args" v).
      apply get_set_other. congruence.
    + intros items Hi. simpl in Hi. rewrite Ha in Hi. injection Hi as <-.
      exists (rewriteArgs tc items0). rewrite get_rebuilt.
      destruct (rewriteArgs_frame tc items0). auto.
Qed.

(** X8: with [target_title_annotation_index] configured as the integer
    [idx], the title of an applied payload goes to [annotations[idx].text]
    ([idx] in decimal) when the chart has more than [idx] annotations and
    [idx] is not negative, and to the chart title otherwise; when the
    title cannot be converted to a string, no call is made for it. *)
Theorem X8_configured_title (fts : Q -> string)
    (cmp : string -> Z -> bool) (meta : value) (gd : graphDiv)
    (payload : value) (idx : Z) (anns : list value) :
  get meta "target_title_annotation_index" = num idx ->
  Js.truthy (get payload "title") = true ->
  get (gd_layout gd) "annotations" = VArr anns ->
  titleCalls fts cmp meta gd payload
  = match toString fts (get payload "title") with
    | None => []
    | Some text =>
        [Relayout
           [(if ((0 <=? idx) && (idx <? Z.of_nat (List.length anns)))%bool
             then "annotations[" ++ numberToString fts (inject_Z idx)
                  ++ "].text"
             else "title",
             VStr text)]]
    end
  /\ (Z.abs idx < 10 ^ 21 -> numberToString fts (inject_Z idx) = decimal idx).
Proof.
  intros Hidx Htitle Hanns. split; [| apply numberToString_integer].
  unfold titleCalls, titleIndex, addressed.
  rewrite Htitle, Hidx.
  assert (Hl : Js.truthy (gd_layout gd) = true).
  { destruct (gd_layout gd); try discriminate; reflexivity. }
  rewrite Hl, Hanns. unfold or_else.
  change (Js.truthy (VArr anns)) with true. cbv iota.
  rewrite length_arr, isInteger_num, integerOr_num, exceeds_num, truthy_num.
  destruct (toString fts (get payload "title")) as [text |].
  - destruct (0 <=? idx) eqn:E0;
      destruct (idx <? Z.of_nat (List.length anns)) eqn:E1;
      destruct (Z.of_nat (List.length anns) =? 0) eqn:E2; try reflexivity.
    exfalso. apply Z.leb_le in E0. apply Z.ltb_lt in E1. apply Z.eqb_eq in E2.
    lia.
  - now destruct (_ && _)%bool.
Qed.

Lemma X8_configured_title_witness :
  titleCalls noFractions noStringNumbers (VObj [("target_title_annotation_index", num 2)])
    {| gd_layout := VObj [("annotations", VArr [VObj []; VObj []])];
       gd_fullData := VArr [] |}
    (VObj [("title", VStr "CSK 2021")])
  = [Relayout [("title", VStr "CSK 2021")]].
Proof.
  exact (proj1 (X8_configured_title noFractions noStringNumbers
           (VObj [("target_title_annotation_index", num 2)])
           {| gd_layout := VObj [("annotations", VArr [VObj []; VObj []])];
              gd_fullData := VArr [] |}
           (VObj [("title", VStr "CSK 2021")]) 2 [VObj []; VObj []]
           eq_refl eq_refl eq_refl)).
Defined.

(** X9: the breakpoints of the computed height.  Without an explicit
    height, a viewport up to 467 pixels wide (other than 0) gets the floor
    of 280, one of 933 pixels or more gets the cap of 560, the widths in
    between get six tenths of the width rounded half up, strictly between
    the two; a viewport width of 0 is read as 1024 and gets 560. *)
Theorem X9_height_breakpoints (lit : Z -> Z) (d w : Z) :
  (w = 0 -> mobileHeight lit false d w = 560)
  /\ (w <> 0 -> w <= 467 -> mobileHeight lit false d w = 280)
  /\ (933 <= w -> mobileHeight lit false d w = 560)
  /\ (468 <= w <= 932 ->
      mobileHeight lit false d w = (6 * w + 5) / 10
      /\ 280 < mobileHeight lit false d w < 560).
Proof.
  rewrite mobileHeight_auto, spec_height_eq. unfold clamp.
  destruct (w =? 0) eqn:E;
    [apply Z.eqb_eq in E | apply Z.eqb_neq in E];
    repeat split; intros; try lia;
    Z.div_mod_to_equations; lia.
Qed.

Lemma get_empty (k : string) : get (VObj []) k = VUndefined.
Proof. reflexivity. Qed.

(** X10: a contract without a usable [lookup] (absent, null-ish, a
    scalar) installs a handler that ignores every click. *)
Theorem X10_no_lookup_no_calls (fts : Q -> string)
    (cmp : string -> Z -> bool) (meta : value)
    (gd : graphDiv) (ev : option point) :
  (Js.truthy (get meta "lookup") && typeofObject (get meta "lookup"))%bool
  = false ->
  onClick fts cmp meta gd ev = [].
Proof.
  intro H. unfold onClick, resolve, lookup. rewrite H.
  destruct (defaultSeason fts meta) as [season0 |]; [| reflexivity].
  destruct ev as [pt |]; [| reflexivity].
  destruct (negb _); [reflexivity |].
  destruct (toString fts (point_x pt)) as [label |]; [| reflexivity].
  rewrite !get_empty. reflexivity.
Qed.

Lemma X10_no_lookup_no_calls_witness :
  onClick noFractions noStringNumbers (VObj [("source_trace", num 0)])
    {| gd_layout := VObj []; gd_fullData := VArr [] |}
    (Some {| curveNumber := 0; point_x := VStr "MI" |})
  = [].
Proof.
  exact (X10_no_lookup_no_calls noFractions noStringNumbers
           (VObj [("source_trace", num 0)])
           {| gd_layout := VObj []; gd_fullData := VArr [] |}
           (Some {| curveNumber := 0; point_x := VStr "MI" |}) eq_refl).
Defined.

Lemma axisCalls_cases (fts : Q -> string)
    (cmp : string -> Z -> bool) (meta : value) (gd : graphDiv)
    (payload : value) :
  axisCalls fts cmp meta gd payload = []
  \/ exists patch, axisCalls fts cmp meta gd payload = [Relayout patch].
Proof.
  unfold axisCalls. destruct (toString fts _); [| eauto].
  destruct (_ && _)%bool; eauto.
Qed.

Lemma titleCalls_cases (fts : Q -> string)
    (cmp : string -> Z -> bool) (meta : value) (gd : graphDiv)
    (payload : value) :
  titleCalls fts cmp meta gd payload = []
  \/ exists patch, titleCalls fts cmp meta gd payload = [Relayout patch].
Proof.
  unfold titleCalls. destruct (Js.truthy (get payload "title")); [| eauto].
  destruct (titleIndex fts cmp meta _) as [idx |]; [| eauto].
  destruct (addressed fts cmp _ idx) as [[|] |]; [| | eauto];
    (destruct (toString fts _); eauto).
Qed.

(** X11: whatever the event, the handler makes at most three calls on
    the charting library; when it makes any, exactly one of them is a
    restyle, and a restyle never addresses another trace than the target
    trace nor carries an empty patch. *)
Theorem X11_click_bound (fts : Q -> string)
    (cmp : string -> Z -> bool) (meta : value) (gd : graphDiv)
    (ev : option point) :
  (List.length (onClick fts cmp meta gd ev) <= 3)%nat
  /\ (onClick fts cmp meta gd ev = []
      \/ List.length (filter isRestyle (onClick fts cmp meta gd ev)) = 1%nat)
  /\ (forall u ts,
        In (Restyle u ts) (onClick fts cmp meta gd ev) ->
        ts = [targetTrace meta] /\ u <> []).
Proof.
  unfold onClick.
  destruct (defaultSeason fts meta) as [season0 |];
    [| simpl; intuition (try lia)].
  destruct ev as [pt |]; [| simpl; intuition (try lia)].
  destruct (negb _); [simpl; intuition (try lia) |].
  destruct (toString fts (point_x pt)) as [label |];
    [| simpl; intuition (try lia)].
  set (payload := resolve meta _ _).
  destruct (_ || _)%bool; [simpl; intuition (try lia) |].
  destruct (updateOf payload) as [| kv rest] eqn:U;
    [simpl; intuition (try lia) |].
  cbn [List.length Nat.eqb].
  destruct (axisCalls_cases fts cmp meta gd payload) as [-> | (p1 & ->)];
    destruct (titleCalls_cases fts cmp meta gd payload) as [-> | (p2 & ->)];
    simpl; (split; [lia |]); (split; [now right |]);
    intros u ts Hin;
    repeat (destruct Hin as [Hin | Hin]; try discriminate Hin;
            try contradiction);
    injection Hin as <- <-; (split; [reflexivity | discriminate]).
Qed.

(** *** Further properties of the Python pipeline *)

Lemma prepare_auto_shape (typeName : value -> string) (fig h : value)
    (art : artifact) :
  user_height_of typeName fig = Returned h ->
  isNumber h = false ->
  prepare typeName fig = Returned art ->
  exists props lp,
    fig = VObj props
    /\ (assoc "layout" props = None /\ lp = []
        \/ assoc "layout" props = Some (VObj lp))
    /\ h = match assoc "height" lp with Some v => v | None => VNull end
    /\ art = {| fig_payload :=
                  VObj (assign "layout"
                          (VObj (filter
                                   (fun kv => negb (String.eqb (fst kv) "width"))
                                   (assign "autosize" (VBool true) lp)))
                          props);
                explicitHeight := false;
                defaultHeight := 420 |}.
Proof.
  intros Hh Hn Hp. unfold prepare in Hp. rewrite Hh in Hp.
  cbn [obind] in Hp. rewrite Hn in Hp. cbn [negb] in Hp.
  destruct fig as [| | | | | | props]; try discriminate Hh.
  exists props.
  unfold user_height_of, dict_get in Hh. cbn [obind] in Hh.
  unfold dict_setdefault, hasKey in Hp.
  destruct (assoc "layout" props) as [l |] eqn:El.
  - unfold get in Hp. rewrite El in Hp.
    destruct l as [| | | | | | lp]; try discriminate Hp.
    exists lp. split; [reflexivity |]. split; [now right |].
    cbn [dict_setitem obind dict_pop set] in Hp.
    split; [| now injection Hp as <-].
    destruct lp as [| kv lp']; cbn in Hh; now injection Hh as <-.
  - exists []. split; [reflexivity |]. split; [now left |].
    unfold get in Hp. rewrite assoc_assign_same in Hp.
    cbn [dict_setitem obind dict_pop set] in Hp.
    rewrite assign_assign in Hp.
    split; [| now injection Hp as <-].
    cbn in Hh. now injection Hh as <-.
Qed.

Lemma assoc_some_length (k : string) (v : value)
    (props : list (string * value)) :
  assoc k props = Some v -> (List.length props =? 0)%nat = false.
Proof. destruct props; [discriminate | reflexivity]. Qed.

(** X12: the server-side pass settles: preparing the document it
    produced gives the same document and the same two constants again. *)
Theorem X12_prepare_settles (typeName : value -> string) (fig : value)
    (art : artifact) :
  prepare typeName fig = Returned art ->
  prepare typeName (fig_payload art) = Returned art.
Proof.
  intro Hp.
  destruct (user_height_of typeName fig) as [h | e |] eqn:Hh;
    try (unfold prepare in Hp; rewrite Hh in Hp; discriminate Hp).
  destruct (isNumber h) eqn:Hn.
  - rewrite (prepare_explicit typeName fig h Hh Hn) in Hp.
    injection Hp as <-. cbn [fig_payload].
    apply (prepare_explicit typeName fig h Hh Hn).
  - destruct (prepare_auto_shape typeName fig h art Hh Hn Hp)
      as (props & lp & -> & _ & Hheight & ->).
    cbn [fig_payload].
    set (pruned := filter (fun kv => negb (String.eqb (fst kv) "width"))
                     (assign "autosize" (VBool true) lp)).
    assert (Hauto : assoc "autosize" pruned = Some (VBool true)).
    { unfold pruned. rewrite pop_other by discriminate.
      apply assoc_assign_same. }
    assert (Hh' : user_height_of typeName
                    (VObj (assign "layout" (VObj pruned) props))
                  = Returned h).
    { unfold user_height_of, dict_get. rewrite assoc_assign_same.
      cbn [obind truthy]. rewrite (assoc_some_length _ _ _ Hauto).
      cbn [negb]. f_equal. rewrite Hheight. unfold pruned.
      rewrite pop_other by discriminate.
      rewrite assoc_assign_other by discriminate. reflexivity. }
    unfold prepare. rewrite Hh'. cbn [obind]. rewrite Hn. cbn [negb].
    unfold dict_setdefault, hasKey. rewrite assoc_assign_same.
    rewrite get_rebuilt. cbn [dict_setitem obind dict_pop set].
    rewrite (assign_same_value "autosize" (VBool true) pruned Hauto).
    unfold pruned at 1. rewrite filter_twice. fold pruned.
    rewrite assign_assign. reflexivity.
Qed.

Lemma X12_prepare_settles_witness :
  prepare exampleTypeName
    (VObj [("data", VArr []);
           ("layout", VObj [("title", VStr "Runs"); ("autosize", VBool true)])])
  = Returned
      {| fig_payload :=
           VObj [("data", VArr []);
                 ("layout", VObj [("title", VStr "Runs");
                                  ("autosize", VBool true)])];
         explicitHeight := false;
         defaultHeight := 420 |}.
Proof.
  exact (X12_prepare_settles exampleTypeName
           (VObj [("data", VArr []);
                  ("layout", VObj [("width", num 900);
                                   ("title", VStr "Runs")])])
           _ eq_refl).
Defined.

(** X13: the server-side pass changes nothing of the figure but the
    layout's [autosize] and [width]: every other top-level key and every
    other layout key reads as before. *)
Theorem X13_prepare_frame (typeName : value -> string) (fig : value)
    (art : artifact) :
  prepare typeName fig = Returned art ->
  (forall k, k <> "layout" -> get (fig_payload art) k = get fig k)
  /\ (forall k, k <> "autosize" -> k <> "width" ->
                get (get (fig_payload art) "layout") k
                = get (get fig "layout") k).
Proof.
  intro Hp.
  destruct (user_height_of typeName fig) as [h | e |] eqn:Hh;
    try (unfold prepare in Hp; rewrite Hh in Hp; discriminate Hp).
  destruct (isNumber h) eqn:Hn.
  - rewrite (prepare_explicit typeName fig h Hh Hn) in Hp.
    injection Hp as <-. split; reflexivity.
  - destruct (prepare_auto_shape typeName fig h art Hh Hn Hp)
      as (props & lp & -> & Hl & _ & ->).
    cbn [fig_payload]. split.
    + intros k Hk. unfold get.
      rewrite assoc_assign_other by congruence. reflexivity.
    + intros k Ha Hw. rewrite get_rebuilt.
      assert (Hk : get (VObj (filter
                                (fun kv => negb (String.eqb (fst kv) "width"))
                                (assign "autosize" (VBool true) lp))) k
                   = get (VObj lp) k).
      { unfold get. rewrite pop_other by assumption.
        rewrite assoc_assign_other by congruence. reflexivity. }
      rewrite Hk.
      destruct Hl as [(Hnone & ->) | Hsome].
      * unfold get at 3. rewrite Hnone. reflexivity.
      * unfold get at 3. rewrite Hsome. reflexivity.
Qed.

Lemma X13_prepare_frame_witness :
  exists art,
    prepare exampleTypeName
      (VObj [("data", VArr [VObj [("y", VArr [num 1])]]);
             ("layout", VObj [("width", num 900); ("title", VStr "Runs")])])
    = Returned art
    /\ get (fig_payload art) "data" = VArr [VObj [("y", VArr [num 1])]]
    /\ get (get (fig_payload art) "layout") "title" = VStr "Runs".
Proof.
  eexists. split; [reflexivity |].
  destruct (X13_prepare_frame exampleTypeName
              (VObj [("data", VArr [VObj [("y", VArr [num 1])]]);
                     ("layout", VObj [("width", num 900);
                                      ("title", VStr "Runs")])])
              _ eq_refl) as (Htop & Hlay).
  split.
  - rewrite Htop; [reflexivity | discriminate].
  - rewrite Hlay; [reflexivity | discriminate | discriminate].
Defined.

(** X14: a handle is never made up.  Whenever the pipeline returns the
    mapping with an artifact id, the dependencies were there, the snippet
    returned with a figure whose serialisation returned, that document
    went through the server-side pass, the JSON encoder accepted the
    prepared document, and the id is the one [store_html] returned for
    the prepared artifact; the message is the fixed one. *)
Theorem X14_handle_is_stored (typeName : value -> string)
    (dependencies : bool) (DataFrame : value -> outcome value)
    (json_dumps : value -> outcome string)
    (store_html : artifact -> outcome string)
    (runner : option (string -> M value)) (query : option string)
    (snippet : scope -> outcome scope) (html_id msg : string) :
  snd (render_plotly_chart_py typeName dependencies DataFrame json_dumps
         store_html runner query snippet)
  = Returned (Handle html_id msg) ->
  msg = "Plotly chart rendered."
  /\ dependencies = true
  /\ exists sc sc' fig_json art text,
       snd (attach_data DataFrame runner query) = Returned sc
       /\ snippet sc = Returned sc'
       /\ scope_get "fig" sc' = Figure (Returned fig_json)
       /\ prepare typeName fig_json = Returned art
       /\ json_dumps (fig_payload art) = Returned text
       /\ store_html art = Returned html_id.
Proof.
  intro H. rewrite run_body in H.
  destruct dependencies; [| unfold body in H; cbn in H; discriminate H].
  destruct (attach_data DataFrame runner query) as [log [sc | e |]] eqn:Ha.
  - rewrite (body_attached typeName true DataFrame json_dumps store_html
               runner query snippet log sc eq_refl Ha) in H.
    destruct (snippet sc) as [sc' | e |] eqn:Hs;
      [| through_handlers H ..].
    destruct (scope_get "fig" sc') as [v | name | records | call] eqn:Hf;
      try (rewrite finish_no_figure in H by (now rewrite Hf);
           cbn in H; discriminate H).
    destruct call as [fig_json | e |].
    + rewrite (finish_serialized typeName json_dumps store_html sc' fig_json
                 Hf) in H.
      destruct (prepare typeName fig_json) as [art | e |] eqn:Hp;
        [| through_handlers H ..].
      cbn [obind] in H.
      destruct (json_dumps (fig_payload art)) as [text | e |] eqn:Hd;
        [| through_handlers H ..].
      cbn [obind] in H.
      destruct (store_html art) as [id | e |] eqn:Hst;
        [| through_handlers H ..].
      cbn in H. injection H as <- <-.
      split; [reflexivity |]. split; [reflexivity |].
      exists sc, sc', fig_json, art, text. auto 7.
    + unfold finish in H. rewrite Hf in H. through_handlers H.
    + unfold finish in H. rewrite Hf in H. through_handlers H.
  - unfold body in H. rewrite Ha in H. through_handlers H.
  - unfold body in H. rewrite Ha in H. through_handlers H.
Qed.

Lemma X14_handle_is_stored_witness :
  exists art,
    prepare exampleTypeName (VObj [("layout", VObj [("height", num 300)])])
    = Returned art
    /\ defaultHeight art = 300.
Proof.
  destruct (X14_handle_is_stored exampleTypeName true
              (fun rows => Returned rows)
              (fun _ => Returned "{}")
              (fun art => Returned (decimal (defaultHeight art)))
              None None
              (fun sc =>
                 Returned
                   (("fig",
                     Figure (Returned
                               (VObj [("layout",
                                       VObj [("height", num 300)])])))
                    :: sc))
              "300" "Plotly chart rendered." eq_refl)
    as (_ & _ & sc & sc' & fig_json & art & text & Ha & Hs & Hf & Hp & _ & Hst).
  injection Ha as <-. injection Hs as <-. injection Hf as <-.
  exists art. split; [exact Hp |].
  cbv in Hp. injection Hp as <-. reflexivity.
Defined.

Lemma statements_of_any_render (typeName : value -> string)
    (dependencies : bool) (DataFrame : value -> outcome value)
    (json_dumps : value -> outcome string)
    (store_html : artifact -> outcome string)
    (runner : option (string -> M value)) (query : option string)
    (snippet : scope -> outcome scope) :
  fst (render_plotly_chart_py typeName dependencies DataFrame json_dumps
      store_html
         runner query snippet)
  = match runner, query with
    | Some r, Some q => if dependencies then fst (r q) else []
    | _, _ => []
    end.
Proof.
  destruct runner as [r |]; [destruct query as [q |] |];
    try apply statements_of_render;
    unfold render_plotly_chart_py;
    (rewrite fst_try; [| reflexivity | reflexivity]);
    unfold body; destruct dependencies; try reflexivity;
    cbn [negb attach_data];
    (rewrite fst_bind_lift; [reflexivity |]);
    intro sc; (rewrite fst_try; [reflexivity | reflexivity |]);
    apply fst_finish.
Qed.

(** X15: the data runner is called at most once, with the query as it
    was given: the statements a render sends are those of that one call.
    No statement is sent when the runner or the query is [None], or when
    a dependency is missing. *)
Theorem X15_fetch_at_most_once (typeName : value -> string)
    (dependencies : bool) (DataFrame : value -> outcome value)
    (json_dumps : value -> outcome string)
    (store_html : artifact -> outcome string)
    (runner : option (string -> M value)) (query : option string)
    (snippet : scope -> outcome scope) :
  fst (render_plotly_chart_py typeName dependencies DataFrame json_dumps
      store_html
         runner query snippet)
  = match runner, query with
    | Some r, Some q => if dependencies then fst (r q) else []
    | _, _ => []
    end.
Proof. apply statements_of_any_render. Qed.

(** X16: the tool of the agno example sends no statement to any
    database, and the snippet runs in the namespace that holds the four
    libraries and no data: what the snippet does on any other namespace
    is of no consequence. *)
Theorem X16_agno_no_data (typeName : value -> string)
    (dependencies : bool) (DataFrame : value -> outcome value)
    (json_dumps : value -> outcome string)
    (store_html : artifact -> outcome string)
    (snippet : scope -> outcome scope) :
  fst (Agno.render_plotly_chart typeName dependencies DataFrame json_dumps
      store_html
         snippet) = []
  /\ (forall snippet',
        snippet' initial_scope = snippet initial_scope ->
        Agno.render_plotly_chart typeName dependencies DataFrame json_dumps
            store_html
          snippet'
        = Agno.render_plotly_chart typeName dependencies DataFrame json_dumps
            store_html
            snippet)
  /\ scope_get "df" initial_scope = Plain VNull
  /\ scope_get "data" initial_scope = Plain VNull.
Proof.
  split; [| split; [| split; reflexivity]].
  - unfold Agno.render_plotly_chart.
    now rewrite statements_of_any_render.
  - intros snippet' Heq. unfold Agno.render_plotly_chart.
    rewrite !run_body. unfold body.
    destruct dependencies; [| reflexivity].
    cbn [negb attach_data ret bind]. cbn [lift]. rewrite Heq. reflexivity.
Qed.

(** *** Further properties of the SQL tools *)

Lemma lstripWith_first (p : ascii -> bool) (s : string) :
  satisfies p (firstChar (lstripWith p s)) = false.
Proof.
  induction s as [| c s IH]; simpl; [reflexivity |].
  destruct (p c) eqn:E; [exact IH | simpl; exact E].
Qed.

Lemma rstripWith_first (p : ascii -> bool) (s : string) :
  rstripWith p s = EmptyString
  \/ firstChar (rstripWith p s) = firstChar s.
Proof.
  destruct s as [| c s]; simpl; [now left |].
  destruct (rstripWith p s); [destruct (p c) |]; auto.
Qed.

Lemma rstripWith_keeps_first (p q : ascii -> bool) (s : string) :
  satisfies p (firstChar s) = false ->
  satisfies p (firstChar (rstripWith q s)) = false.
Proof.
  intro H. destruct (rstripWith_first q s) as [-> | ->];
    [reflexivity | exact H].
Qed.

Lemma rstripWith_last (p : ascii -> bool) (s : string) :
  satisfies p (lastChar (rstripWith p s)) = false.
Proof.
  induction s as [| c s IH]; simpl; [reflexivity |].
  destruct (rstripWith p s) as [| d kept] eqn:E.
  - destruct (p c) eqn:Ec; simpl; [reflexivity | exact Ec].
  - exact IH.
Qed.

Lemma substring_last (s : string) (c : ascii) :
  s <> EmptyString ->
  substring (String.length s - 1) 1 s = String c EmptyString ->
  lastChar s = Some c.
Proof.
  induction s as [| a rest IH]; intros Hne H; [contradiction |].
  simpl String.length in H. rewrite Nat.sub_1_r in H. simpl Nat.pred in H.
  destruct rest as [| b rest'].
  - simpl in H. now injection H as ->.
  - change (lastChar (String a (String b rest')))
      with (lastChar (String b rest')).
    apply IH; [discriminate |].
    simpl String.length in *. rewrite Nat.sub_1_r. simpl Nat.pred.
    exact H.
Qed.

Lemma endsWith_last (s : string) (c : ascii) :
  endsWith s (String c EmptyString) = true -> lastChar s = Some c.
Proof.
  unfold endsWith. simpl String.length. intro H.
  apply andb_prop in H. destruct H as (Hlen & Heq).
  apply String.eqb_eq in Heq. apply Nat.leb_le in Hlen.
  apply substring_last; [| exact Heq].
  intros ->. simpl in Hlen. lia.
Qed.

Lemma length_lstripWith (p : ascii -> bool) (s : string) :
  (String.length (lstripWith p s) <= String.length s)%nat.
Proof.
  induction s as [| c s IH]; simpl; [lia |].
  destruct (p c); simpl; lia.
Qed.

Lemma length_rstripWith (p : ascii -> bool) (s : string) :
  (String.length (rstripWith p s) <= String.length s)%nat.
Proof.
  induction s as [| c s IH]; simpl; [lia |].
  destruct (rstripWith p s); [destruct (p c) |]; simpl in *; lia.
Qed.

Lemma length_stripWith (p : ascii -> bool) (s : string) :
  (String.length (stripWith p s) <= String.length s)%nat.
Proof.
  unfold stripWith.
  pose proof (length_rstripWith p (lstripWith p s)).
  pose proof (length_lstripWith p s). lia.
Qed.

Lemma length_drop (n : nat) (s : string) :
  (String.length (drop n s) <= String.length s)%nat.
Proof.
  revert s. induction n as [| n IH]; intros [| c s]; simpl; try lia.
  specialize (IH s). lia.
Qed.

Lemma length_dropLast (s : string) :
  (String.length (dropLast s) <= String.length s)%nat.
Proof.
  induction s as [| c s IH]; simpl; [lia |].
  destruct s; simpl in *; lia.
Qed.

Lemma length_replaceEscape (letter new : ascii) (s : string) :
  (String.length (replaceEscape letter new s) <= String.length s)%nat.
Proof.
  assert (H : forall n s, (String.length s <= n)%nat ->
              (String.length (replaceEscape letter new s)
               <= String.length s)%nat).
  { induction n as [| n IH]; intros [| c [| d t]] Hn; simpl in *; try lia.
    destruct (_ && _)%bool; simpl.
    - specialize (IH t). lia.
    - specialize (IH (String d t)). simpl in IH. lia. }
  apply (H (String.length s)). lia.
Qed.

Lemma normalized_shape (sql_query : option string) :
  satisfies isspace (firstChar (_normalize_sql_query sql_query)) = false
  /\ endswith (_normalize_sql_query sql_query) ";" = false
  /\ (String.length (_normalize_sql_query sql_query)
      <= String.length (match sql_query with Some s => s | None => "" end))%nat.
Proof.
  unfold _normalize_sql_query, rstrip_semicolons, strip.
  set (text := match sql_query with Some s => s | None => "" end).
  set (fenced := if startswith (stripWith isspace text) "```" then _ else _).
  set (unquoted := if (_ || _)%bool then _ else fenced).
  set (unescaped := replaceEscape _ _ (replaceEscape _ _ (replaceEscape _ _ _))).
  split; [| split].
  - apply rstripWith_keeps_first. unfold stripWith.
    apply rstripWith_keeps_first. apply lstripWith_first.
  - destruct (endswith _ ";") eqn:E; [| reflexivity].
    apply endsWith_last in E.
    pose proof (rstripWith_last (Ascii.eqb ";"%char)
                  (stripWith isspace unescaped)) as H.
    rewrite E in H. discriminate H.
  - pose proof (length_rstripWith (Ascii.eqb ";"%char)
                  (stripWith isspace unescaped)).
    pose proof (length_stripWith isspace unescaped).
    assert (String.length unescaped <= String.length unquoted)%nat.
    { unfold unescaped.
      pose proof (length_replaceEscape "r"%char carriage_return
                    (replaceEscape "t"%char tab
                       (replaceEscape "n"%char newline unquoted))).
      pose proof (length_replaceEscape "t"%char tab
                    (replaceEscape "n"%char newline unquoted)).
      pose proof (length_replaceEscape "n"%char newline unquoted).
      lia. }
    assert (String.length unquoted <= String.length fenced)%nat.
    { unfold unquoted. destruct (_ || _)%bool; [| lia].
      pose proof (length_dropLast (drop 1 fenced)).
      pose proof (length_drop 1 fenced). lia. }
    assert (String.length fenced <= String.length text)%nat.
    { pose proof (length_stripWith isspace text).
      unfold fenced. destruct (startswith _ "```"); [| lia].
      pose proof (length_stripWith (Ascii.eqb "`"%char)
                    (stripWith isspace text)).
      unfold strip_backticks.
      destruct (startswith _ _); [| lia].
      pose proof (length_drop 4 (stripWith (Ascii.eqb "`"%char)
                                   (stripWith isspace text))).
      lia. }
    lia.
Qed.

(** X17: what a normalised query looks like, whatever the input: it
    does not begin with whitespace, it does not end with a semicolon, and
    it is never longer than the text it was made from. *)
Theorem X17_normalized_query_shape (sql_query : option string) :
  satisfies isspace (firstChar (_normalize_sql_query sql_query)) = false
  /\ endswith (_normalize_sql_query sql_query) ";" = false
  /\ (String.length (_normalize_sql_query sql_query)
      <= String.length (match sql_query with Some s => s | None => "" end))%nat.
Proof. apply normalized_shape. Qed.

Lemma replaceEscape_plain (letter new : ascii) (s : string) :
  allChars noBackslash s = true -> replaceEscape letter new s = s.
Proof.
  induction s as [| c rest IH]; [reflexivity |].
  intro H. simpl in H. apply andb_prop in H. destruct H as (Hc & Hrest).
  destruct rest as [| d t]; [reflexivity |].
  change (replaceEscape letter new (String c (String d t)))
    with (if (Ascii.eqb c "\"%char && Ascii.eqb d letter)%bool
          then String new (replaceEscape letter new t)
          else String c (replaceEscape letter new (String d t))).
  unfold noBackslash in Hc. apply negb_true_iff in Hc. rewrite Hc.
  cbn [andb]. now rewrite IH.
Qed.

Lemma allChars_lstripWith (q p : ascii -> bool) (s : string) :
  allChars q s = true -> allChars q (lstripWith p s) = true.
Proof.
  induction s as [| c s IH]; [reflexivity |].
  intro H. simpl. destruct (p c); [| exact H].
  simpl in H. apply andb_prop in H. now apply IH.
Qed.

Lemma allChars_rstripWith (q p : ascii -> bool) (s : string) :
  allChars q s = true -> allChars q (rstripWith p s) = true.
Proof.
  induction s as [| c s IH]; [reflexivity |].
  intro H. simpl in H. apply andb_prop in H. destruct H as (Hc & Hs).
  specialize (IH Hs). simpl.
  destruct (rstripWith p s) as [| d kept].
  - destruct (p c); [reflexivity | simpl; now rewrite Hc].
  - change (allChars q (String c (String d kept)))
      with (q c && allChars q (String d kept))%bool.
    now rewrite Hc, IH.
Qed.

Lemma lstripWith_fixed (p : ascii -> bool) (s : string) :
  satisfies p (firstChar s) = false -> lstripWith p s = s.
Proof.
  destruct s as [| c s]; [reflexivity |]. simpl. now intros ->.
Qed.

Lemma rstripWith_twice (p : ascii -> bool) (s : string) :
  rstripWith p (rstripWith p s) = rstripWith p s.
Proof.
  induction s as [| c s IH]; [reflexivity |]. simpl.
  destruct (rstripWith p s) as [| d kept] eqn:E.
  - destruct (p c) eqn:Ec; [reflexivity |]. simpl. now rewrite Ec.
  - change (rstripWith p (String c (String d kept)))
      with (match rstripWith p (String d kept) with
            | EmptyString =>
                if p c then EmptyString else String c EmptyString
            | kept' => String c kept'
            end).
    now rewrite IH.
Qed.

Lemma stripWith_twice (p : ascii -> bool) (s : string) :
  stripWith p (stripWith p s) = stripWith p s.
Proof.
  unfold stripWith.
  rewrite (lstripWith_fixed p (rstripWith p (lstripWith p s))).
  - apply rstripWith_twice.
  - apply rstripWith_keeps_first. apply lstripWith_first.
Qed.

Lemma plain_query (s : string) :
  allChars noBackslash s = true ->
  startswith (strip s) "```" = false ->
  ((startswith (strip s) quote && endswith (strip s) quote)
   || (startswith (strip s) "'" && endswith (strip s) "'"))%bool = false ->
  _normalize_sql_query (Some s) = rstrip_semicolons (strip s).
Proof.
  intros Hplain Hfence Hquote. unfold _normalize_sql_query.
  rewrite Hfence, Hquote.
  assert (Hs : allChars noBackslash (strip s) = true).
  { unfold strip, stripWith.
    now apply allChars_rstripWith, allChars_lstripWith. }
  rewrite (replaceEscape_plain "n"%char newline (strip s) Hs).
  rewrite (replaceEscape_plain "t"%char tab (strip s) Hs).
  rewrite (replaceEscape_plain "r"%char carriage_return (strip s) Hs).
  unfold strip. now rewrite stripWith_twice.
Qed.

(** X18: an ordinary query passes through.  A text that holds no
    backslash and, once trimmed, neither opens with three backticks nor
    sits between a pair of quotes, is only trimmed of the surrounding
    whitespace and then of its trailing semicolons. *)
Theorem X18_plain_query_trimmed (s : string) :
  allChars noBackslash s = true ->
  startswith (strip s) "```" = false ->
  ((startswith (strip s) quote && endswith (strip s) quote)
   || (startswith (strip s) "'" && endswith (strip s) "'"))%bool = false ->
  _normalize_sql_query (Some s) = rstrip_semicolons (strip s).
Proof. apply plain_query. Qed.

Lemma X18_plain_query_trimmed_witness :
  _normalize_sql_query (Some "  SELECT team FROM matches;;  ")
  = "SELECT team FROM matches".
Proof.
  exact (X18_plain_query_trimmed "  SELECT team FROM matches;;  "
           eq_refl eq_refl eq_refl).
Defined.

Lemma count_replaceChar (old new : ascii) (s : string) :
  old <> new -> count old (replaceChar old new s) = 0%nat.
Proof.
  intro Hne. induction s as [| c s IH]; [reflexivity |]. simpl.
  rewrite IH. destruct (Ascii.eqb c old) eqn:E.
  - destruct (Ascii.eqb new old) eqn:E'; [| reflexivity].
    apply Ascii.eqb_eq in E'. congruence.
  - rewrite E. reflexivity.
Qed.

Lemma register_log (execute : string -> outcome value) (targets : list csv) :
  (exists n, fst (register execute targets)
             = map create_view (firstn n targets))
  /\ (snd (register execute targets) = Returned tt ->
      fst (register execute targets) = map create_view targets).
Proof.
  induction targets as [| f rest (IHn & IHall)].
  - split; [exists O |]; reflexivity.
  - cbn [register]. unfold run, bind.
    destruct (execute (create_view f)) as [v | e |].
    + destruct (register execute rest) as [log r] eqn:E.
      cbn [fst snd] in *. split.
      * destruct IHn as (n & Hn). exists (S n). cbn [firstn map app].
        now rewrite Hn.
      * intro H. cbn [map app]. now rewrite IHall.
    + split; [exists 1%nat; destruct rest; reflexivity | discriminate].
    + split; [exists 1%nat; destruct rest; reflexivity | discriminate].
Qed.

(** X19: registering the views sends one CREATE statement per CSV
    file, in the order of the files, and stops at the first one that
    fails: the statements sent are those of a beginning of the list, and
    of the whole list when the registration returns.  The name of a view
    holds no hyphen. *)
Theorem X19_views_registered (execute : string -> outcome value)
    (targets : list csv) :
  (exists n, fst (register execute targets)
             = map create_view (firstn n targets))
  /\ (snd (register execute targets) = Returned tt ->
      fst (register execute targets) = map create_view targets)
  /\ (forall f, count "-"%char (replaceChar "-"%char "_"%char (stem f)) = 0%nat).
Proof.
  destruct (register_log execute targets) as (Hn & Hall).
  split; [exact Hn |]. split; [exact Hall |].
  intro f. apply count_replaceChar. discriminate.
Qed.

(** X20: [execute_sql_on_csv] has no gate.  Once the views are
    registered, the normalised query is sent as it is, whatever it begins
    with and without a row limit; the text returned is the CSV rendering,
    index included, of what that one statement produced. *)
Theorem X20_execute_sql_ungated (execute : string -> outcome value)
    (csv_files : list csv) (to_csv : bool -> value -> outcome string)
    (sql_query : option string) :
  (snd (register_csv_views execute csv_files) = Returned tt ->
   fst (IplTools.execute_sql_on_csv execute csv_files to_csv sql_query)
   = (fst (register_csv_views execute csv_files)
      ++ [_normalize_sql_query sql_query])%list)
  /\ (forall text,
        snd (IplTools.execute_sql_on_csv execute csv_files to_csv sql_query)
        = Returned text ->
        exists result_df,
          execute (_normalize_sql_query sql_query) = Returned result_df
          /\ to_csv true result_df = Returned text).
Proof.
  unfold IplTools.execute_sql_on_csv.
  destruct (register_csv_views execute csv_files) as [log [[] | e |]];
    cbn [fst snd bind]; unfold run, lift.
  - destruct (execute (_normalize_sql_query sql_query)) as [df | e |];
      cbn [bind fst snd].
    + rewrite app_nil_r. split; [reflexivity |].
      intros text H. exists df. split; [reflexivity | exact H].
    + split; [reflexivity | discriminate].
    + split; [reflexivity | discriminate].
  - split; discriminate.
  - split; discriminate.
Qed.

(** X21: [read_csv_with_schema] returns a report only after the views
    and then the sample, schema and count statements, in that order, have
    all been answered; the table name is spliced into the three
    statements as it is, and the report holds the CSV renderings, index
    excluded, of the first two answers and the third answer itself. *)
Theorem X21_schema_report (execute : string -> outcome value)
    (csv_files : list csv) (to_csv : bool -> value -> outcome string)
    (table : string) (report : IplTools.schema_report) :
  snd (IplTools.read_csv_with_schema execute csv_files to_csv table)
  = Returned report ->
  fst (IplTools.read_csv_with_schema execute csv_files to_csv table)
  = (map create_view csv_files
     ++ [("SELECT * FROM " ++ table ++ " LIMIT 50")%string;
         ("DESCRIBE SELECT * FROM " ++ table)%string;
         ("SELECT COUNT(*) AS rows FROM " ++ table)%string])%list
  /\ exists sample_df schema_df,
       execute ("SELECT * FROM " ++ table ++ " LIMIT 50") = Returned sample_df
       /\ execute ("DESCRIBE SELECT * FROM " ++ table) = Returned schema_df
       /\ execute ("SELECT COUNT(*) AS rows FROM " ++ table)
          = Returned (IplTools.row_count report)
       /\ to_csv false sample_df = Returned (IplTools.sample_csv report)
       /\ to_csv false schema_df = Returned (IplTools.schema_csv report).
Proof.
  unfold IplTools.read_csv_with_schema, register_csv_views.
  destruct (register_log execute csv_files) as (_ & Hall).
  destruct (register execute csv_files) as [log [[] | e |]];
    cbn [fst snd bind] in *; try discriminate.
  rewrite (Hall eq_refl). unfold run, lift.
  fold (IplTools.sample_query table) (IplTools.schema_query table)
       (IplTools.count_query table).
  destruct (execute (IplTools.sample_query table)) as [sample_df | e |];
    cbn [fst snd bind]; try discriminate.
  destruct (execute (IplTools.schema_query table)) as [schema_df | e |];
    cbn [fst snd bind]; try discriminate.
  destruct (execute (IplTools.count_query table)) as [rows | e |];
    cbn [fst snd bind]; try discriminate.
  destruct (to_csv false sample_df) as [sample | e |] eqn:Hsample;
    cbn [fst snd bind]; try discriminate.
  destruct (to_csv false schema_df) as [schema | e |] eqn:Hschema;
    cbn [fst snd bind ret]; try discriminate.
  intro H. injection H as <-. cbn [app]. rewrite ?app_nil_r.
  split; [reflexivity |].
  exists sample_df, schema_df. cbn. auto.
Qed.

Lemma X21_schema_report_witness :
  fst (IplTools.read_csv_with_schema
         (fun _ => Returned (VArr []))
         [{| stem := "ipl-matches"; as_posix := "/data/ipl-matches.csv" |}]
         (fun _ _ => Returned "") "ipl_matches")
  = ["CREATE OR REPLACE VIEW ipl_matches AS SELECT * FROM read_csv_auto('/data/ipl-matches.csv')";
     "SELECT * FROM ipl_matches LIMIT 50";
     "DESCRIBE SELECT * FROM ipl_matches";
     "SELECT COUNT(*) AS rows FROM ipl_matches"].
Proof.
  exact (proj1 (X21_schema_report
                  (fun _ => Returned (VArr []))
                  [{| stem := "ipl-matches";
                      as_posix := "/data/ipl-matches.csv" |}]
                  (fun _ _ => Returned "") "ipl_matches" _ eq_refl)).
Defined.

(** *** Properties of the texts the pipeline produces *)

Lemma length_take (n : nat) (s : string) :
  String.length (Markup.take n s) = Nat.min n (String.length s).
Proof.
  unfold Markup.take. revert s.
  induction n as [| n IH]; intros [| c s]; simpl; try reflexivity.
  now rewrite IH.
Qed.

Lemma take_all (n : nat) (s : string) :
  (String.length s <= n)%nat -> Markup.take n s = s.
Proof.
  unfold Markup.take. revert s.
  induction n as [| n IH]; intros [| c s] H; simpl in *;
    try reflexivity; try lia.
  rewrite IH by lia. reflexivity.
Qed.

(** X22: a preview is never longer than the limit and the three dots
    of the ellipsis; a text whose compact form fits the limit is shown in
    full, without ellipsis. *)
Theorem X22_preview_bounded (code : option string) (limit : nat) :
  (String.length (Markup._preview code limit) <= limit + 3)%nat
  /\ (forall text,
        code = Some text ->
        (String.length (joinWith " " (Markup.split (strip text))) <= limit)%nat ->
        Markup._preview code limit
        = joinWith " " (Markup.split (strip text))).
Proof.
  split.
  - destruct code as [[| c text] |]; simpl Markup._preview; try (simpl; lia).
    rewrite length_append, length_take.
    destruct (limit <? _)%nat; simpl; lia.
  - intros text -> Hfit. destruct text as [| c text]; [reflexivity |].
    unfold Markup._preview.
    apply Nat.ltb_ge in Hfit. rewrite Hfit.
    apply Nat.ltb_ge in Hfit. rewrite take_all by exact Hfit.
    clear. induction (joinWith _ _) as [| d s IH]; simpl;
      [reflexivity | now rewrite IH].
Qed.

Lemma allChars_append (p : ascii -> bool) (a b : string) :
  allChars p (a ++ b) = (allChars p a && allChars p b)%bool.
Proof.
  induction a as [| c a IH]; simpl; [reflexivity |].
  now rewrite IH, andb_assoc.
Qed.

Lemma allChars_take (p : ascii -> bool) (n : nat) (s : string) :
  allChars p s = true -> allChars p (Markup.take n s) = true.
Proof.
  unfold Markup.take. revert s.
  induction n as [| n IH]; intros [| c s] H; simpl in *; try reflexivity.
  apply andb_prop in H. destruct H as (Hc & Hs).
  now rewrite Hc, IH.
Qed.

Lemma split_from_words (word s : string) :
  allChars (fun c => negb (isspace c)) word = true ->
  Forall (fun w => allChars (fun c => negb (isspace c)) w = true)
         (Markup.split_from word s).
Proof.
  revert word. induction s as [| c s IH]; intros word Hw; simpl.
  - destruct word; [constructor | constructor; [exact Hw | constructor]].
  - destruct (isspace c) eqn:E.
    + destruct word; [now apply IH |].
      constructor; [exact Hw | now apply IH].
    + apply IH. rewrite allChars_append, Hw. simpl. now rewrite E.
Qed.

Lemma allChars_weaken (p q : ascii -> bool) (s : string) :
  (forall c, p c = true -> q c = true) ->
  allChars p s = true -> allChars q s = true.
Proof.
  intro Hpq. induction s as [| c s IH]; simpl; [reflexivity |].
  intro H. apply andb_prop in H. destruct H as (Hc & Hs).
  now rewrite (Hpq c Hc), IH.
Qed.

Lemma allChars_joinWith (p : ascii -> bool) (sep : string)
    (parts : list string) :
  allChars p sep = true ->
  Forall (fun w => allChars p w = true) parts ->
  allChars p (joinWith sep parts) = true.
Proof.
  intros Hsep Hparts. induction Hparts as [| w rest Hw Hrest IH];
    [reflexivity |].
  destruct rest as [| w' rest']; [exact Hw |].
  change (joinWith sep (w :: w' :: rest'))
    with (w ++ sep ++ joinWith sep (w' :: rest')).
  now rewrite !allChars_append, Hw, Hsep, IH.
Qed.

(** X23: a preview is a single line: it holds no whitespace character
    other than the plain space (no newline, no tab), whatever the code it
    was made from. *)
Theorem X23_preview_one_line (code : option string) (limit : nat) :
  allChars oneLine (Markup._preview code limit) = true.
Proof.
  destruct code as [[| c text] |]; try reflexivity.
  unfold Markup._preview. rewrite allChars_append.
  apply andb_true_intro. split.
  - apply allChars_take. apply allChars_joinWith; [reflexivity |].
    unfold Markup.split.
    eapply Forall_impl; [| apply split_from_words; reflexivity].
    intros w Hw. eapply allChars_weaken; [| exact Hw].
    intros a Ha. unfold oneLine. now rewrite Ha.
  - destruct (limit <? _)%nat; reflexivity.
Qed.

Lemma count_append (c : ascii) (a b : string) :
  count c (a ++ b) = (count c a + count c b)%nat.
Proof.
  induction a as [| d a IH]; simpl; [reflexivity |]. rewrite IH. lia.
Qed.

Lemma count_replaceWith (c old : ascii) (new s : string) :
  count c (Markup.replaceWith old new s)
  = (count old s * count c new
     + (if Ascii.eqb old c then 0 else count c s))%nat.
Proof.
  induction s as [| d s IH]; simpl; [now destruct (Ascii.eqb old c) |].
  rewrite count_append, IH.
  destruct (Ascii.eqb d old) eqn:Edo.
  - apply Ascii.eqb_eq in Edo. subst d.
    destruct (Ascii.eqb old c); lia.
  - simpl. destruct (Ascii.eqb old c) eqn:Eoc.
    + apply Ascii.eqb_eq in Eoc. subst c. rewrite Edo. lia.
    + destruct (Ascii.eqb d c); lia.
Qed.

Lemma count_escape (s : string) :
  count "<"%char (Markup.escape s) = 0%nat
  /\ count ">"%char (Markup.escape s) = 0%nat
  /\ count Markup.quote_char (Markup.escape s) = 0%nat
  /\ count "'"%char (Markup.escape s) = 0%nat
  /\ count "&"%char (Markup.escape s)
     = (count "&"%char s + count "<"%char s + count ">"%char s
        + count Markup.quote_char s + count "'"%char s)%nat.
Proof.
  unfold Markup.escape. rewrite !count_replaceWith.
  let q := eval cbv in Markup.quote_char in
  change Markup.quote_char with q.
  cbn [Ascii.eqb Bool.eqb count Nat.add].
  repeat split; lia.
Qed.

(** X24: escaping leaves none of the four characters that could end
    an attribute value or open a tag, and every ampersand of the escaped
    text begins one of the five entities: there are as many ampersands as
    the text had special characters. *)
Theorem X24_escape_safe (s : string) :
  count "<"%char (Markup.escape s) = 0%nat
  /\ count ">"%char (Markup.escape s) = 0%nat
  /\ count Markup.quote_char (Markup.escape s) = 0%nat
  /\ count "'"%char (Markup.escape s) = 0%nat
  /\ count "&"%char (Markup.escape s)
     = (count "&"%char s + count "<"%char s + count ">"%char s
        + count Markup.quote_char s + count "'"%char s)%nat.
Proof. apply count_escape. Qed.

Lemma allChars_count (p : ascii -> bool) (c : ascii) (s : string) :
  allChars p s = true -> p c = false -> count c s = 0%nat.
Proof.
  intros Hs Hc. induction s as [| d s IH]; [reflexivity |].
  simpl in *. apply andb_prop in Hs. destruct Hs as (Hd & Hs).
  rewrite (IH Hs). destruct (Ascii.eqb d c) eqn:E; [| reflexivity].
  apply Ascii.eqb_eq in E. congruence.
Qed.

Lemma digits_of_uint (d : Decimal.uint) :
  allChars digitOrMinus (NilEmpty.string_of_uint d) = true.
Proof. induction d; simpl; try reflexivity; exact IHd. Qed.

Lemma digits_of_decimal (z : Z) : allChars digitOrMinus (decimal z) = true.
Proof.
  unfold decimal.
  assert (H : forall d, allChars digitOrMinus (NilZero.string_of_uint d) = true).
  { intro d. destruct d; try reflexivity; apply (digits_of_uint (_ d)). }
  destruct (Z.to_int z); simpl; [apply H |].
  change (digitOrMinus "-"%char) with true. apply H.
Qed.

(** X25: the frame's markup cannot be broken by what the chart holds.
    Whatever the script and the figure in it, and whatever the height,
    the markup has exactly the eight double quotes that delimit its four
    attributes, and the two angle brackets of each of its two tags. *)
Theorem X25_iframe_attributes (script_html : string) (default_height : Z) :
  count Markup.quote_char (Markup.iframe_html script_html default_height)
  = 8%nat
  /\ count "<"%char (Markup.iframe_html script_html default_height) = 2%nat
  /\ count ">"%char (Markup.iframe_html script_html default_height) = 2%nat.
Proof.
  destruct (count_escape (Markup.srcdoc script_html))
    as (Hlt & Hgt & Hquote & _).
  pose proof (digits_of_decimal default_height) as Hd.
  unfold Markup.iframe_html. rewrite !count_append.
  rewrite Hlt, Hgt, Hquote.
  rewrite (allChars_count digitOrMinus Markup.quote_char _ Hd eq_refl).
  rewrite (allChars_count digitOrMinus "<"%char _ Hd eq_refl).
  rewrite (allChars_count digitOrMinus ">"%char _ Hd eq_refl).
  repeat split; reflexivity.
Qed.

(** *** Properties of the example tools *)


(** X27: the report of [inspect_user_context] shows of the user
    payload only the display name (the name when there is none), the
    e-mail address and the provider: two payloads that agree on these
    four keys give the same report, whatever else they hold. *)
Theorem X27_user_context_exposure (randint : Z)
    (others : list (string * Basic.entry))
    (user user' : list (string * value)) :
  (forall k, In k ["display_name"; "name"; "email"; "provider"] ->
             assoc k user = assoc k user') ->
  Basic.inspect_user_context randint
    (Basic.DepsDict (("pylogue_user", Basic.Data (VObj user)) :: others))
  = Basic.inspect_user_context randint
      (Basic.DepsDict (("pylogue_user", Basic.Data (VObj user')) :: others)).
Proof.
  intro H. unfold Basic.inspect_user_context, Basic.user_get.
  cbn [Basic.find String.eqb Ascii.eqb Bool.eqb].
  rewrite !(H "display_name"), !(H "name"), !(H "email"), !(H "provider");
    simpl; auto 6.
Qed.

Lemma X27_user_context_exposure_witness :
  Basic.inspect_user_context 4821
    (Basic.DepsDict
       [("pylogue_user",
         Basic.Data (VObj [("name", VStr "Asha"); ("email", VStr "a@x.org");
                           ("token", VStr "s3cr3t")]))])
  = VObj [("ok", VBool true); ("name", VStr "Asha");
          ("email", VStr "a@x.org"); ("provider", VNull);
          ("session_sig", VStr "haiku-4821")].
Proof.
  rewrite (X27_user_context_exposure 4821 []
             [("name", VStr "Asha"); ("email", VStr "a@x.org");
              ("token", VStr "s3cr3t")]
             [("name", VStr "Asha"); ("email", VStr "a@x.org")]).
  - reflexivity.
  - intros k [<- | [<- | [<- | [<- | []]]]]; reflexivity.
Defined.

(** *** The SQL gate (C9) *)

(** C9, refuted as stated: a query that begins with DROP is answered
    only after the statements that register the views were sent to the
    database, and, when the database refuses those, by the exception and
    not by the error string.  Besides, the statement sent for an accepted
    query can end in a comment that holds the bounding clause. *)
Lemma C9_counterexample :
  render_plotly_chart exampleTypeName true (fun rows => Returned rows)
    (fun _ => Returned "{}") (fun _ => Returned "html-1")
    (fun _ => Returned (VArr [])) [C9_matches]
    (Some "DROP TABLE matches") C10_number
  = (["CREATE OR REPLACE VIEW ipl_matches AS SELECT * FROM read_csv_auto('/data/ipl-matches.csv')"],
     Returned (Text only_select))
  /\ render_plotly_chart exampleTypeName true (fun rows => Returned rows)
       (fun _ => Returned "{}") (fun _ => Returned "html-1")
       (fun _ => Raised C9_refused) [C9_matches]
       (Some "DROP TABLE matches") C10_number
     = (["CREATE OR REPLACE VIEW ipl_matches AS SELECT * FROM read_csv_auto('/data/ipl-matches.csv')"],
        Raised C9_refused)
  /\ fst (render_plotly_chart exampleTypeName true (fun rows => Returned rows)
            (fun _ => Returned "{}") (fun _ => Returned "html-1")
            (fun _ => Returned (VArr [])) []
            (Some C9_escaping) C10_number)
     = ["SELECT * FROM (select * from matches) t --) t LIMIT 2000"].
Proof. repeat split. Qed.

(** C9, amended: [render_plotly_chart] first sends the statements
    that register the views, one per CSV file; when one of them fails, the
    failure leaves the function and nothing else is sent.  Otherwise a
    query whose normalised text does not begin with "select" (in any
    letter case), such as one that begins with DROP, is answered by the
    error string and nothing else is sent; for a query that does, the
    pipeline is run, and the one statement it sends for the data, when the
    dependencies are there, is the text [SELECT * FROM (q) t LIMIT 2000],
    [q] being the normalised text normalised once more.  Normalising
    trims the text, takes away a fence of backticks with its [sql] tag and
    a pair of surrounding quotes, replaces the escapes [\n], [\t] and [\r]
    and drops the trailing semicolons: the result neither begins with
    whitespace nor ends with a semicolon (whitespace before a dropped
    semicolon stays), and a text without backslash, fence or quotes is
    trimmed and loses its trailing semicolons. *)
Theorem C9_select_only (typeName : value -> string) (dependencies : bool)
    (DataFrame : value -> outcome value)
    (json_dumps : value -> outcome string)
    (store_html : artifact -> outcome string)
    (execute : string -> outcome value) (csv_files : list csv)
    (sql_query : option string) (snippet : scope -> outcome scope) :
  let normalized_query := _normalize_sql_query sql_query in
  let accepted := startswith (lower normalized_query) "select" in
  let wrapped :=
    ("SELECT * FROM ("
     ++ _normalize_sql_query (Some normalized_query) ++ ") t LIMIT 2000")%string in
  let views := register_csv_views execute csv_files in
  let pipeline :=
    render_plotly_chart_py typeName dependencies DataFrame json_dumps
      store_html (Some (_sql_query_runner execute)) (Some normalized_query)
      snippet in
  let outcome :=
    render_plotly_chart typeName dependencies DataFrame json_dumps store_html
      execute csv_files sql_query snippet in
  ((exists n, fst views = map create_view (firstn n csv_files))
   /\ (snd views = Returned tt -> fst views = map create_view csv_files))
  /\ (forall e, snd views = Raised e -> outcome = (fst views, Raised e))
  /\ (snd views = Diverged -> outcome = (fst views, Diverged))
  /\ (snd views = Returned tt -> accepted = false ->
      outcome = (fst views, Returned (Text only_select)))
  /\ (snd views = Returned tt -> accepted = true ->
      outcome = ((fst views ++ fst pipeline)%list, snd pipeline)
      /\ fst pipeline = if dependencies then [wrapped] else [])
  /\ (exists fetched,
        fst outcome = (fst views ++ fetched)%list
        /\ (fetched = [] \/ (fetched = [wrapped] /\ accepted = true)))
  /\ (satisfies isspace (firstChar normalized_query) = false
      /\ endswith normalized_query ";" = false)
  /\ (forall s,
        sql_query = Some s ->
        allChars noBackslash s = true ->
        startswith (strip s) "```" = false ->
        ((startswith (strip s) quote && endswith (strip s) quote)
         || (startswith (strip s) "'" && endswith (strip s) "'"))%bool
        = false ->
        normalized_query = rstrip_semicolons (strip s))
  /\ (_normalize_sql_query None = ""
      /\ _normalize_sql_query (Some C9_fenced) = "SELECT team FROM matches"
      /\ _normalize_sql_query (Some C9_quoted) = "select team from matches"
      /\ _normalize_sql_query (Some C9_double_quoted)
         = "select team from matches "
      /\ _normalize_sql_query (Some C9_escaped)
         = ("select team" ++ String newline "from"
            ++ String tab "matches"
            ++ String carriage_return "")%string
      /\ startswith
           (lower (_normalize_sql_query (Some "  DROP TABLE matches; ")))
           "select" = false).
Proof.
  intros normalized_query accepted wrapped views pipeline outcome.
  assert (Hout : outcome
                 = bind views (fun _ =>
                     if negb accepted then ret (Text only_select)
                     else pipeline))
    by reflexivity.
  assert (Hst : fst pipeline = if dependencies then [wrapped] else [])
    by apply statements_of_render.
  split; [| split; [| split; [| split; [| split; [| split; [| split;
    [| split]]]]]]].
  - apply register_log.
  - intros e He. rewrite Hout. destruct views as [log [[] | e' |]];
      try discriminate He. cbn in *. now injection He as ->.
  - intro Hd. rewrite Hout. destruct views as [log [[] | e' |]];
      try discriminate Hd. reflexivity.
  - intros Hv Hacc. rewrite Hout, Hacc. cbn [negb].
    destruct views as [log [[] | e |]]; try discriminate Hv.
    cbn. now rewrite app_nil_r.
  - intros Hv Hacc. split; [| exact Hst]. rewrite Hout, Hacc. cbn [negb].
    destruct views as [log [[] | e |]]; try discriminate Hv.
    cbn. now destruct pipeline.
  - rewrite Hout. destruct views as [log [[] | e |]]; simpl.
    + destruct accepted; cbn [negb].
      * destruct pipeline as [log' r]. simpl in Hst. subst log'. simpl.
        destruct dependencies; eexists; split; try reflexivity; auto.
      * exists []. simpl. auto.
    + exists []. rewrite app_nil_r. auto.
    + exists []. rewrite app_nil_r. auto.
  - destruct (normalized_shape sql_query) as (H1 & H2 & _). now split.
  - intros s -> Hplain Hfence Hquote. now apply plain_query.
  - repeat split.
Qed.

(** A rejected query, with one view to register: the view statement is
    sent, the error string comes back and nothing is fetched. *)
Lemma C9_select_only_witness :
  render_plotly_chart exampleTypeName true (fun rows => Returned rows)
    (fun _ => Returned "{}") (fun _ => Returned "html-1")
    (fun _ => Returned (VArr [])) [C9_matches]
    (Some "DROP TABLE matches") C10_number
  = (map create_view [C9_matches], Returned (Text only_select)).
Proof.
  destruct (C9_select_only exampleTypeName true (fun rows => Returned rows)
              (fun _ => Returned "{}") (fun _ => Returned "html-1")
              (fun _ => Returned (VArr [])) [C9_matches]
              (Some "DROP TABLE matches") C10_number)
    as (_ & _ & _ & H & _).
  exact (H eq_refl eq_refl).
Defined.
